(** * Function calling notebooks: a shallow embedding

    The repository is five Jupyter notebooks (one file of the sources holds
    two of them) that send a prompt and a list of function schemas to a chat
    model, read back the function the model chose together with its JSON
    arguments, and call a local Python function of that name.

    This development embeds the Python of the code cells:

    - Python values as they come out of [json.loads] ([value]), strings as
      sequences of code points ([pystr]);
    - exceptions as an outcome ([Raises]) next to the normal result
      ([Returns]), threaded with the state the cells touch (what was printed,
      the HTTP requests sent, the local functions entered) in the monad [M];
    - one module per notebook, holding its functions under their own names.

    The interpreter is the one the notebooks record in their metadata
    ([language_info]), CPython 3.10.6, and what the embedding takes from
    Python follows that version. Two things differ in later versions. From
    3.10.7 on, the conversions between [int] and decimal text ([int(s)],
    which [json.loads] uses, and [str(n)], which [print] uses) raise
    ValueError on more than 4300 digits, by default; in 3.10.6 they have no
    limit, and neither have [Json.loads] and [print] here. From 3.12 on,
    [sum] adds floats with a compensation for the rounding; in 3.10.6 it
    adds them from left to right and rounds after each step, as
    [Arithmetic.add] does here. The statements whose point is the size of
    the integers written in decimal keep to 4300 digits
    ([within_str_digits]), where all versions agree. *)

From Stdlib Require Import ZArith NArith Lia List Ascii String.
From Corelib Require Import SpecFloat.
From stdpp Require Import base option list gmap.

Set Default Proof Using "Type".

(** ** Strings

    A Python [str] is a sequence of Unicode code points. *)

Abbreviation pychar := N (only parsing).
Abbreviation pystr := (list N) (only parsing).

(** A literal of the notebooks, written here as a Rocq string of ASCII
    characters. *)
Definition py (s : string) : pystr :=
  List.map N_of_ascii (list_ascii_of_string s).
Arguments py : simpl never.

(** The double quote, which the literals above cannot hold. *)
Definition dquote : pychar := 34%N.

(** ** Floats

    A Python [float] is an IEEE 754 binary64 number: 53 bits of precision,
    exponent of the infinities 1024. *)

Definition pyfloat := spec_float.
Definition prec64 : Z := 53.
Definition emax64 : Z := 1024.

Definition float_add : pyfloat -> pyfloat -> pyfloat := SFadd prec64 emax64.
Definition float_mul : pyfloat -> pyfloat -> pyfloat := SFmul prec64 emax64.

(** The float nearest to [m * 10 ^ e10] (ties to even), as [float("...")]
    makes it of a decimal literal with digits [m] and exponent [e10]. *)
Definition float_of_decimal (neg : bool) (m : N) (e10 : Z) : pyfloat :=
  match m with
  | N0 => S754_zero neg
  | Npos p =>
      if (0 <=? e10)%Z then
        let v := (Z.pos p * 10 ^ e10)%Z in
        binary_normalize prec64 emax64 (if neg then (- v)%Z else v) 0%Z neg
      else
        let d := (10 ^ (- e10))%Z in
        let s := Z.max 0 (64 + Z.log2 d + 1 - Z.log2 (Z.pos p)) in
        let n := (Z.pos p * 2 ^ s)%Z in
        let q := (n / d)%Z in
        let r := (n mod d)%Z in
        let loc := if (r =? 0)%Z then loc_Exact else loc_Inexact (2 * r ?= d)%Z in
        binary_round_aux prec64 emax64 neg q (- s)%Z loc
  end.

(** ** Values

    What [json.loads] builds: [None], [bool], [int], [float], [str], [list]
    and [dict]. A [dict] keeps its keys in insertion order. *)

#[warnings="-register-all"]
Inductive value : Type :=
  | VNone
  | VBool (b : bool)
  | VInt (z : Z)
  | VFloat (f : pyfloat)
  | VStr (s : pystr)
  | VList (l : list value)
  | VDict (d : list (pystr * value)).

(** ** Exceptions *)

Inductive exn_type : Type :=
  | JSONDecodeError
  | KeyError
  | TypeError
  | AttributeError
  | IndexError
  | OverflowError
  | ConnectionError
  | RetryError
  | OtherError (class : pystr).

(** An exception: its class and the text [str(e)] gives. The notebooks read
    that text in two places, the f-strings of [ask_database] and of
    [chat_completion_request], where [e] comes from sqlite3 and from
    requests; the exceptions the embedded Python operations raise themselves
    carry a short note of what failed, not CPython's wording. *)
Record exn : Type := Exn { exn_class : exn_type; exn_text : pystr }.

Inductive outcome (A : Type) : Type :=
  | Returns (a : A)
  | Raises (e : exn).
Arguments Returns {A} a.
Arguments Raises {A} e.

Definition type_error (what : string) : exn := Exn TypeError (py what).
Definition key_error (key : pystr) : exn := Exn KeyError key.

(** The monad of computations that may raise, before any state. *)
#[global] Instance outcome_ret : MRet outcome := fun A a => Returns a.
#[global] Instance outcome_bind : MBind outcome := fun A B f m =>
  match m with
  | Returns a => f a
  | Raises e => Raises e
  end.

(** ** Operations of Python on values *)

Fixpoint dict_get (d : list (pystr * value)) (key : pystr) : option value :=
  match d with
  | [] => None
  | (k, v) :: rest => if decide (k = key) then Some v else dict_get rest key
  end.

(** [d[key] = v]: a key already there keeps its place and takes the new
    value, a new key goes last. *)
Fixpoint dict_set (d : list (pystr * value)) (key : pystr) (v : value)
  : list (pystr * value) :=
  match d with
  | [] => [(key, v)]
  | (k, x) :: rest =>
      if decide (k = key) then (k, v) :: rest else (k, x) :: dict_set rest key v
  end.

(** [v[key]] for a string key. *)
Definition getitem (v : value) (key : pystr) : outcome value :=
  match v with
  | VDict d =>
      match dict_get d key with
      | Some x => Returns x
      | None => Raises (key_error key)
      end
  | _ => Raises (type_error "subscript with a str key")
  end.

(** What [*v] in a call, or [for x in v], draws from [v]. *)
Definition iterate (v : value) : outcome (list value) :=
  match v with
  | VList l => Returns l
  | VStr s => Returns (List.map (fun c => VStr [c]) s)
  | VDict d => Returns (List.map (fun kv => VStr (fst kv)) d)
  | _ => Raises (type_error "object is not iterable")
  end.

Inductive number : Type :=
  | NInt (z : Z)
  | NFloat (f : pyfloat).

(** [bool] is a subclass of [int]: [True] counts as 1, [False] as 0. *)
Definition as_number (v : value) : option number :=
  match v with
  | VBool b => Some (NInt (if b then 1 else 0)%Z)
  | VInt z => Some (NInt z)
  | VFloat f => Some (NFloat f)
  | _ => None
  end.

(** [float(z)] as arithmetic does it: the nearest float, or OverflowError. *)
Definition float_of_int (z : Z) : outcome pyfloat :=
  match binary_normalize prec64 emax64 z 0%Z false with
  | S754_infinity _ => Raises (Exn OverflowError (py "int too large to convert to float"))
  | f => Returns f
  end.

Definition to_float (n : number) : outcome pyfloat :=
  match n with
  | NInt z => float_of_int z
  | NFloat f => Returns f
  end.

Definition repeat_seq {A} (l : list A) (n : Z) : list A :=
  List.concat (List.repeat l (Z.to_nat n)).

(** [a + b]. *)
Definition py_add (a b : value) : outcome value :=
  match as_number a, as_number b with
  | Some (NInt x), Some (NInt y) => Returns (VInt (x + y))
  | Some x, Some y =>
      fx ← to_float x; fy ← to_float y; Returns (VFloat (float_add fx fy))
  | _, _ =>
      match a, b with
      | VStr s, VStr t => Returns (VStr (s ++ t))
      | VList l, VList m => Returns (VList (l ++ m))
      | _, _ => Raises (type_error "unsupported operand type(s) for +")
      end
  end.

(** [a * b]: a product of numbers, or a sequence repeated an [int] number
    of times. *)
Definition py_mul (a b : value) : outcome value :=
  match as_number a, as_number b with
  | Some (NInt x), Some (NInt y) => Returns (VInt (x * y))
  | Some x, Some y =>
      fx ← to_float x; fy ← to_float y; Returns (VFloat (float_mul fx fy))
  | Some (NInt n), None | None, Some (NInt n) =>
      match a, b with
      | VStr s, _ | _, VStr s => Returns (VStr (repeat_seq s n))
      | VList l, _ | _, VList l => Returns (VList (repeat_seq l n))
      | _, _ => Raises (type_error "unsupported operand type(s) for *")
      end
  | _, _ => Raises (type_error "unsupported operand type(s) for *")
  end.

(** ** [json.loads]

    The decoder of CPython's [json] module with its default settings, on a
    [str] document: strict strings, [NaN] and the infinities accepted, a
    number with a fraction or an exponent read as a [float] and any other as
    an [int], the last of two equal keys kept. Every failure is a
    JSONDecodeError. The recursion is bounded by fuel, which the length of
    the document covers ([loads_fuel_suffices] below); CPython gives up with
    RecursionError on a document nested some thousand levels deep, which
    this decoder reads. An integer is read whatever the number of its
    digits, as CPython 3.10.6 reads it (later versions stop at 4300 digits,
    see the head of the file). *)

Module Json.

Local Open Scope N_scope.

Definition is_ws (c : pychar) : bool :=
  (c =? 32) || (c =? 9) || (c =? 10) || (c =? 13).

Fixpoint skip_ws (s : pystr) : pystr :=
  match s with
  | c :: r => if is_ws c then skip_ws r else s
  | [] => []
  end.

Definition is_digit (c : pychar) : bool := (48 <=? c) && (c <=? 57).

Definition hex_digit (c : pychar) : option N :=
  if is_digit c then Some (c - 48)
  else if (97 <=? c) && (c <=? 102) then Some (c - 87)
  else if (65 <=? c) && (c <=? 70) then Some (c - 55)
  else None.

(** The four hex digits of a [\uXXXX] escape. *)
Definition hex4 (s : pystr) : option (N * pystr) :=
  match s with
  | a :: b :: c :: d :: rest =>
      a ← hex_digit a; b ← hex_digit b; c ← hex_digit c; d ← hex_digit d;
      Some (((a * 16 + b) * 16 + c) * 16 + d, rest)
  | _ => None
  end.

Definition simple_escape (c : pychar) : option pychar :=
  if (c =? 34) || (c =? 92) || (c =? 47) then Some c
  else if c =? 98 then Some 8
  else if c =? 102 then Some 12
  else if c =? 110 then Some 10
  else if c =? 114 then Some 13
  else if c =? 116 then Some 9
  else None.

Definition is_high_surrogate (c : N) : bool := (55296 <=? c) && (c <=? 56319).
Definition is_low_surrogate (c : N) : bool := (56320 <=? c) && (c <=? 57343).
Definition join_surrogates (hi lo : N) : N :=
  65536 + (hi - 55296) * 1024 + (lo - 56320).

(** The body of a string, from just after its opening quote: the decoded
    text and what follows the closing quote. *)
Fixpoint scanstring (fuel : nat) (s acc : pystr) : option (pystr * pystr) :=
  match fuel, s with
  | O, _ | _, [] => None
  | S fuel, c :: r =>
      if c =? 34 then Some (rev acc, r)
      else if c =? 92 then
        match r with
        | [] => None
        | e :: r1 =>
            if e =? 117 then
              '(cp, r2) ← hex4 r1;
              match r2 with
              | b :: u :: r3 =>
                  if is_high_surrogate cp && (b =? 92) && (u =? 117) then
                    '(cp2, r4) ← hex4 r3;
                    if is_low_surrogate cp2
                    then scanstring fuel r4 (join_surrogates cp cp2 :: acc)
                    else scanstring fuel r2 (cp :: acc)
                  else scanstring fuel r2 (cp :: acc)
              | _ => scanstring fuel r2 (cp :: acc)
              end
            else
              x ← simple_escape e; scanstring fuel r1 (x :: acc)
        end
      else if c <? 32 then None
      else scanstring fuel r (c :: acc)
  end.

Fixpoint take_digits (s : pystr) : pystr * pystr :=
  match s with
  | c :: r =>
      if is_digit c then let '(ds, rest) := take_digits r in (c :: ds, rest)
      else ([], s)
  | [] => ([], [])
  end.

Definition digits_value (ds : pystr) : N :=
  fold_left (fun a c => a * 10 + (c - 48)) ds 0.

(** The parts of a number: an optional minus sign; then 0 or a digit string
    that does not start with 0; then, optionally, a point with one digit or
    more; then, optionally, e or E, an optional sign, and one digit or more.
    A point or an exponent mark that is not followed by its digits is not
    part of the number. *)
Definition scan_sign (s : pystr) : bool * pystr :=
  match s with
  | c :: r => if c =? 45 then (true, r) else (false, s)
  | [] => (false, s)
  end.

Definition scan_int_part (s : pystr) : option (pystr * pystr) :=
  match s with
  | c :: r => if c =? 48 then Some ([c], r)
              else if is_digit c then Some (take_digits s)
              else None
  | [] => None
  end.

Definition scan_fraction (s : pystr) : pystr * pystr :=
  match s with
  | c :: r =>
      if c =? 46 then
        match take_digits r with
        | ([], _) => ([], s)
        | (fs, rest) => (fs, rest)
        end
      else ([], s)
  | [] => ([], s)
  end.

Definition scan_exponent (s : pystr) : option Z * pystr :=
  match s with
  | c :: r =>
      if (c =? 101) || (c =? 69) then
        let '(eneg, r') :=
          match r with
          | sg :: r'' => if sg =? 45 then (true, r'')
                         else if sg =? 43 then (false, r'')
                         else (false, r)
          | [] => (false, r)
          end in
        match take_digits r' with
        | ([], _) => (None, s)
        | (es, rest) =>
            let e := Z.of_N (digits_value es) in
            (Some (if eneg then (- e)%Z else e), rest)
        end
      else (None, s)
  | [] => (None, s)
  end.

Definition scan_number (s : pystr) : option (value * pystr) :=
  let '(neg, s1) := scan_sign s in
  '(ip, r1) ← scan_int_part s1;
  let '(fp, r2) := scan_fraction r1 in
  let '(ex, r3) := scan_exponent r2 in
  match fp, ex with
  | [], None =>
      let z := Z.of_N (digits_value ip) in
      Some (VInt (if neg then (- z)%Z else z), r3)
  | _, _ =>
      let e := (default 0%Z ex - Z.of_nat (length fp))%Z in
      Some (VFloat (float_of_decimal neg (digits_value (ip ++ fp)) e), r3)
  end.

(** [s] without the prefix [p], when it starts with it. *)
Fixpoint strip_prefix (p s : pystr) : option pystr :=
  match p, s with
  | [], _ => Some s
  | a :: p', b :: s' => if a =? b then strip_prefix p' s' else None
  | _ :: _, [] => None
  end.

Definition scan_constant (s : pystr) : option (value * pystr) :=
  match strip_prefix (py "null") s with Some r => Some (VNone, r) | None =>
  match strip_prefix (py "true") s with Some r => Some (VBool true, r) | None =>
  match strip_prefix (py "false") s with Some r => Some (VBool false, r) | None =>
  match strip_prefix (py "NaN") s with Some r => Some (VFloat S754_nan, r) | None =>
  match strip_prefix (py "Infinity") s with
  | Some r => Some (VFloat (S754_infinity false), r) | None =>
  match strip_prefix (py "-Infinity") s with
  | Some r => Some (VFloat (S754_infinity true), r) | None => None
  end end end end end end.

(** One value at the head of [s]; the items of an array, [s] standing at an
    item; the members of an object, [s] standing at a key. *)
Fixpoint scan_once (fuel : nat) (s : pystr) : option (value * pystr) :=
  match fuel, s with
  | O, _ | _, [] => None
  | S fuel, c :: r =>
      if c =? 34 then
        '(str, r') ← scanstring (length r) r []; Some (VStr str, r')
      else if c =? 123 then
        match skip_ws r with
        | c' :: r' => if c' =? 125 then Some (VDict [], r')
                      else scan_members fuel (skip_ws r) []
        | [] => None
        end
      else if c =? 91 then
        match skip_ws r with
        | c' :: r' => if c' =? 93 then Some (VList [], r')
                      else scan_items fuel (skip_ws r) []
        | [] => None
        end
      else
        match scan_constant s with
        | Some x => Some x
        | None => scan_number s
        end
  end
with scan_items (fuel : nat) (s : pystr) (acc : list value)
  : option (value * pystr) :=
  match fuel with
  | O => None
  | S fuel =>
      '(v, r) ← scan_once fuel s;
      match skip_ws r with
      | c :: r' =>
          if c =? 93 then Some (VList (rev (v :: acc)), r')
          else if c =? 44 then scan_items fuel (skip_ws r') (v :: acc)
          else None
      | [] => None
      end
  end
with scan_members (fuel : nat) (s : pystr) (acc : list (pystr * value))
  : option (value * pystr) :=
  match fuel, s with
  | O, _ | _, [] => None
  | S fuel, q :: r =>
      if q =? 34 then
        '(k, r1) ← scanstring (length r) r [];
        match skip_ws r1 with
        | c1 :: r2 =>
            if c1 =? 58 then
              '(v, r3) ← scan_once fuel (skip_ws r2);
              match skip_ws r3 with
              | c3 :: r4 =>
                  if c3 =? 125 then Some (VDict (dict_set acc k v), r4)
                  else if c3 =? 44
                  then scan_members fuel (skip_ws r4) (dict_set acc k v)
                  else None
              | [] => None
              end
            else None
        | [] => None
        end
      else None
  end.

(** The exception of a document that does not decode. *)
Definition decode_error : exn := Exn JSONDecodeError (py "malformed document").

(** The document starts with a byte order mark, U+FEFF. *)
Definition starts_with_bom (s : pystr) : bool :=
  match s with
  | c :: _ => c =? 65279
  | [] => false
  end.

Definition loads (s : pystr) : outcome value :=
  if starts_with_bom s then Raises decode_error
  else
    match scan_once (2 * length s + 2) (skip_ws s) with
    | None => Raises decode_error
    | Some (v, r) =>
        match skip_ws r with
        | [] => Returns v
        | _ :: _ => Raises decode_error
        end
    end.

End Json.

(** ** Conversation turns, requests and replies *)

Inductive role : Type := RoleSystem | RoleUser | RoleAssistant | RoleFunction.

(** The [function_call] of an assistant turn: the name the model chose and
    the text of its arguments, still to be decoded. *)
Record function_call : Type :=
  FunctionCall { fc_name : pystr; fc_arguments : pystr }.

(** A key of a dict that may be absent, hold [None], or hold a value. *)
Inductive slot (A : Type) : Type :=
  | Missing
  | Null
  | Has (a : A).
Arguments Missing {A}.
Arguments Null {A}.
Arguments Has {A} a.

(** One turn, the dict with keys [role], [content], [function_call] (from
    the model) and [name] (on a function turn). *)
Record message : Type := Message {
  msg_role : role;
  msg_content : option pystr;
  msg_function_call : slot function_call;
  msg_name : option pystr
}.

(** [json_data], the body of the HTTP request: [functions] and
    [function_call] are keys only when the caller passed them. *)
Record request : Type := Request {
  req_model : pystr;
  req_messages : list message;
  req_functions : option value;
  req_function_call : option value
}.

(** What [requests.post] returns: [resp_message] is what
    [.json()["choices"][0]["message"]] gives on it, a turn or the exception
    of a body that has none. *)
Record response : Type := Response { resp_message : outcome message }.

(** What [chat_completion_request] hands back: a response, or the exception
    object its [except] branch returns. *)
Inductive reply : Type :=
  | Replied (r : response)
  | ExceptionObject (e : exn).

(** One call of [print], or one display of a conversation. The record
    holds what was passed to [print], not the characters written: a text
    with line feeds in it is one entry, and so is an [int] of any number of
    digits (which CPython 3.10.6 prints; see the head of the file for the
    later versions). *)
Inductive printed : Type :=
  | Text (s : pystr)                       (* print(s) for a str *)
  | Value (v : value)                       (* print(v): the text str(v) *)
  | TextJson (prefix : pystr) (v : value)  (* prefix, then json.dumps(v, indent=2) *)
  | Conversation (ms : list message).      (* pretty_print_conversation(ms) *)

(** ** The state a cell runs in *)

Record world : Type := World {
  api_key : option pystr;          (* openai.api_key *)
  net : list (outcome response);   (* what the coming calls of requests.post meet *)
  posted : list request;           (* the requests sent so far, oldest first *)
  waits : nat;                     (* the backoff waits of the retry wrapper *)
  stdout : list printed;           (* what was printed so far, oldest first *)
  entered : list pystr             (* the local functions entered, oldest first *)
}.

Definition M (A : Type) : Type := world -> outcome A * world.

#[global] Instance M_ret : MRet M := fun A a w => (Returns a, w).
#[global] Instance M_bind : MBind M := fun A B f m w =>
  match m w with
  | (Returns a, w') => f a w'
  | (Raises e, w') => (Raises e, w')
  end.

Definition lift {A} (o : outcome A) : M A := fun w => (o, w).
Definition raise {A} (e : exn) : M A := fun w => (Raises e, w).

(** [try: body  except Exception as e: handler e]. Every exception of this
    development is an [Exception]. *)
Definition try_except {A} (body : M A) (handler : exn -> M A) : M A := fun w =>
  match body w with
  | (Raises e, w') => handler e w'
  | r => r
  end.

Definition print (x : printed) : M unit := fun w =>
  (Returns tt,
   World (api_key w) (net w) (posted w) (waits w) (stdout w ++ [x]) (entered w)).

(** Entering the local function [f]; a ghost record, read by the statements
    about which functions a cell invokes. *)
Definition enter (f : pystr) : M unit := fun w =>
  (Returns tt,
   World (api_key w) (net w) (posted w) (waits w) (stdout w) (entered w ++ [f])).

Definition wait_random_exponential : M unit := fun w =>
  (Returns tt,
   World (api_key w) (net w) (posted w) (S (waits w)) (stdout w) (entered w)).

(** [requests.post(url, headers=..., json=json_data)]: the request is sent
    and meets the next outcome of the network; with none left the server is
    unreachable. *)
Definition requests_post (json_data : request) : M response := fun w =>
  let sent := posted w ++ [json_data] in
  match net w with
  | o :: rest => (o, World (api_key w) rest sent (waits w) (stdout w) (entered w))
  | [] => (Raises (Exn ConnectionError (py "unreachable")),
           World (api_key w) [] sent (waits w) (stdout w) (entered w))
  end.

(** [v == s] for a [str] [s]: a value of another type is not equal to it. *)
Definition eq_str (v : value) (s : pystr) : bool :=
  match v with
  | VStr t => bool_decide (t = s)
  | _ => false
  end.

(** [str(x)] inside an f-string, for a [str] that may be [None]. *)
Definition str_opt (x : option pystr) : pystr :=
  match x with
  | Some s => s
  | None => py "None"
  end.

Fixpoint fold_outcome {A B} (f : A -> B -> outcome A) (l : list B) (a : A)
  : outcome A :=
  match l with
  | [] => Returns a
  | x :: rest => a' ← f a x; fold_outcome f rest a'
  end.

(** [d[key]] for a dict of local functions. *)
Definition lookup_function {H} (d : gmap pystr H) (key : pystr) : outcome H :=
  match d !! key with
  | Some h => Returns h
  | None => Raises (key_error key)
  end.

(** ** The request helper, the same in every notebook

    [@retry(wait=wait_random_exponential(multiplier=1, max=40),
            stop=stop_after_attempt(3))]: tenacity calls the function again
    when it raises, waiting in between, and raises RetryError once the
    attempts are used up. What the function returns is returned at once. *)

Fixpoint retry {A} (stop_after_attempt : nat) (f : M A) : M A :=
  match stop_after_attempt with
  | O => raise (Exn RetryError [])
  | S more => fun w =>
      match f w with
      | (Returns a, w') => (Returns a, w')
      | (Raises e, w') =>
          match more with
          | O => (Raises (Exn RetryError (exn_text e)), w')
          | S _ => (wait_random_exponential ≫= fun _ => retry more f) w'
          end
      end
  end.

Definition GPT_MODEL : pystr := py "gpt-4".

Definition chat_completion_request (messages : list message)
    (functions : option value) (function_call : option value) (model : pystr)
  : M reply :=
  retry 3 (
    (* "Bearer " + openai.api_key *)
    _ ← (fun w => match api_key w with
                  | Some k => (Returns (py "Bearer " ++ k), w)
                  | None => (Raises (type_error "can only concatenate str to str"), w)
                  end);
    let json_data := Request model messages functions function_call in
    try_except
      (response ← requests_post json_data; mret (Replied response))
      (fun e =>
         _ ← print (Text (py "Unable to generate ChatCompletion response"));
         _ ← print (Text (py "Exception: " ++ exn_text e));
         mret (ExceptionObject e))).

(** [chat_response.json()["choices"][0]["message"]] *)
Definition json_choices_0_message (chat_response : reply) : M message :=
  match chat_response with
  | Replied r => lift (resp_message r)
  | ExceptionObject _ =>
      raise (Exn AttributeError (py "exception object has no attribute json"))
  end.

(** The dict a turn stands for, as [print] shows it: the keys [role] and
    [content], then [function_call] and [name] when the turn has them. *)
Definition role_name (r : role) : pystr :=
  match r with
  | RoleSystem => py "system"
  | RoleUser => py "user"
  | RoleAssistant => py "assistant"
  | RoleFunction => py "function"
  end.

Definition message_value (m : message) : value :=
  VDict ([(py "role", VStr (role_name (msg_role m)));
          (py "content", match msg_content m with
                         | Some text => VStr text
                         | None => VNone
                         end)]
         ++ match msg_function_call m with
            | Missing => []
            | Null => [(py "function_call", VNone)]
            | Has fc =>
                [(py "function_call",
                  VDict [(py "name", VStr (fc_name fc));
                         (py "arguments", VStr (fc_arguments fc))])]
            end
         ++ match msg_name m with
            | Some name => [(py "name", VStr name)]
            | None => []
            end).

(** ** The arithmetic notebook (first notebook of the unnamed source file) *)

Module Arithmetic.

(** A local function called as [f( *args )]. *)
Definition handler : Type := list value -> M value.

(** [def multiply( *args ): rc = 1; for i in args: rc = rc * i; return rc] *)
Definition multiply : handler := fun args =>
  lift (fold_outcome (fun rc i => py_mul rc i) args (VInt 1)).

(** [def add( *args ): return sum(args)]; [sum] starts from the int 0 and
    adds the items from left to right. *)
Definition add : handler := fun args =>
  lift (fold_outcome (fun acc x => py_add acc x) args (VInt 0)).

Definition available_functions : gmap pystr handler :=
  <[py "multiply" := multiply]> (<[py "add" := add]> ∅).

(** The cell that acts on the model's turn:
<<
if 'function_call' in response_message and response_message['function_call'] is not None:
    to_call = response_message['function_call']['name']
    f_args = json.loads(response_message['function_call']['arguments'])['input']
    result = available_functions[to_call]( *f_args )
    print(result)
else:
    print(f'no function was returned - {response_message["content"]}')
>>
    The dict of local functions is a parameter, so that statements can range
    over every table; the notebook's own is [available_functions]. *)
Definition dispatch (table : gmap pystr handler) (response_message : message)
  : M unit :=
  match msg_function_call response_message with
  | Has fc =>
      let to_call := fc_name fc in
      f_args ← lift (d ← Json.loads (fc_arguments fc); getitem d (py "input"));
      f ← lift (lookup_function table to_call);
      args ← lift (iterate f_args);
      result ← (_ ← enter to_call; f args);
      print (Value result)
  | Missing | Null =>
      print (Text (py "no function was returned - "
                   ++ str_opt (msg_content response_message)))
  end.

(** The schemas the notebook sends: each function takes an object whose
    [input] is an array of numbers. *)
Definition numbers_schema (name description : string) : value :=
  VDict [(py "name", VStr (py name));
         (py "description", VStr (py description));
         (py "parameters",
           VDict [(py "type", VStr (py "object"));
                  (py "properties",
                    VDict [(py "input",
                            VDict [(py "type", VStr (py "array"));
                                   (py "items",
                                     VDict [(py "type", VStr (py "number"));
                                            (py "minLength", VInt 2)])])])])].

Definition functions : value :=
  VList [numbers_schema "multiply" "Multiply arguments together";
         numbers_schema "add" "Add arguments together"].

Definition messages : list message :=
  [Message RoleSystem
     (Some (py "Answer user questions returning function arguments")) Missing None;
   Message RoleUser (Some (py "What is five plus 34 + one hundred")) Missing None].

(** The cells that follow, in order:
<<
resp = chat_completion_request(messages, functions)
response_message = resp.json()['choices'][0]['message']
print(response_message)
>>
    and the cell that acts on the turn. *)
Definition cells (messages : list message) : M unit :=
  resp ← chat_completion_request messages (Some functions) None GPT_MODEL;
  response_message ← json_choices_0_message resp;
  _ ← print (Value (message_value response_message));
  dispatch available_functions response_message.

End Arithmetic.

(** ** The notebook with [alternate_cases] (second notebook of the unnamed
       source file) *)

(** [str.lower] and [str.upper], which the notebook calls on one character
    at a time. They are Python's, not the repository's: the functions below
    are stated for any pair of them. *)
Class CaseMapping : Type := {
  str_lower : pystr -> pystr;
  str_upper : pystr -> pystr
}.

Module AlternateCases.

Section WithCaseMapping.
Context `{CaseMapping}.

(** [c.lower()], [c.upper()]: methods of [str] only. *)
Definition method_lower (c : value) : outcome value :=
  match c with
  | VStr s => Returns (VStr (str_lower s))
  | _ => Raises (Exn AttributeError (py "lower"))
  end.

Definition method_upper (c : value) : outcome value :=
  match c with
  | VStr s => Returns (VStr (str_upper s))
  | _ => Raises (Exn AttributeError (py "upper"))
  end.

(** A local function called with one argument. *)
Definition handler : Type := value -> M value.

(** [def multiply( *args )], as in the arithmetic notebook. *)
Definition multiply (args : list value) : M value :=
  lift (fold_outcome (fun result x => py_mul result x) args (VInt 1)).

(**
<<
def alternate_cases (input):
    i = 0
    rc = ""
    for c in input:
        if i % 2 == 0:
            c = c.lower()
        else:
            c = c.upper()
        rc += c
        i+=1
    return rc
>>
    The line of the test reads [c  = i % 2 == 0?c] in the stored cell, which
    is not Python. The two branches it opens and the output the notebook
    recorded for ['hello I am Bob'], [hElLo i aM BoB], fix the reading
    [if i % 2 == 0:] taken here. *)
Definition alternate_cases : handler := fun input =>
  lift (
    items ← iterate input;
    state ← fold_outcome (fun (state : Z * value) c =>
               let '(i, rc) := state in
               c' ← (if (i mod 2 =? 0)%Z then method_lower c else method_upper c);
               rc' ← py_add rc c';
               Returns ((i + 1)%Z, rc'))
             items (0%Z, VStr []);
    Returns (snd state)).

(** The table holds [multiply] under the one-argument call of the cell:
    [multiply(x)] is [multiply] on the one-item argument list. *)
Definition available_funcs : gmap pystr handler :=
  <[py "multiply" := fun x => multiply [x]]>
    (<[py "alternate_cases" := alternate_cases]> ∅).

Definition spec (name description prop ty : string) (extra : list (pystr * value))
  : value :=
  VDict [(py "name", VStr (py name));
         (py "description", VStr (py description));
         (py "parameters",
           VDict [(py "type", VStr (py "object"));
                  (py "properties",
                    VDict [(py prop,
                            VDict ((py "type", VStr (py ty)) :: extra))])])].

Definition functions : value :=
  VList [spec "multiply" "multiplies a list of numbers to produce a result"
              "args" "array"
              [(py "items", VDict [(py "type", VStr (py "number"))])];
         spec "alternate_cases" "converts alternate characters to upper and lower case"
              "input" "string" []].

(** [list(filter(lambda x: x['name']==funcName, functions))[0]] *)
Definition first_named (funcName : pystr) (specs : list value) : outcome value :=
  matching ← fold_outcome (fun acc x =>
                n ← getitem x (py "name");
                Returns (if eq_str n funcName then acc ++ [x] else acc))
              specs [];
  match matching with
  | x :: _ => Returns x
  | [] => Raises (Exn IndexError (py "list index out of range"))
  end.

(** The cell from the line that tests the turn:
<<
if mess['function_call'] is not None:
    funcName = mess['function_call']['name']
    toExecute = list(filter(lambda x: x['name']==funcName, functions))[0]
    args = json.loads(mess["function_call"]["arguments"])
    print(available_funcs[funcName](args['input']))
>> *)
Definition dispatch (table : gmap pystr handler) (mess : message) : M unit :=
  match msg_function_call mess with
  | Missing => raise (key_error (py "function_call"))
  | Null => mret tt
  | Has fc =>
      let funcName := fc_name fc in
      toExecute ← lift (specs ← iterate functions; first_named funcName specs);
      args ← lift (Json.loads (fc_arguments fc));
      f ← lift (lookup_function table funcName);
      x ← lift (getitem args (py "input"));
      result ← (_ ← enter funcName; f x);
      print (Value result)
  end.

(** The whole cell: the request, then the lines above. *)
Definition cell (messages : list message) : M unit :=
  chat_response ← chat_completion_request messages (Some functions) None GPT_MODEL;
  mess ← json_choices_0_message chat_response;
  dispatch available_funcs mess.

End WithCaseMapping.

(** The case mapping of Unicode on the code points U+0000 to U+00FF, which
    is Python's there: the letters of ASCII and of Latin-1 shift by 32,
    [U+00B5] and [U+00FF] have their capitals outside the range, and the
    capital of [U+00DF] (sharp s) is the two letters SS. Code points above
    U+00FF are left as they are, which is not Python's mapping: the
    instance is to be used on strings within the range. *)
Definition lower_latin1 (c : pychar) : pystr :=
  if ((65 <=? c) && (c <=? 90))%N then [(c + 32)%N]
  else if ((192 <=? c) && (c <=? 222) && negb (c =? 215))%N then [(c + 32)%N]
  else [c].

Definition upper_latin1 (c : pychar) : pystr :=
  if ((97 <=? c) && (c <=? 122))%N then [(c - 32)%N]
  else if ((224 <=? c) && (c <=? 254) && negb (c =? 247))%N then [(c - 32)%N]
  else if (c =? 181)%N then [924%N]
  else if (c =? 223)%N then [83%N; 83%N]
  else if (c =? 255)%N then [376%N]
  else [c].

Definition latin1_case : CaseMapping := {|
  str_lower := flat_map lower_latin1;
  str_upper := flat_map upper_latin1
|}.

End AlternateCases.

(** Modelled from the spec: [pretty_print_conversation] is not among the
    sources. The coffee notebook imports it from the module
    [open_ai_functions]; the database notebook calls it without a definition
    or an import of its own, and records the same display. The spec's
    display collaborator "renders the turn sequence for a human
    (role-tagged, e.g. color-coded) -- purely presentational, no contract
    beyond accepting the ordered turn sequence": it shows the turns it is
    given and does nothing else. *)
Definition pretty_print_conversation (messages : list message) : M unit :=
  print (Conversation messages).

(** ** The coffee order notebook (Coffee.ipynb) *)

Module Coffee.

(** A local function called with one argument. *)
Definition handler : Type := value -> M value.

(** [def coffee (coffee_order):
       print(f'Ordering coffee: {json.dumps(coffee_order, indent=2)}')] *)
Definition coffee : handler := fun coffee_order =>
  _ ← print (TextJson (py "Ordering coffee: ") coffee_order);
  mret VNone.

Definition available_functions : gmap pystr handler :=
  <[py "coffee" := coffee]> ∅.

Definition typed (ty : string) : value := VDict [(py "type", VStr (py ty))].

Definition functions : value :=
  VList [VDict [
    (py "name", VStr (py "coffee"));
    (py "description", VStr (py " Get the coffee order from the input "));
    (py "parameters", VDict [
      (py "type", VStr (py "object"));
      (py "properties", VDict [
        (py "order", VDict [
          (py "type", VStr (py "object"));
          (py "properties", VDict [
            (py "coffee_type", typed "string");
            (py "temperature", typed "string");
            (py "size", typed "string");
            (py "milks", typed "string");
            (py "sugar", VDict [(py "type", VStr (py "boolean"));
                                (py "enum", VList [VStr (py "true");
                                                   VStr (py "false")])]);
            (py "sugar_count", typed "number");
            (py "syrups", typed "string")])])])])]].

Definition rule : pystr := py "-----------------------------------".

(** The end of the loop body, from the test of the turn:
<<
    if 'function_call' in response_message and response_message['function_call'] is not None:
        to_call = response_message['function_call']['name']
        f_args = json.loads(response_message['function_call']['arguments'])['order']
        result = available_functions[to_call](f_args)

    else:
        print(f'no function was returned')
    print ('-----------------------------------')
    print ('-----------------------------------')
>> *)
Definition dispatch (table : gmap pystr handler) (response_message : message)
  : M unit :=
  _ ← match msg_function_call response_message with
      | Has fc =>
          let to_call := fc_name fc in
          f_args ← lift (d ← Json.loads (fc_arguments fc); getitem d (py "order"));
          f ← lift (lookup_function table to_call);
          result ← (_ ← enter to_call; f f_args);
          mret tt
      | Missing | Null => print (Text (py "no function was returned"))
      end;
  _ ← print (Text rule);
  print (Text rule).

(** One round of [for input in inputs:]. *)
Definition round (input : pystr) : M unit :=
  let messages :=
    [Message RoleSystem (Some (py "Extract user input into structured data"))
             Missing None] in
  let messages := messages ++ [Message RoleUser (Some input) Missing None] in
  resp ← chat_completion_request messages (Some functions) None GPT_MODEL;
  response_message ← json_choices_0_message resp;
  let messages := messages ++ [response_message] in
  _ ← pretty_print_conversation messages;
  dispatch available_functions response_message.

Fixpoint for_each (inputs : list pystr) : M unit :=
  match inputs with
  | [] => mret tt
  | input :: rest => _ ← round input; for_each rest
  end.

End Coffee.

(** ** Text of values

    [repr(v)] is Python's, not the repository's: the functions that format a
    value into a text are stated for any [repr]. [str(v)], which an f-string
    takes of [v], is [v] itself for a [str] and [repr(v)] for the other
    values. *)
Class Display : Type := {
  repr_value : value -> pystr
}.

Definition str_value `{Display} (v : value) : pystr :=
  match v with
  | VStr s => s
  | _ => repr_value v
  end.

(** [sep.join(strs)] on strings. *)
Fixpoint join_with (sep : pystr) (strs : list pystr) : pystr :=
  match strs with
  | [] => []
  | [x] => x
  | x :: rest => x ++ sep ++ join_with sep rest
  end.

(** [sep.join(iterable)]: every item has to be a [str]. *)
Definition str_join (sep : pystr) (iterable : value) : outcome pystr :=
  items ← iterate iterable;
  strs ← fold_outcome (fun strs x =>
            match x with
            | VStr s => Returns (strs ++ [s])
            | _ => Raises (type_error "sequence item: expected str instance")
            end)
          items [];
  Returns (join_with sep strs).

(** ** The database notebook (ChinookMusicDBExample.ipynb) *)

Module Chinook.

(** A connection to the SQLite database, seen through the one expression
    the notebook evaluates on it, [str(conn.execute(query).fetchall())]: the
    text of the rows fetched, or the exception sqlite3 raises (a query that
    does not parse, names no table, is no [str], ...). *)
Definition connection : Type := value -> outcome pystr.

(**
<<
def ask_database(conn, query):
    # docstring: Function to query SQLite database with a provided SQL query.
    try:
        results = str(conn.execute(query).fetchall())
    except Exception as e:
        results = f"query failed with error: {e}"
    return results
>> *)
Definition ask_database (conn : connection) (query : value) : M pystr :=
  _ ← enter (py "ask_database");
  try_except
    (lift (conn query))
    (fun e => mret (py "query failed with error: " ++ exn_text e)).

(** The connection seen through [conn.execute(q).fetchall()]: the rows
    fetched, each a tuple of column values, or the exception sqlite3 raises.
    The queries of the functions below read the catalogue of the database
    and leave it as it is. *)
Definition row : Type := list value.
Definition database : Type := value -> outcome (list row).

(** [t[i]] on a tuple. *)
Definition tuple_item (t : row) (i : nat) : outcome value :=
  match t !! i with
  | Some x => Returns x
  | None => Raises (Exn IndexError (py "tuple index out of range"))
  end.

Definition table_names_query : pystr :=
  py "SELECT name FROM sqlite_master WHERE type='table';".

(**
<<
def get_table_names(conn):
    table_names = []
    tables = conn.execute("SELECT name FROM sqlite_master WHERE type='table';")
    for table in tables.fetchall():
        table_names.append(table[0])
    return table_names
>> *)
Definition get_table_names (conn : database) : outcome (list value) :=
  let table_names := [] in
  tables ← conn (VStr table_names_query);
  fold_outcome (fun table_names table =>
                  name ← tuple_item table 0;
                  Returns (table_names ++ [name]))
               tables table_names.

Section WithDisplay.
Context `{Display}.

(** [f"PRAGMA table_info('{table_name}');"] *)
Definition table_info_query (table_name : value) : pystr :=
  py "PRAGMA table_info('" ++ str_value table_name ++ py "');".

(**
<<
def get_column_names(conn, table_name):
    column_names = []
    columns = conn.execute(f"PRAGMA table_info('{table_name}');").fetchall()
    for col in columns:
        column_names.append(col[1])
    return column_names
>> *)
Definition get_column_names (conn : database) (table_name : value)
  : outcome (list value) :=
  let column_names := [] in
  columns ← conn (VStr (table_info_query table_name));
  fold_outcome (fun column_names col =>
                  name ← tuple_item col 1;
                  Returns (column_names ++ [name]))
               columns column_names.

(**
<<
def get_database_info(conn):
    table_dicts = []
    for table_name in get_table_names(conn):
        columns_names = get_column_names(conn, table_name)
        table_dicts.append({"table_name": table_name, "column_names": columns_names})
    return table_dicts
>> *)
Definition get_database_info (conn : database) : outcome (list value) :=
  let table_dicts := [] in
  table_names ← get_table_names conn;
  fold_outcome (fun table_dicts table_name =>
                  columns_names ← get_column_names conn table_name;
                  Returns (table_dicts
                           ++ [VDict [(py "table_name", table_name);
                                      (py "column_names", VList columns_names)]]))
               table_names table_dicts.

(** The cell that writes the schema out for the model:
<<
database_schema_string = "\n".join(
    [
        f"Table: {table['table_name']}\nColumns: {', '.join(table['column_names'])}"
        for table in database_schema_dict
    ]
)
>> *)
Definition database_schema_string (database_schema_dict : list value)
  : outcome pystr :=
  blocks ← fold_outcome (fun blocks table =>
              table_name ← getitem table (py "table_name");
              column_names ← getitem table (py "column_names");
              columns ← str_join (py ", ") column_names;
              Returns (blocks ++ [py "Table: " ++ str_value table_name
                                  ++ [10%N] ++ py "Columns: " ++ columns]))
            database_schema_dict [];
  Returns (join_with [10%N] blocks).

End WithDisplay.

Section WithGlobals.

(** The globals of the notebook: the open connection, and [functions], the
    one function schema, whose text holds the tables of the database. *)
Variable conn : connection.
Variable functions : value.

(** [message["function_call"]] *)
Definition get_function_call (message : message) : outcome function_call :=
  match msg_function_call message with
  | Has fc => Returns fc
  | Null => Raises (type_error "'NoneType' object is not subscriptable")
  | Missing => Raises (key_error (py "function_call"))
  end.

(**
<<
def execute_function_call(message):
    if message["function_call"]["name"] == "ask_database":
        query = json.loads(message["function_call"]["arguments"])["query"]
        results = ask_database(conn, query)
    else:
        results = f"Error: function {message['function_call']['name']} does not exist"
    return results
>> *)
Definition execute_function_call (message : message) : M pystr :=
  _ ← enter (py "execute_function_call");
  fc ← lift (get_function_call message);
  if decide (fc_name fc = py "ask_database") then
    query ← lift (d ← Json.loads (fc_arguments fc); getitem d (py "query"));
    ask_database conn query
  else
    mret (py "Error: function " ++ fc_name fc ++ py " does not exist").

Definition newline : pystr := [10%N].

Definition system_prompt : pystr :=
  newline
  ++ py "        Answer user questions by generating SQL queries against the Chinook Music Database."
  ++ newline
  ++ py "        Do not include your reasoning."
  ++ newline
  ++ py "        ".

(** [{"name":"ask_database"}], the function the first request forces. *)
Definition forced_ask_database : value :=
  VDict [(py "name", VStr (py "ask_database"))].

(**
<<
def do_conversation(conn, input):
    messages = []
    messages.append({"role": "system", "content": system_prompt})
    messages.append({"role": "user", "content": input})
    chat_response = chat_completion_request(messages, functions, function_call={"name":"ask_database"})
    assistant_message = chat_response.json()["choices"][0]["message"]
    messages.append(assistant_message)
    if assistant_message.get("function_call"):
      results = execute_function_call(assistant_message)
      messages.append({"role": "function", "content": results, "name": assistant_message["function_call"]["name"]})
      chat_response2 = chat_completion_request(messages)
      messages.append(chat_response2.json()["choices"][0]["message"])
    pretty_print_conversation(messages)
>>
    The parameter [conn] is not read: [execute_function_call] takes the
    global connection. *)
Definition do_conversation (conn_parameter : connection) (input : pystr) : M unit :=
  let messages := [] in
  let messages := messages ++ [Message RoleSystem (Some system_prompt) Missing None] in
  let messages := messages ++ [Message RoleUser (Some input) Missing None] in
  chat_response ← chat_completion_request messages (Some functions)
                     (Some forced_ask_database) GPT_MODEL;
  assistant_message ← json_choices_0_message chat_response;
  let messages := messages ++ [assistant_message] in
  messages ←
    match msg_function_call assistant_message with
    | Has fc =>
        results ← execute_function_call assistant_message;
        let messages :=
          messages ++ [Message RoleFunction (Some results) Missing (Some (fc_name fc))] in
        chat_response2 ← chat_completion_request messages None None GPT_MODEL;
        follow_up ← json_choices_0_message chat_response2;
        mret (messages ++ [follow_up])
    | Missing | Null => mret messages
    end;
  pretty_print_conversation messages.

End WithGlobals.

End Chinook.

(** ** The sentiment notebook (SummariseInput.ipynb) *)

Module Summarise.

Section WithDisplay.
Context `{Display}.

(** A local function called as [f( **f_args )]: it receives the keyword
    arguments, by name. The call can fail before the body of the function
    is entered, when a keyword does not name a parameter, so that the
    function records its entry itself, once its parameters are bound. *)
Definition handler : Type := list (pystr * value) -> M value.

(** The parameters of [sentiment], each with its default. *)
Definition parameters : list (pystr * value) :=
  [(py "sentiment", VStr []);
   (py "initialInput", VStr []);
   (py "sentimentScore", VInt 0);
   (py "algorithm", VStr (py "chatgpt magic"))].

(** The value a parameter is bound to: the keyword argument of that name,
    or else the default. *)
Definition bound (kwargs : list (pystr * value)) (name : string) : value :=
  match dict_get kwargs (py name) with
  | Some x => x
  | None => default VNone (dict_get parameters (py name))
  end.

(**
<<
def sentiment (sentiment="", initialInput="", sentimentScore=0, algorithm="chatgpt magic"):
    print(f'sentiment of "{initialInput}" is "{sentiment}" with score {sentimentScore} using algorithm {algorithm}')
>>
    A keyword that is not a parameter makes the call a TypeError, before the
    body runs. *)
Definition sentiment : handler := fun kwargs =>
  if bool_decide (Forall (fun kv : pystr * value => kv.1 ∈ parameters.*1) kwargs)
  then
    _ ← enter (py "sentiment");
    _ ← print (Text (py "sentiment of " ++ [dquote]
                     ++ str_value (bound kwargs "initialInput")
                     ++ [dquote] ++ py " is " ++ [dquote]
                     ++ str_value (bound kwargs "sentiment")
                     ++ [dquote] ++ py " with score "
                     ++ str_value (bound kwargs "sentimentScore")
                     ++ py " using algorithm "
                     ++ str_value (bound kwargs "algorithm")));
    mret VNone
  else raise (type_error "got an unexpected keyword argument").

Definition available_functions : gmap pystr handler :=
  <[py "sentiment" := sentiment]> ∅.

Definition functions : value :=
  VList [VDict [
    (py "name", VStr (py "sentiment"));
    (py "description",
      VStr (py "Obtain the sentiment for the given input and supply as function argument, along with the input,  a score between -1 and 1 and a short description of the algorithm used "));
    (py "parameters", VDict [
      (py "type", VStr (py "object"));
      (py "properties", VDict [
        (py "sentiment",
          VDict [(py "type", VStr (py "string"));
                 (py "enum", VList [VStr (py "Positive"); VStr (py "Neutral");
                                    VStr (py "Negative")])]);
        (py "sentimentScore", VDict [(py "type", VStr (py "number"))]);
        (py "initialInput", VDict [(py "type", VStr (py "string"))]);
        (py "algorithm", VDict [(py "type", VStr (py "string"))])])])]].

(** [{'name':'sentiment'}], the function every request forces. *)
Definition forced_sentiment : value :=
  VDict [(py "name", VStr (py "sentiment"))].

(** What [**v] in a call draws from [v]: the items of a dict. *)
Definition keywords (v : value) : outcome (list (pystr * value)) :=
  match v with
  | VDict d => Returns d
  | _ => Raises (type_error "argument after ** must be a mapping")
  end.

(** The end of the loop body, from the test of the turn:
<<
    if 'function_call' in response_message and response_message['function_call'] is not None:
        to_call = response_message['function_call']['name']
        f_args = json.loads(response_message['function_call']['arguments'])
        result = available_functions[to_call]( **f_args )

    else:
        print(f'no function was returned - {response_message["content"]}')
>> *)
Definition dispatch (table : gmap pystr handler) (response_message : message)
  : M unit :=
  match msg_function_call response_message with
  | Has fc =>
      let to_call := fc_name fc in
      f_args ← lift (Json.loads (fc_arguments fc));
      f ← lift (lookup_function table to_call);
      kwargs ← lift (keywords f_args);
      result ← f kwargs;
      mret tt
  | Missing | Null =>
      print (Text (py "no function was returned - "
                   ++ str_opt (msg_content response_message)))
  end.

(** One round of [for input in inputs:]. The list [messages] is a global of
    two turns; the round writes the input into the second and sends both:
<<
    messages[1]['content'] = input
    resp = chat_completion_request(messages, functions, function_call={'name':'sentiment'})
    response_message = resp.json()['choices'][0]['message']
    print(response_message)
>> *)
Definition round (input : pystr) : M unit :=
  let messages :=
    [Message RoleSystem
       (Some (py "Analyse user input returning function arguments")) Missing None;
     Message RoleUser (Some input) Missing None] in
  resp ← chat_completion_request messages (Some functions)
            (Some forced_sentiment) GPT_MODEL;
  response_message ← json_choices_0_message resp;
  _ ← print (Value (message_value response_message));
  dispatch available_functions response_message.

Fixpoint for_each (inputs : list pystr) : M unit :=
  match inputs with
  | [] => mret tt
  | input :: rest => _ ← round input; for_each rest
  end.

End WithDisplay.

End Summarise.

(** ** Reference definitions

    What the statements below compare the code with. *)

(** The sum and the product of a list of integers, by recursion on the
    list. *)
Fixpoint Zsum (zs : list Z) : Z :=
  match zs with
  | [] => 0
  | z :: rest => z + Zsum rest
  end.

Fixpoint Zprod (zs : list Z) : Z :=
  match zs with
  | [] => 1
  | z :: rest => z * Zprod rest
  end.

(** The sum and the product of a list of floats as float arithmetic gives
    them: from 0.0, resp. 1.0, one item after the other, each step rounded
    to the nearest float. *)
Definition float_zero : pyfloat := S754_zero false.
Definition float_one : pyfloat := S754_finite false 4503599627370496 (-52).

Definition float_sum (fs : list pyfloat) : pyfloat :=
  fold_left float_add fs float_zero.

Definition float_prod (fs : list pyfloat) : pyfloat :=
  fold_left float_mul fs float_one.

(** A list of numbers that holds ints and floats: each number as a value,
    and the floats they convert to, when every int among them is within the
    range of the floats. The exception of an int that is not is [overflow],
    the one [float_of_int] raises. *)
Definition number_value (n : number) : value :=
  match n with
  | NInt z => VInt z
  | NFloat f => VFloat f
  end.

Fixpoint to_floats (ns : list number) : outcome (list pyfloat) :=
  match ns with
  | [] => Returns []
  | n :: rest => f ← to_float n; fs ← to_floats rest; Returns (f :: fs)
  end.

Definition overflow : exn :=
  Exn OverflowError (py "int too large to convert to float").

(** What alternating the case by position means: the character at an even
    index (the first is at index 0) lower-cased, the one at an odd index
    upper-cased, each by the whole-string method on that character alone,
    joined in order. [i] is the index of the head of [s]. *)
Fixpoint alternated `{CaseMapping} (i : nat) (s : pystr) : pystr :=
  match s with
  | [] => []
  | c :: rest =>
      (if Nat.even i then str_lower [c] else str_upper [c])
      ++ alternated (S i) rest
  end.

(** A character whose two case conversions are one character each. *)
Definition single_cased `{CaseMapping} (c : pychar) : Prop :=
  length (str_lower [c]) = 1 /\ length (str_upper [c]) = 1.

(** The text of the unknown-function diagnostic, and the prefix of the text
    a failed query turns into. *)
Definition does_not_exist (name : pystr) : pystr :=
  py "Error: function " ++ name ++ py " does not exist".

Definition query_failed : pystr := py "query failed with error: ".

(** *** States *)

(** A state in which nothing has happened yet: no key, no network. *)
Definition blank : world := World None [] [] 0 [] [].

(** A state with a key configured, in which the coming requests meet the
    outcomes [replies]. *)
Definition online (replies : list (outcome response)) : world :=
  World (Some (py "sk-test")) replies [] 0 [] [].

(** The state [w] after some more prints, or some more functions entered. *)
Definition printing (xs : list printed) (w : world) : world :=
  World (api_key w) (net w) (posted w) (waits w) (stdout w ++ xs) (entered w).

Definition entering (fs : list pystr) (w : world) : world :=
  World (api_key w) (net w) (posted w) (waits w) (stdout w) (entered w ++ fs).

(** The state [w] after one more request was sent: it is on record, and
    the outcome it met is used up. *)
Definition sent (json_data : request) (w : world) : world :=
  World (api_key w) (tail (net w)) (posted w ++ [json_data]) (waits w)
        (stdout w) (entered w).

(** What the next call of [requests.post] meets in [w]. *)
Definition next_outcome (w : world) : outcome response :=
  match net w with
  | o :: _ => o
  | [] => Raises (Exn ConnectionError (py "unreachable"))
  end.

(** The model answers with the turn [m]. *)
Definition delivers (m : message) : outcome response :=
  Returns (Response (Returns m)).

(** The two lines [chat_completion_request] prints when it catches [e]. *)
Definition unable (e : exn) : list printed :=
  [Text (py "Unable to generate ChatCompletion response");
   Text (py "Exception: " ++ exn_text e)].

(** What [execute_function_call] returns or raises on a turn, and the
    functions it enters: read off a run from the blank state (the run does
    not depend on the state, see [execute_function_call_frame]). *)
Definition broker_result (conn : Chinook.connection) (m : message) : outcome pystr :=
  fst (Chinook.execute_function_call conn m blank).

Definition broker_trace (conn : Chinook.connection) (m : message) : list pystr :=
  entered (snd (Chinook.execute_function_call conn m blank)).

(** *** Turns and requests *)

(** An assistant turn that requests the function [name] with the argument
    text [arguments], as the API sends it: no content. *)
Definition requesting (name arguments : pystr) : message :=
  Message RoleAssistant None (Has (FunctionCall name arguments)) None.

(** An assistant turn that answers in text. *)
Definition answering (text : pystr) : message :=
  Message RoleAssistant (Some text) Missing None.

(** The turns and requests of [do_conversation]. *)
Definition opening (input : pystr) : list message :=
  [Message RoleSystem (Some Chinook.system_prompt) Missing None;
   Message RoleUser (Some input) Missing None].

Definition first_request (functions : value) (input : pystr) : request :=
  Request GPT_MODEL (opening input) (Some functions)
          (Some Chinook.forced_ask_database).

Definition function_turn (name results : pystr) : message :=
  Message RoleFunction (Some results) Missing (Some name).

Definition follow_up_request (history : list message) : request :=
  Request GPT_MODEL history None None.

(** ** Scenarios

    The concrete turns, connections and inputs the statements are tried
    on. *)

(** The JSON object with the one key [key], written as the model writes it:
    [{"key": body}]. *)
Definition json_object (key : string) (body : string) : pystr :=
  py "{" ++ [dquote] ++ py key ++ [dquote] ++ py ": " ++ py body ++ py "}".

(** The same with a string for its value: [{"key": "text"}]. *)
Definition json_object_str (key : string) (text : string) : pystr :=
  py "{" ++ [dquote] ++ py key ++ [dquote] ++ py ": "
  ++ [dquote] ++ py text ++ [dquote] ++ py "}".

(** The turn the arithmetic notebook recorded: [add] on [5, 34, 100]. *)
Definition recorded_add : message :=
  requesting (py "add")
    (py "{" ++ [10%N] ++ py "  " ++ [dquote] ++ py "input" ++ [dquote]
     ++ py ": [5, 34, 100]" ++ [10%N] ++ py "}").

(** A turn that names a function no table holds, with arguments that the
    arithmetic cell can decode. *)
Definition unicorn : message :=
  requesting (py "unicorn") (json_object "input" "[1, 2]").



(** The turn of the notebook with [alternate_cases], on its sentence. *)
Definition alternate_hello : message :=
  requesting (py "alternate_cases") (json_object_str "input" "hello I am Bob").

(** A turn for [ask_database] whose arguments stop in the middle of the
    query string: an opening brace, the key [query] in quotes, a colon, an
    opening quote and the word SELECT, with nothing after it. *)
Definition truncated_query : message :=
  requesting (py "ask_database")
    (py "{" ++ [dquote] ++ py "query" ++ [dquote] ++ py ": " ++ [dquote]
     ++ py "SELECT").

(** A turn for [ask_database] whose arguments are an object without the
    field [query]. *)
Definition no_query_field : message :=
  requesting (py "ask_database") (json_object "sql" "1").

(** A turn for [ask_database] with a query. *)
Definition count_artists_arguments : pystr :=
  json_object_str "query" "SELECT count(*) FROM artists".

Definition count_artists : message :=
  requesting (py "ask_database") count_artists_arguments.

(** Two connections: one on which every query fails, one on which every
    query fetches the same row. *)
Definition failing_connection : Chinook.connection := fun _ =>
  Raises (Exn (OtherError (py "OperationalError")) (py "no such table: artist")).

Definition one_row_connection : Chinook.connection := fun _ =>
  Returns (py "[(275,)]").

(** A schema list for the scenarios of the database notebook, whose own is
    built from the database at run time. *)
Definition some_functions : value :=
  VList [VDict [(py "name", VStr (py "ask_database"))]].

Definition how_many_artists : pystr := py "how many artists are there?".

(** The transport fails. *)
Definition connection_refused : exn :=
  Exn ConnectionError (py "connection refused").

(** The order the coffee notebook recorded, and a question it cannot take. *)
Definition latte_order : message :=
  requesting (py "coffee")
    (py "{" ++ [dquote] ++ py "order" ++ [dquote] ++ py ": {"
     ++ [dquote] ++ py "coffee_type" ++ [dquote] ++ py ": "
     ++ [dquote] ++ py "latte" ++ [dquote] ++ py ", "
     ++ [dquote] ++ py "sugar" ++ [dquote] ++ py ": true, "
     ++ [dquote] ++ py "sugar_count" ++ [dquote] ++ py ": 2}}").

Definition latte : value :=
  VDict [(py "coffee_type", VStr (py "latte"));
         (py "sugar", VBool true);
         (py "sugar_count", VInt 2)].

Definition tall_latte_please : pystr := py "I'd like a latte please with 2 sugars".
Definition weather_in_London : pystr := py "What's the weather in London".
Definition not_about_coffee : message :=
  answering (py "The function is meant for coffee orders, not weather.").

(** *** Arguments as the model writes them *)

(** The decimal digits of a natural number, most significant first; [0] is
    the one digit 0. *)
Fixpoint decimal_digits (fuel : nat) (n : N) (acc : pystr) : pystr :=
  match fuel with
  | O => acc
  | S fuel =>
      let acc := (48 + n mod 10)%N :: acc in
      if (n <? 10)%N then acc else decimal_digits fuel (n / 10)%N acc
  end.

Definition decimal (n : N) : pystr :=
  decimal_digits (S (N.to_nat (N.size n))) n [].

(** The number of decimal digits up to which every version of CPython
    converts between an [int] and its text, [sys.int_info.default_max_str_digits]
    of the versions that have a limit; and an integer whose decimal text has
    no more digits than that. *)
Definition default_max_str_digits : nat := 4300.

Definition within_str_digits (z : Z) : Prop :=
  length (decimal (Z.to_N (Z.abs z))) <= default_max_str_digits.

(** An integer as JSON writes it, and a list of them separated by a comma
    and a space. *)
Definition json_int (z : Z) : pystr :=
  if (z <? 0)%Z then 45%N :: decimal (Z.to_N (- z)) else decimal (Z.to_N z).

Fixpoint json_ints (zs : list Z) : pystr :=
  match zs with
  | [] => []
  | [z] => json_int z
  | z :: rest => json_int z ++ py ", " ++ json_ints rest
  end.

(** The arguments of a call of [add] or [multiply] on the integers [zs]:
    the object whose key [input] holds their array. *)
Definition input_arguments (zs : list Z) : pystr :=
  py "{" ++ [dquote] ++ py "input" ++ [dquote] ++ py ": ["
  ++ json_ints zs ++ py "]}".

(** *** The tables of a database *)

(** A table: its name and the names of its columns. *)
Definition table : Type := pystr * list pystr.

(** The database [conn] lists the tables [tables]: the catalogue query
    fetches one row per table, with the name for its first field, and the
    query about the columns of a table fetches one row per column, with the
    name of the column for its second field. *)
Definition lists_tables `{Display} (conn : Chinook.database) (tables : list table)
  : Prop :=
  (exists rows,
     conn (VStr Chinook.table_names_query) = Returns rows
     /\ Forall2 (fun (r : Chinook.row) (t : table) => r !! 0 = Some (VStr t.1))
                rows tables)
  /\ Forall (fun t : table =>
               exists rows,
                 conn (VStr (Chinook.table_info_query (VStr t.1))) = Returns rows
                 /\ Forall2 (fun (r : Chinook.row) (c : pystr) => r !! 1 = Some (VStr c))
                            rows t.2)
            tables.

(** What [get_database_info] makes of a table, and the text of the schema:
    for each table a line with its name and a line with its columns. *)
Definition table_dict (t : table) : value :=
  VDict [(py "table_name", VStr t.1);
         (py "column_names", VList (List.map VStr t.2))].

Definition schema_text (tables : list table) : pystr :=
  join_with [10%N]
    (List.map (fun t : table =>
                 py "Table: " ++ t.1 ++ [10%N] ++ py "Columns: "
                 ++ join_with (py ", ") t.2)
              tables).

(** *** The rounds of the coffee notebook *)

(** The request of the round on [input]: the instruction and the input, with
    the coffee schema and no forced function. *)
Definition coffee_request (input : pystr) : request :=
  Request GPT_MODEL
    [Message RoleSystem (Some (py "Extract user input into structured data"))
             Missing None;
     Message RoleUser (Some input) Missing None]
    (Some Coffee.functions) None.

(** The request of a round of the sentiment notebook on [input]: the
    instruction and the input, with the sentiment schema, forcing
    [sentiment]. *)
Definition sentiment_request (input : pystr) : request :=
  Request GPT_MODEL
    [Message RoleSystem
       (Some (py "Analyse user input returning function arguments")) Missing None;
     Message RoleUser (Some input) Missing None]
    (Some Summarise.functions) (Some Summarise.forced_sentiment).

(** The one request of the arithmetic cells and of the cell with
    [alternate_cases]. *)
Definition arithmetic_request (messages : list message) : request :=
  Request GPT_MODEL messages (Some Arithmetic.functions) None.

Definition alternate_request (messages : list message) : request :=
  Request GPT_MODEL messages (Some AlternateCases.functions) None.

(** *** More states *)

(** The state [w] after [n] more waits of the retry wrapper. *)
Definition waiting (n : nat) (w : world) : world :=
  World (api_key w) (net w) (posted w) (n + waits w) (stdout w) (entered w).

(** A run from [w] that leaves the key, the network and the requests on
    record as they are. *)
Definition offline {A} (run : outcome A * world) (w : world) : Prop :=
  api_key run.2 = api_key w /\ net run.2 = net w /\ posted run.2 = posted w.

(** *** Text as the model writes it *)

(** A character that a JSON string holds as it is: not a quote, not a
    backslash, not a control character. *)
Definition plain_char (c : pychar) : bool :=
  negb (c =? 34)%N && negb (c =? 92)%N && (32 <=? c)%N.

(** The arguments object with the one key [key], holding the text [text]
    between quotes. *)
Definition text_arguments (key : string) (text : pystr) : pystr :=
  py "{" ++ [dquote] ++ py key ++ [dquote] ++ py ": "
  ++ [dquote] ++ text ++ [dquote] ++ py "}".

(** [escaped] starts with the escape of the second half of a surrogate
    pair: a backslash, [u] and four hex digits for a code point from U+DC00
    to U+DFFF. *)
Definition low_escape_ahead (escaped : pystr) : bool :=
  match escaped with
  | b :: u :: r =>
      (b =? 92)%N && (u =? 117)%N
      && match Json.hex4 r with
         | Some (cp, _) => Json.is_low_surrogate cp
         | None => false
         end
  | _ => false
  end.

(** [json_text escaped text]: [escaped] is a way of writing [text] between
    the quotes of a JSON string. A plain character stands for itself; a
    backslash and one of the characters of [simple_escape] stand for the
    character it names; a backslash, [u] and four hex digits stand for the
    code point they give, except that the two halves of a surrogate pair,
    written one after the other, stand for the one code point they make. *)
Inductive json_text : pystr -> pystr -> Prop :=
  | json_text_nil : json_text [] []
  | json_text_plain (c : pychar) (escaped text : pystr) :
      plain_char c = true ->
      json_text escaped text ->
      json_text (c :: escaped) (c :: text)
  | json_text_escape (x c : pychar) (escaped text : pystr) :
      Json.simple_escape x = Some c ->
      json_text escaped text ->
      json_text (92%N :: x :: escaped) (c :: text)
  | json_text_unicode (a b c d cp : pychar) (escaped text : pystr) :
      Json.hex4 [a; b; c; d] = Some (cp, []) ->
      Json.is_high_surrogate cp && low_escape_ahead escaped = false ->
      json_text escaped text ->
      json_text (92%N :: 117%N :: a :: b :: c :: d :: escaped) (cp :: text)
  | json_text_pair (a b c d a' b' c' d' hi lo : pychar) (escaped text : pystr) :
      Json.hex4 [a; b; c; d] = Some (hi, []) ->
      Json.is_high_surrogate hi = true ->
      Json.hex4 [a'; b'; c'; d'] = Some (lo, []) ->
      Json.is_low_surrogate lo = true ->
      json_text escaped text ->
      json_text (92%N :: 117%N :: a :: b :: c :: d
                 :: 92%N :: 117%N :: a' :: b' :: c' :: d' :: escaped)
                (Json.join_surrogates hi lo :: text).

(** White space, as JSON has it between its tokens. *)
Definition spaces (ws : pystr) : Prop := forallb Json.is_ws ws = true.

(** The object with one key as the model writes it into its arguments: the
    key and the text of its value between quotes, with the white space [a]
    after the opening brace, [b] before the colon, [c] after it and [d]
    before the closing brace. *)
Definition written_arguments (a b c d : pystr) (key text : pystr) : pystr :=
  py "{" ++ a ++ [dquote] ++ key ++ [dquote] ++ b ++ py ":" ++ c
  ++ [dquote] ++ text ++ [dquote] ++ d ++ py "}".

(** What follows a number in an array: a comma or the closing bracket. *)
Definition ends_item (r : pystr) : Prop :=
  exists c r', r = c :: r' /\ (c = 44%N \/ c = 93%N).

(** *** The loop of [alternate_cases] *)

(** One turn of the loop, on the state [(i, rc)] and the item [c]. *)
Definition alternate_step `{CaseMapping} (state : Z * value) (c : value)
  : outcome (Z * value) :=
  let '(i, rc) := state in
  c' ← (if (i mod 2 =? 0)%Z
        then AlternateCases.method_lower c
        else AlternateCases.method_upper c);
  rc' ← py_add rc c';
  Returns ((i + 1)%Z, rc').

Definition is_str (v : value) : bool :=
  match v with
  | VStr _ => true
  | _ => false
  end.

(** The schema [x] has the name [name]: what the test of the filter,
    [x['name'] == name], gives on a schema that has a name. *)
Definition named (name : pystr) (x : value) : bool :=
  match getitem x (py "name") with
  | Returns n => eq_str n name
  | Raises _ => false
  end.

(** A character whose two conversions are single characters that the same
    conversion leaves as they are. *)
Definition settled_case `{CaseMapping} (c : pychar) : Prop :=
  exists l u,
    str_lower [c] = [l] /\ str_upper [c] = [u]
    /\ str_lower [l] = [l] /\ str_upper [u] = [u].

(** ** More scenarios *)

(** The floats 0.1, 0.2 and 0.3. *)
Definition tenth : pyfloat := float_of_decimal false 1 (-1).
Definition fifth : pyfloat := float_of_decimal false 2 (-1).
Definition three_tenths : pyfloat := float_of_decimal false 3 (-1).

(** The float 0.5, and an int beyond the range of the floats, [10 ** 400]. *)
Definition half : pyfloat := float_of_decimal false 5 (-1).
Definition ten_to_the_400 : Z := 10 ^ 400.

(** [repr] on [None], [bool] and [int], which is all the scenarios format.
    On the other values this instance gives the empty text, which is not
    Python's: it is to be used on the scenarios only. *)
Definition repr_scalar (v : value) : pystr :=
  match v with
  | VNone => py "None"
  | VBool true => py "True"
  | VBool false => py "False"
  | VInt z => json_int z
  | _ => []
  end.

Definition scalars : Display := {| repr_value := repr_scalar |}.

(** A database of two tables. A row of [PRAGMA table_info] holds the index
    of the column, its name, its type, whether it may be null, its default
    and whether it is part of the key. *)
Definition column_row (cid : Z) (name ty : string) (pk : Z) : Chinook.row :=
  [VInt cid; VStr (py name); VStr (py ty); VInt 1; VNone; VInt pk].

Definition no_such_table : exn :=
  Exn (OtherError (py "OperationalError")) (py "no such table").

Definition music_database : Chinook.database := fun q =>
  if eq_str q Chinook.table_names_query
  then Returns [[VStr (py "artists")]; [VStr (py "albums")]]
  else if eq_str q (py "PRAGMA table_info('artists');")
  then Returns [column_row 0 "ArtistId" "INTEGER" 1;
                column_row 1 "Name" "NVARCHAR(120)" 0]
  else if eq_str q (py "PRAGMA table_info('albums');")
  then Returns [column_row 0 "AlbumId" "INTEGER" 1;
                column_row 1 "Title" "NVARCHAR(160)" 0;
                column_row 2 "ArtistId" "INTEGER" 0]
  else Raises no_such_table.

Definition music_tables : list table :=
  [(py "artists", [py "ArtistId"; py "Name"]);
   (py "albums", [py "AlbumId"; py "Title"; py "ArtistId"])].

(** The same database while the second table cannot be read. *)
Definition locked : exn :=
  Exn (OtherError (py "OperationalError")) (py "database is locked").

Definition half_locked_database : Chinook.database := fun q =>
  if eq_str q (py "PRAGMA table_info('albums');") then Raises locked
  else music_database q.

(** A reply whose body holds no turn: the API answers with an error
    object, which has no key [choices]. *)
Definition error_body : outcome response :=
  Returns (Response (Raises (key_error (py "choices")))).

(** A query of two lines as the model writes it into its arguments, with
    the line feed escaped, the quotes of the table name escaped and the
    star written as a code point in hex; and the text it stands for. *)
Definition two_line_query_escaped : pystr :=
  py "SELECT count(" ++ [92; 117; 48; 48; 50; 97]%N ++ py ")"
  ++ [92; 110]%N ++ py "FROM " ++ [92; 34]%N ++ py "artists" ++ [92; 34]%N.

Definition two_line_query : pystr :=
  py "SELECT count(*)" ++ [10%N] ++ py "FROM " ++ [dquote] ++ py "artists"
  ++ [dquote].

(** The arguments of the two calls of [ask_database] that the database
    notebook recorded, as the model wrote them: the object over three
    lines, and in the second the query of eight lines with its line feeds
    escaped. *)
Definition santana_query : pystr :=
  py "SELECT Name FROM artists WHERE Name LIKE '%Santana%'".

Definition recorded_santana_arguments : pystr :=
  written_arguments [10%N] [] [32%N] [10%N] (py "query") santana_query.

Definition recorded_santana : message :=
  requesting (py "ask_database") recorded_santana_arguments.

Definition genre_query_lines : list pystr :=
  [py "SELECT customers.CustomerId, customers.FirstName, customers.LastName, COUNT(DISTINCT tracks.GenreId) as GenreCount";
   py "FROM customers";
   py "LEFT JOIN invoices on customers.CustomerId = invoices.CustomerId";
   py "LEFT JOIN invoice_items on invoices.InvoiceId = invoice_items.InvoiceId";
   py "LEFT JOIN tracks on invoice_items.TrackId = tracks.TrackId";
   py "GROUP BY customers.CustomerId";
   py "ORDER BY GenreCount DESC";
   py "LIMIT 1;"].

Definition genre_query : pystr := join_with [10%N] genre_query_lines.

Definition recorded_genre_arguments : pystr :=
  written_arguments [10; 32; 32]%N [] [32%N] [10%N] (py "query")
    (join_with [92; 110]%N genre_query_lines).

(** A turn of the sentiment notebook. *)
Definition positive_sentiment : message :=
  requesting (py "sentiment") (text_arguments "sentiment" (py "Positive")).

(** * Properties *)

(** ** Running the monad *)

Lemma run_bind {A B} (m : M A) (f : A -> M B) (w : world) :
  (m ≫= f) w =
  match m w with
  | (Returns a, w') => f a w'
  | (Raises e, w') => (Raises e, w')
  end.
Proof. reflexivity. Qed.

Lemma run_lift_bind {A B} (o : outcome A) (f : A -> M B) (w : world) :
  (lift o ≫= f) w =
  match o with
  | Returns a => f a w
  | Raises e => (Raises e, w)
  end.
Proof. rewrite run_bind. unfold lift. by destruct o. Qed.

Lemma run_enter_bind {B} (f : pystr) (k : unit -> M B) (w : world) :
  (enter f ≫= k) w = k tt (entering [f] w).
Proof. reflexivity. Qed.

(** ** The decoder's fuel

    A value at the head of a document takes at least one character, and the
    fuel [loads] starts with, which grows with the length of the document,
    is enough to read it: a document that some amount of fuel reads is read
    by [loads], to the same value. *)

Section DecoderFuel.
Import Json.

Lemma skip_ws_length (s : list N) : length (skip_ws s) <= length s.
Proof. induction s as [|c s IH]; simpl; [lia|]. destruct (is_ws c); simpl; lia. Qed.

Lemma hex4_length (s : list N) (cp : N) (r : list N) :
  hex4 s = Some (cp, r) -> length s = 4 + length r.
Proof.
  unfold hex4. destruct s as [|a [|b [|c [|d rest]]]]; try done.
  intros Hs. repeat (simplify_option_eq; try done).
Qed.

Ltac scan_cases :=
  repeat (first
    [ progress simplify_option_eq
    | case_match
    | match goal with p : (_ * _)%type |- _ => destruct p end ]).

Lemma scanstring_length (f : nat) (s acc : list N) (x r : list N) :
  scanstring f s acc = Some (x, r) -> length r < length s.
Proof.
  revert s acc. induction f as [|f IH]; intros s acc; [by destruct s|].
  destruct s as [|c s]; [done|]. cbn [scanstring].
  intros Hs. scan_cases;
    repeat match goal with
    | Hx : hex4 _ = Some _ |- _ => apply hex4_length in Hx
    | Hx : scanstring f _ _ = Some _ |- _ => apply IH in Hx
    end; simpl in *; try lia.
Qed.

Lemma take_digits_length (s ds rest : list N) :
  take_digits s = (ds, rest) -> length s = length ds + length rest.
Proof.
  revert ds rest. induction s as [|c s IH]; intros ds rest; simpl.
  - by intros [= <- <-].
  - destruct (is_digit c); [|by intros [= <- <-]].
    destruct (take_digits s) as [ds' rest'] eqn:Hs. intros [= <- <-].
    simpl. by rewrite (IH ds' rest').
Qed.

Lemma strip_prefix_length (p s r : list N) :
  strip_prefix p s = Some r -> length s = length p + length r.
Proof.
  revert s. induction p as [|a p IH]; intros s; simpl; [by intros [= ->]|].
  destruct s as [|b s]; [done|]. destruct (a =? b)%N; [|done].
  intros Hs. simpl. by rewrite (IH s Hs).
Qed.

Lemma scan_constant_length (s : list N) (v : value) (r : list N) :
  scan_constant s = Some (v, r) -> length r < length s.
Proof.
  unfold scan_constant. intros Hs.
  repeat match type of Hs with
  | match strip_prefix ?p s with _ => _ end = _ =>
      let Hp := fresh "Hp" in
      destruct (strip_prefix p s) eqn:Hp;
        [apply strip_prefix_length in Hp; injection Hs as <- <-;
         rewrite Hp; vm_compute length; lia|]
  end.
  done.
Qed.

Lemma scan_sign_length (s : list N) (neg : bool) (r : list N) :
  scan_sign s = (neg, r) -> length r <= length s.
Proof.
  unfold scan_sign. destruct s as [|c s]; [by intros [= <- <-]|].
  destruct (c =? 45)%N; intros [= <- <-]; simpl; lia.
Qed.

Lemma scan_int_part_length (s ip r : list N) :
  scan_int_part s = Some (ip, r) -> length r < length s.
Proof.
  unfold scan_int_part. destruct s as [|c s]; [done|].
  destruct (c =? 48)%N; [intros [= <- <-]; simpl; lia|].
  destruct (is_digit c) eqn:Hc; [|done]. intros [= Hs].
  pose proof (take_digits_length (c :: s) ip r Hs) as Hlen.
  rewrite Hc in Hs. destruct (take_digits s). injection Hs as <- <-.
  simpl in *. lia.
Qed.

Lemma scan_fraction_length (s fp r : list N) :
  scan_fraction s = (fp, r) -> length r <= length s.
Proof.
  unfold scan_fraction. destruct s as [|c s]; [by intros [= <- <-]|].
  destruct (c =? 46)%N; [|by intros [= <- <-]].
  destruct (take_digits s) as [[|d ds] rest] eqn:Hs; intros [= <- <-]; [done|].
  apply take_digits_length in Hs. simpl in *. lia.
Qed.

Lemma scan_exponent_length (s : list N) (ex : option Z) (r : list N) :
  scan_exponent s = (ex, r) -> length r <= length s.
Proof.
  unfold scan_exponent. destruct s as [|c s]; [by intros [= <- <-]|].
  destruct ((c =? 101)%N || (c =? 69)%N); [|by intros [= <- <-]].
  intros Hs. scan_cases;
    repeat match goal with
    | Hx : take_digits _ = _ |- _ => apply take_digits_length in Hx
    end; simpl in *; lia.
Qed.

Lemma scan_number_length (s : list N) (v : value) (r : list N) :
  scan_number s = Some (v, r) -> length r < length s.
Proof.
  unfold scan_number.
  destruct (scan_sign s) as [neg s1] eqn:Hsign.
  destruct (scan_int_part s1) as [[ip r1]|] eqn:Hint; [|done]. simpl.
  destruct (scan_fraction r1) as [fp r2] eqn:Hfrac.
  destruct (scan_exponent r2) as [ex r3] eqn:Hexp.
  apply scan_sign_length in Hsign. apply scan_int_part_length in Hint.
  apply scan_fraction_length in Hfrac. apply scan_exponent_length in Hexp.
  destruct fp, ex; intros [= <- <-]; lia.
Qed.

Lemma scan_fuel (f : nat) :
  (forall s v r, scan_once f s = Some (v, r) ->
     length r < length s
     /\ forall f', 2 * (length s - length r) <= f' -> scan_once f' s = Some (v, r))
  /\ (forall s acc v r, scan_items f s acc = Some (v, r) ->
        length r < length s
        /\ forall f', 2 * (length s - length r) <= f' ->
             scan_items f' s acc = Some (v, r))
  /\ (forall s acc v r, scan_members f s acc = Some (v, r) ->
        length r < length s
        /\ forall f', 2 * (length s - length r) <= f' ->
             scan_members f' s acc = Some (v, r)).
Proof.
  induction f as [|f (IHonce & IHitems & IHmembers)].
  { split; [|split]; intros; by destruct s. }
  split; [|split].
  - intros s v r. destruct s as [|c s0]; [done|]. cbn [scan_once].
    destruct (c =? 34)%N eqn:Hquote.
    { destruct (scanstring (length s0) s0 []) as [[str r']|] eqn:Hstr; [|done].
      simpl. intros [= <- <-]. pose proof (scanstring_length _ _ _ _ _ Hstr).
      split; [simpl; lia|]. intros [|f'] Hf'; [simpl in Hf'; lia|].
      cbn [scan_once]. by rewrite Hquote, Hstr. }
    destruct (c =? 123)%N eqn:Hbrace.
    { pose proof (skip_ws_length s0).
      destruct (skip_ws s0) as [|c' r'] eqn:Hws; [done|].
      destruct (c' =? 125)%N eqn:Hclose.
      - intros [= <- <-]. simpl in *. split; [lia|].
        intros [|f'] Hf'; [lia|]. cbn [scan_once].
        by rewrite Hquote, Hbrace, Hws, Hclose.
      - intros Hs. apply IHmembers in Hs as [Hlen Hfuel]. simpl in *.
        split; [lia|]. intros [|f'] Hf'; [lia|]. cbn [scan_once].
        rewrite Hquote, Hbrace, Hws, Hclose. apply Hfuel. simpl. lia. }
    destruct (c =? 91)%N eqn:Hbracket.
    { pose proof (skip_ws_length s0).
      destruct (skip_ws s0) as [|c' r'] eqn:Hws; [done|].
      destruct (c' =? 93)%N eqn:Hclose.
      - intros [= <- <-]. simpl in *. split; [lia|].
        intros [|f'] Hf'; [lia|]. cbn [scan_once].
        by rewrite Hquote, Hbrace, Hbracket, Hws, Hclose.
      - intros Hs. apply IHitems in Hs as [Hlen Hfuel]. simpl in *.
        split; [lia|]. intros [|f'] Hf'; [lia|]. cbn [scan_once].
        rewrite Hquote, Hbrace, Hbracket, Hws, Hclose. apply Hfuel. simpl. lia. }
    intros Hs.
    assert (length r < length (c :: s0)) as Hlen.
    { destruct (scan_constant (c :: s0)) as [[v' r']|] eqn:Hconst.
      - injection Hs as <- <-. by apply scan_constant_length in Hconst.
      - by apply scan_number_length in Hs. }
    split; [done|]. intros [|f'] Hf'; [simpl in *; lia|]. cbn [scan_once].
    by rewrite Hquote, Hbrace, Hbracket.
  - intros s acc v r. cbn [scan_items].
    destruct (scan_once f s) as [[v1 r1]|] eqn:Hitem; [|done]. simpl.
    apply IHonce in Hitem as [Hlen1 Hfuel1].
    pose proof (skip_ws_length r1).
    destruct (skip_ws r1) as [|c r'] eqn:Hws; [done|].
    destruct (c =? 93)%N eqn:Hclose.
    { intros [= <- <-]. simpl in *. split; [lia|].
      intros [|f'] Hf'; [lia|]. cbn [scan_items].
      rewrite (Hfuel1 f') by lia. simpl. by rewrite Hws, Hclose. }
    destruct (c =? 44)%N eqn:Hcomma; [|done].
    intros Hs. apply IHitems in Hs as [Hlen Hfuel].
    pose proof (skip_ws_length r'). simpl in *.
    split; [lia|]. intros [|f'] Hf'; [lia|]. cbn [scan_items].
    rewrite (Hfuel1 f') by lia. simpl. rewrite Hws, Hclose, Hcomma.
    apply Hfuel. lia.
  - intros s acc v r. destruct s as [|q s0]; [done|]. cbn [scan_members].
    destruct (q =? 34)%N eqn:Hquote; [|done].
    destruct (scanstring (length s0) s0 []) as [[k r1]|] eqn:Hkey; [|done].
    simpl. pose proof (scanstring_length _ _ _ _ _ Hkey).
    pose proof (skip_ws_length r1).
    destruct (skip_ws r1) as [|c1 r2] eqn:Hws1; [done|].
    destruct (c1 =? 58)%N eqn:Hcolon; [|done].
    pose proof (skip_ws_length r2).
    destruct (scan_once f (skip_ws r2)) as [[v3 r3]|] eqn:Hval; [|done]. simpl.
    apply IHonce in Hval as [Hlen3 Hfuel3].
    pose proof (skip_ws_length r3).
    destruct (skip_ws r3) as [|c3 r4] eqn:Hws3; [done|].
    destruct (c3 =? 125)%N eqn:Hclose.
    { intros [= <- <-]. simpl in *. split; [lia|].
      intros [|f'] Hf'; [lia|]. cbn [scan_members].
      rewrite Hquote, Hkey. simpl. rewrite Hws1, Hcolon.
      rewrite (Hfuel3 f') by lia. simpl. by rewrite Hws3, Hclose. }
    destruct (c3 =? 44)%N eqn:Hcomma; [|done].
    intros Hs. apply IHmembers in Hs as [Hlen Hfuel].
    pose proof (skip_ws_length r4). simpl in *.
    split; [lia|]. intros [|f'] Hf'; [lia|]. cbn [scan_members].
    rewrite Hquote, Hkey. simpl. rewrite Hws1, Hcolon.
    rewrite (Hfuel3 f') by lia. simpl. rewrite Hws3, Hclose, Hcomma.
    apply Hfuel. lia.
Qed.

Lemma loads_fuel_suffices (s : pystr) (f : nat) (v : value) :
  starts_with_bom s = false ->
  (exists r, scan_once f (skip_ws s) = Some (v, r) /\ skip_ws r = []) ->
  loads s = Returns v.
Proof.
  intros Hbom (r & Hscan & Hend). unfold loads. rewrite Hbom.
  destruct (scan_fuel f) as (Honce & _ & _).
  destruct (Honce _ _ _ Hscan) as [Hlen Hfuel].
  pose proof (skip_ws_length s).
  rewrite (Hfuel (2 * length s + 2)) by lia. by rewrite Hend.
Qed.

End DecoderFuel.

(** ** Sums and products of integers *)

Lemma fold_add_ints (zs : list Z) (acc : Z) :
  fold_outcome (fun a x => py_add a x) (List.map VInt zs) (VInt acc)
  = Returns (VInt (acc + Zsum zs)).
Proof.
  revert acc. induction zs as [|z zs IH]; intros acc; simpl.
  - by rewrite Z.add_0_r.
  - change (py_add (VInt acc) (VInt z)) with (Returns (VInt (acc + z))).
    simpl. change (mbind ?f (Returns ?a)) with (f a).
    rewrite IH. f_equal. f_equal. lia.
Qed.

Lemma fold_mul_ints (zs : list Z) (acc : Z) :
  fold_outcome (fun a x => py_mul a x) (List.map VInt zs) (VInt acc)
  = Returns (VInt (acc * Zprod zs)).
Proof.
  revert acc. induction zs as [|z zs IH]; intros acc; simpl.
  - by rewrite Z.mul_1_r.
  - change (py_mul (VInt acc) (VInt z)) with (Returns (VInt (acc * z))).
    simpl. change (mbind ?f (Returns ?a)) with (f a).
    rewrite IH. f_equal. f_equal. lia.
Qed.

Lemma add_ints (zs : list Z) (w : world) :
  Arithmetic.add (List.map VInt zs) w = (Returns (VInt (Zsum zs)), w).
Proof. unfold Arithmetic.add, lift. by rewrite fold_add_ints. Qed.

Lemma multiply_ints (zs : list Z) (w : world) :
  Arithmetic.multiply (List.map VInt zs) w = (Returns (VInt (Zprod zs)), w).
Proof.
  unfold Arithmetic.multiply, lift. rewrite fold_mul_ints.
  by destruct (Zprod zs).
Qed.

Lemma fold_add_floats (fs : list pyfloat) (acc : pyfloat) :
  fold_outcome (fun a x => py_add a x) (List.map VFloat fs) (VFloat acc)
  = Returns (VFloat (fold_left float_add fs acc)).
Proof.
  revert acc. induction fs as [|f fs IH]; intros acc; [done|].
  simpl. change (mbind ?k (Returns ?a)) with (k a). apply IH.
Qed.

Lemma fold_mul_floats (fs : list pyfloat) (acc : pyfloat) :
  fold_outcome (fun a x => py_mul a x) (List.map VFloat fs) (VFloat acc)
  = Returns (VFloat (fold_left float_mul fs acc)).
Proof.
  revert acc. induction fs as [|f fs IH]; intros acc; [done|].
  simpl. change (mbind ?k (Returns ?a)) with (k a). apply IH.
Qed.

(** On floats: the first step converts the int the loop starts from. *)
Lemma add_floats (f : pyfloat) (fs : list pyfloat) (w : world) :
  Arithmetic.add (List.map VFloat (f :: fs)) w
  = (Returns (VFloat (float_sum (f :: fs))), w).
Proof.
  unfold Arithmetic.add, lift, float_sum. cbn [List.map fold_outcome fold_left].
  change (py_add (VInt 0) (VFloat f)) with (Returns (VFloat (float_add float_zero f))).
  change (mbind ?k (Returns ?a)) with (k a). by rewrite fold_add_floats.
Qed.

Lemma multiply_floats (f : pyfloat) (fs : list pyfloat) (w : world) :
  Arithmetic.multiply (List.map VFloat (f :: fs)) w
  = (Returns (VFloat (float_prod (f :: fs))), w).
Proof.
  unfold Arithmetic.multiply, lift, float_prod. cbn [List.map fold_outcome fold_left].
  change (py_mul (VInt 1) (VFloat f)) with (Returns (VFloat (float_mul float_one f))).
  change (mbind ?k (Returns ?a)) with (k a). by rewrite fold_mul_floats.
Qed.

Lemma lookup_add :
  Arithmetic.available_functions !! py "add" = Some Arithmetic.add.
Proof.
  unfold Arithmetic.available_functions.
  rewrite lookup_insert_ne by discriminate. apply lookup_insert_eq.
Qed.

Lemma lookup_multiply :
  Arithmetic.available_functions !! py "multiply" = Some Arithmetic.multiply.
Proof. unfold Arithmetic.available_functions. apply lookup_insert_eq. Qed.

(** The cell of the arithmetic notebook on a turn whose arguments decode to
    an object with an [input] that can be spread, for a function of the
    table: the function is entered with the items and its result printed. *)
Lemma arithmetic_dispatch_call (table : gmap pystr Arithmetic.handler)
    (m : message) (fc : function_call) (d input : value) (args : list value)
    (f : Arithmetic.handler) (w : world) :
  msg_function_call m = Has fc ->
  Json.loads (fc_arguments fc) = Returns d ->
  getitem d (py "input") = Returns input ->
  iterate input = Returns args ->
  table !! fc_name fc = Some f ->
  Arithmetic.dispatch table m w =
  match f args (entering [fc_name fc] w) with
  | (Returns result, w') => (Returns tt, printing [Value result] w')
  | (Raises e, w') => (Raises e, w')
  end.
Proof.
  intros Hfc Hd Hin Hargs Hf. unfold Arithmetic.dispatch. rewrite Hfc.
  rewrite run_lift_bind, Hd. simpl. rewrite Hin.
  rewrite run_lift_bind. unfold lookup_function. rewrite Hf.
  rewrite run_lift_bind, Hargs.
  rewrite !run_bind. unfold enter at 1. fold (entering [fc_name fc] w).
  destruct (f args (entering [fc_name fc] w)) as [[result|e] w']; done.
Qed.

(** A fold over two lists, one after the other. *)
Lemma fold_outcome_app {A B} (f : A -> B -> outcome A) (l1 l2 : list B) (a : A) :
  fold_outcome f (l1 ++ l2) a = (a' ← fold_outcome f l1 a; fold_outcome f l2 a').
Proof.
  revert a. induction l1 as [|x l1 IH]; intros a; [done|].
  simpl. destruct (f a x) as [a'|e]; [apply IH|done].
Qed.

(** ** Sums and products of ints and floats together

    Once the sum (the product) is a float it stays one: every later item is
    converted, when it is an int, and added (multiplied) with a rounding. *)

Lemma to_float_raises (n : number) (e : exn) : to_float n = Raises e -> e = overflow.
Proof.
  destruct n as [z|f]; [|done]. unfold to_float, float_of_int.
  destruct (binary_normalize _ _ _ _ _); by intros [= <-].
Qed.

Lemma to_floats_raises (ns : list number) (e : exn) :
  to_floats ns = Raises e -> e = overflow.
Proof.
  induction ns as [|n ns IH]; [done|]. cbn [to_floats].
  destruct (to_float n) as [f|e'] eqn:Hn.
  - change (mbind ?k (Returns ?a)) with (k a). cbn beta.
    destruct (to_floats ns) as [fs|e'']; [done|].
    intros [= <-]. by apply IH.
  - intros [= <-]. by apply (to_float_raises n).
Qed.

Lemma fold_add_numbers (ns : list number) (acc : pyfloat) :
  fold_outcome (fun a x => py_add a x) (List.map number_value ns) (VFloat acc)
  = (fs ← to_floats ns; Returns (VFloat (fold_left float_add fs acc))).
Proof.
  revert acc. induction ns as [|n ns IH]; intros acc; [done|].
  cbn [List.map fold_outcome to_floats]. destruct n as [z|f].
  - change (py_add (VFloat acc) (number_value (NInt z)))
      with (fy ← float_of_int z; Returns (VFloat (float_add acc fy))).
    change (to_float (NInt z)) with (float_of_int z).
    destruct (float_of_int z) as [fz|e]; [|done].
    repeat (change (mbind ?k (Returns ?a)) with (k a); cbn beta). rewrite IH.
    by destruct (to_floats ns).
  - change (py_add (VFloat acc) (number_value (NFloat f)))
      with (Returns (VFloat (float_add acc f))).
    repeat (change (mbind ?k (Returns ?a)) with (k a); cbn beta). rewrite IH.
    cbn [to_float]. repeat (change (mbind ?k (Returns ?a)) with (k a); cbn beta).
    by destruct (to_floats ns).
Qed.

Lemma fold_mul_numbers (ns : list number) (acc : pyfloat) :
  fold_outcome (fun a x => py_mul a x) (List.map number_value ns) (VFloat acc)
  = (fs ← to_floats ns; Returns (VFloat (fold_left float_mul fs acc))).
Proof.
  revert acc. induction ns as [|n ns IH]; intros acc; [done|].
  cbn [List.map fold_outcome to_floats]. destruct n as [z|f].
  - change (py_mul (VFloat acc) (number_value (NInt z)))
      with (fy ← float_of_int z; Returns (VFloat (float_mul acc fy))).
    change (to_float (NInt z)) with (float_of_int z).
    destruct (float_of_int z) as [fz|e]; [|done].
    repeat (change (mbind ?k (Returns ?a)) with (k a); cbn beta). rewrite IH.
    by destruct (to_floats ns).
  - change (py_mul (VFloat acc) (number_value (NFloat f)))
      with (Returns (VFloat (float_mul acc f))).
    repeat (change (mbind ?k (Returns ?a)) with (k a); cbn beta). rewrite IH.
    cbn [to_float]. repeat (change (mbind ?k (Returns ?a)) with (k a); cbn beta).
    by destruct (to_floats ns).
Qed.

(** A list of numbers with a float in it: the ints before the first float
    are added (multiplied) exactly, the result is converted to a float, and
    the rest is added (multiplied) in float arithmetic. *)
Lemma add_mixed (zs : list Z) (f : pyfloat) (rest : list number) (w : world) :
  Arithmetic.add (List.map VInt zs ++ VFloat f :: List.map number_value rest) w
  = (f0 ← float_of_int (Zsum zs);
     fs ← to_floats rest;
     Returns (VFloat (fold_left float_add (f :: fs) f0)), w).
Proof.
  unfold Arithmetic.add, lift. f_equal.
  rewrite fold_outcome_app, fold_add_ints.
  repeat (change (mbind ?k (Returns ?a)) with (k a); cbn beta). cbn [fold_outcome].
  change (0 + Zsum zs)%Z with (Zsum zs).
  change (py_add (VInt (Zsum zs)) (VFloat f))
    with (fx ← float_of_int (Zsum zs); Returns (VFloat (float_add fx f))).
  destruct (float_of_int (Zsum zs)) as [f0|e]; [|done].
  repeat (change (mbind ?k (Returns ?a)) with (k a); cbn beta).
  by rewrite fold_add_numbers.
Qed.

Lemma multiply_mixed (zs : list Z) (f : pyfloat) (rest : list number) (w : world) :
  Arithmetic.multiply (List.map VInt zs ++ VFloat f :: List.map number_value rest) w
  = (f0 ← float_of_int (Zprod zs);
     fs ← to_floats rest;
     Returns (VFloat (fold_left float_mul (f :: fs) f0)), w).
Proof.
  unfold Arithmetic.multiply, lift. f_equal.
  rewrite fold_outcome_app, fold_mul_ints.
  repeat (change (mbind ?k (Returns ?a)) with (k a); cbn beta). cbn [fold_outcome].
  rewrite Z.mul_1_l.
  change (py_mul (VInt (Zprod zs)) (VFloat f))
    with (fx ← float_of_int (Zprod zs); Returns (VFloat (float_mul fx f))).
  destruct (float_of_int (Zprod zs)) as [f0|e]; [|done].
  repeat (change (mbind ?k (Returns ?a)) with (k a); cbn beta).
  by rewrite fold_mul_numbers.
Qed.

(** A list of numbers holds ints only, or ints up to its first float. *)
Lemma numbers_split (ns : list number) :
  (exists zs, List.map number_value ns = List.map VInt zs)
  \/ (exists zs f rest,
        List.map number_value ns
        = List.map VInt zs ++ VFloat f :: List.map number_value rest).
Proof.
  induction ns as [|[z|f] ns IH].
  - left. by exists [].
  - destruct IH as [[zs Hzs] | (zs & f & rest & Hns)].
    + left. exists (z :: zs). simpl. by rewrite Hzs.
    + right. exists (z :: zs), f, rest. simpl. by rewrite Hns.
  - right. by exists [], f, ns.
Qed.

(** What [add] and [multiply] do on a list of numbers: they return a number,
    or raise OverflowError, and leave the state as it is. *)
Lemma add_numbers_outcome (ns : list number) (w : world) :
  exists o,
    Arithmetic.add (List.map number_value ns) w = (o, w)
    /\ match o with
       | Returns v => exists n, v = number_value n
       | Raises e => e = overflow
       end.
Proof.
  destruct (numbers_split ns) as [[zs ->] | (zs & f & rest & ->)].
  - rewrite add_ints. eexists. split; [done|]. by exists (NInt (Zsum zs)).
  - rewrite add_mixed. eexists. split; [done|].
    destruct (float_of_int (Zsum zs)) as [f0|e] eqn:Hz.
    + change (mbind ?k (Returns ?a)) with (k a). cbn beta.
      destruct (to_floats rest) as [fs|e] eqn:Hrest.
      * by eexists (NFloat _).
      * by apply (to_floats_raises rest).
    + by apply (to_float_raises (NInt (Zsum zs))).
Qed.

Lemma multiply_numbers_outcome (ns : list number) (w : world) :
  exists o,
    Arithmetic.multiply (List.map number_value ns) w = (o, w)
    /\ match o with
       | Returns v => exists n, v = number_value n
       | Raises e => e = overflow
       end.
Proof.
  destruct (numbers_split ns) as [[zs ->] | (zs & f & rest & ->)].
  - rewrite multiply_ints. eexists. split; [done|]. by exists (NInt (Zprod zs)).
  - rewrite multiply_mixed. eexists. split; [done|].
    destruct (float_of_int (Zprod zs)) as [f0|e] eqn:Hz.
    + change (mbind ?k (Returns ?a)) with (k a). cbn beta.
      destruct (to_floats rest) as [fs|e] eqn:Hrest.
      * by eexists (NFloat _).
      * by apply (to_floats_raises rest).
    + by apply (to_float_raises (NInt (Zprod zs))).
Qed.

(** C7 (amended). The cell of the arithmetic notebook spreads the array of
    the arguments by position: whatever the table of local functions, the
    function of the requested name receives the items of [input] in the
    order of the array, and its result is printed. When the items are
    integers the cell prints their sum for [add] and their product for
    [multiply]; the turn the notebook recorded is an instance, [5, 34, 100]
    gives 139. On every list of integers [add] returns the sum and
    [multiply] the product, exactly; on every list of floats they return the
    sum and the product of float arithmetic, taken from left to right with a
    rounding at each step. On a list that holds integers and floats, the
    integers before the first float are added (multiplied) exactly, that
    result is converted to a float, every later integer is converted as it
    is met, and the rest is float arithmetic from left to right; when one of
    these conversions fails, the integer being beyond the range of the
    floats, the call raises OverflowError and returns no sum or product. *)
Theorem add_sums_and_multiply_multiplies :
  (forall (table : gmap pystr Arithmetic.handler) (f : Arithmetic.handler)
          m fc d items w,
     msg_function_call m = Has fc ->
     Json.loads (fc_arguments fc) = Returns d ->
     getitem d (py "input") = Returns (VList items) ->
     table !! fc_name fc = Some f ->
     Arithmetic.dispatch table m w
     = match f items (entering [fc_name fc] w) with
       | (Returns result, w') => (Returns tt, printing [Value result] w')
       | (Raises e, w') => (Raises e, w')
       end)
  /\ (forall m fc d zs w,
        msg_function_call m = Has fc ->
        Json.loads (fc_arguments fc) = Returns d ->
        getitem d (py "input") = Returns (VList (List.map VInt zs)) ->
        (fc_name fc = py "add" ->
         Arithmetic.dispatch Arithmetic.available_functions m w
         = (Returns tt, printing [Value (VInt (Zsum zs))] (entering [py "add"] w)))
        /\ (fc_name fc = py "multiply" ->
            Arithmetic.dispatch Arithmetic.available_functions m w
            = (Returns tt,
               printing [Value (VInt (Zprod zs))] (entering [py "multiply"] w))))
  /\ (forall zs w, Arithmetic.add (List.map VInt zs) w = (Returns (VInt (Zsum zs)), w))
  /\ (forall zs w,
        Arithmetic.multiply (List.map VInt zs) w = (Returns (VInt (Zprod zs)), w))
  /\ (forall f fs w,
        Arithmetic.add (List.map VFloat (f :: fs)) w
        = (Returns (VFloat (float_sum (f :: fs))), w))
  /\ (forall f fs w,
        Arithmetic.multiply (List.map VFloat (f :: fs)) w
        = (Returns (VFloat (float_prod (f :: fs))), w))
  /\ (forall zs f rest w,
        Arithmetic.add (List.map VInt zs ++ VFloat f :: List.map number_value rest) w
        = (f0 ← float_of_int (Zsum zs);
           fs ← to_floats rest;
           Returns (VFloat (fold_left float_add (f :: fs) f0)), w))
  /\ (forall zs f rest w,
        Arithmetic.multiply
          (List.map VInt zs ++ VFloat f :: List.map number_value rest) w
        = (f0 ← float_of_int (Zprod zs);
           fs ← to_floats rest;
           Returns (VFloat (fold_left float_mul (f :: fs) f0)), w))
  /\ (forall z e, float_of_int z = Raises e -> exn_class e = OverflowError)
  /\ (forall ns e, to_floats ns = Raises e -> exn_class e = OverflowError).
Proof.
  split; [|split; [|split; [|split; [|split; [|split; [|split; [|split; [|split]]]]]]]].
  - intros table f m fc d items w Hfc Hd Hin Hf.
    by apply (arithmetic_dispatch_call table m fc d (VList items) items f w).
  - intros m fc d zs w Hfc Hd Hin. split; intros Hname.
    + rewrite (arithmetic_dispatch_call _ m fc d _ (List.map VInt zs) Arithmetic.add)
        by (try done; rewrite Hname; apply lookup_add).
      by rewrite add_ints, Hname.
    + rewrite (arithmetic_dispatch_call _ m fc d _ (List.map VInt zs)
                 Arithmetic.multiply)
        by (try done; rewrite Hname; apply lookup_multiply).
      by rewrite multiply_ints, Hname.
  - apply add_ints.
  - apply multiply_ints.
  - intros f fs w. apply add_floats.
  - intros f fs w. apply multiply_floats.
  - apply add_mixed.
  - apply multiply_mixed.
  - intros z e He. by rewrite (to_float_raises (NInt z) e He).
  - intros ns e He. by rewrite (to_floats_raises ns e He).
Qed.

Lemma add_5_34_100_prints_139 :
  Arithmetic.dispatch Arithmetic.available_functions recorded_add blank
  = (Returns tt, printing [Value (VInt 139)] (entering [py "add"] blank)).
Proof.
  destruct add_sums_and_multiply_multiplies as (_ & Hcell & _).
  refine (proj1 (Hcell recorded_add (FunctionCall (py "add") _)
                   (VDict [(py "input", VList [VInt 5; VInt 34; VInt 100])])
                   [5; 34; 100]%Z blank eq_refl _ _) eq_refl).
  - vm_compute. reflexivity.
  - vm_compute. reflexivity.
Defined.

(** C7, the claim as it was stated, fails on a list of numbers that holds
    an integer beyond the range of the floats and a float: [add] on
    [10 ** 400] and 0.5 raises OverflowError when the integer sum met the
    float, and returns no sum. *)
Lemma add_of_a_large_int_and_a_half_raises :
  Arithmetic.add [VInt ten_to_the_400; VFloat half] blank
  = (Raises (Exn OverflowError (py "int too large to convert to float")), blank).
Proof. vm_compute. reflexivity. Qed.

(** C10 (amended). [add] of no arguments is 0 and [multiply] of no arguments
    is 1, the identities of the two operations; on one integer each returns
    it; and both return on a list of integers and on a list of floats of any
    length: the empty list, one item, or more. On a list that holds integers
    and floats they are not total: they return a number or raise
    OverflowError, the state left as it is, and they return exactly when the
    exact result on the integers before the first float and every integer
    after it convert to a float. *)
Theorem add_and_multiply_identities_and_totality :
  (forall w, Arithmetic.add [] w = (Returns (VInt 0), w))
  /\ (forall w, Arithmetic.multiply [] w = (Returns (VInt 1), w))
  /\ (forall z w, Arithmetic.add [VInt z] w = (Returns (VInt z), w))
  /\ (forall z w, Arithmetic.multiply [VInt z] w = (Returns (VInt z), w))
  /\ (forall zs w, exists z, Arithmetic.add (List.map VInt zs) w = (Returns (VInt z), w))
  /\ (forall zs w, exists z, Arithmetic.multiply (List.map VInt zs) w = (Returns (VInt z), w))
  /\ (forall fs w, exists v, Arithmetic.add (List.map VFloat fs) w = (Returns v, w))
  /\ (forall fs w, exists v, Arithmetic.multiply (List.map VFloat fs) w = (Returns v, w))
  /\ (forall ns w,
        exists o,
          Arithmetic.add (List.map number_value ns) w = (o, w)
          /\ match o with
             | Returns v => exists n, v = number_value n
             | Raises e => exn_class e = OverflowError
             end)
  /\ (forall ns w,
        exists o,
          Arithmetic.multiply (List.map number_value ns) w = (o, w)
          /\ match o with
             | Returns v => exists n, v = number_value n
             | Raises e => exn_class e = OverflowError
             end)
  /\ (forall zs f rest w,
        (exists v,
           Arithmetic.add (List.map VInt zs ++ VFloat f :: List.map number_value rest) w
           = (Returns v, w))
        <-> (exists f0 fs,
               float_of_int (Zsum zs) = Returns f0 /\ to_floats rest = Returns fs))
  /\ (forall zs f rest w,
        (exists v,
           Arithmetic.multiply
             (List.map VInt zs ++ VFloat f :: List.map number_value rest) w
           = (Returns v, w))
        <-> (exists f0 fs,
               float_of_int (Zprod zs) = Returns f0 /\ to_floats rest = Returns fs)).
Proof.
  split; [|split; [|split; [|split; [|split; [|split; [|split; [|split;
    [|split; [|split; [|split]]]]]]]]]].
  - intros w. apply (add_ints [] w).
  - intros w. apply (multiply_ints [] w).
  - intros z w. pose proof (add_ints [z] w) as Hz. simpl in Hz.
    by rewrite Z.add_0_r in Hz.
  - intros z w. pose proof (multiply_ints [z] w) as Hz. simpl in Hz.
    by rewrite Z.mul_1_r in Hz.
  - intros zs w. exists (Zsum zs). apply add_ints.
  - intros zs w. exists (Zprod zs). apply multiply_ints.
  - intros [|f fs] w; [by exists (VInt 0)|]. eexists. apply add_floats.
  - intros [|f fs] w; [by exists (VInt 1)|]. eexists. apply multiply_floats.
  - intros ns w. destruct (add_numbers_outcome ns w) as (o & Hrun & Ho).
    exists o. split; [done|]. destruct o as [v|e]; [done|]. by rewrite Ho.
  - intros ns w. destruct (multiply_numbers_outcome ns w) as (o & Hrun & Ho).
    exists o. split; [done|]. destruct o as [v|e]; [done|]. by rewrite Ho.
  - intros zs f rest w. rewrite add_mixed. split.
    + intros [v Hv]. destruct (float_of_int (Zsum zs)) as [f0|e]; [|done].
      destruct (to_floats rest) as [fs|e]; [|done]. by exists f0, fs.
    + intros (f0 & fs & -> & ->). by eexists.
  - intros zs f rest w. rewrite multiply_mixed. split.
    + intros [v Hv]. destruct (float_of_int (Zprod zs)) as [f0|e]; [|done].
      destruct (to_floats rest) as [fs|e]; [|done]. by exists f0, fs.
    + intros (f0 & fs & -> & ->). by eexists.
Qed.

(** The identities, and a list of numbers on which both functions return:
    an integer and two floats. *)
Lemma add_and_multiply_on_2_and_two_halves :
  Arithmetic.add [] blank = (Returns (VInt 0), blank)
  /\ Arithmetic.multiply [] blank = (Returns (VInt 1), blank)
  /\ (exists v,
        Arithmetic.add (List.map VInt [2%Z] ++ VFloat half
                        :: List.map number_value [NFloat half]) blank
        = (Returns v, blank)).
Proof.
  destruct add_and_multiply_identities_and_totality
    as (Hadd & Hmultiply & _ & _ & _ & _ & _ & _ & _ & _ & Hmixed & _).
  split; [apply Hadd|]. split; [apply Hmultiply|].
  apply (proj2 (Hmixed [2%Z] half [NFloat half] blank)).
  eexists _, _. split; vm_compute; reflexivity.
Defined.

(** C10, the claim as it was stated, fails on a list of two numbers:
    [multiply] on [10 ** 400] and 0.5 raises OverflowError, so that the
    functions are not total over the argument lists of numbers. *)
Lemma multiply_of_a_large_int_and_a_half_raises :
  Arithmetic.multiply [VInt ten_to_the_400; VFloat half] blank
  = (Raises (Exn OverflowError (py "int too large to convert to float")), blank).
Proof. vm_compute. reflexivity. Qed.

(** ** Alternating cases *)

Lemma even_of_nat (n : nat) :
  Z.even (Z.of_nat n) = Nat.even n /\ Z.odd (Z.of_nat n) = Nat.odd n.
Proof.
  induction n as [|n [IHe IHo]]; [done|].
  rewrite Nat2Z.inj_succ, Z.even_succ, Z.odd_succ, Nat.even_succ, Nat.odd_succ.
  by split.
Qed.

Lemma index_parity (n : nat) : (Z.of_nat n mod 2 =? 0)%Z = Nat.even n.
Proof. rewrite <- Zeven_mod. apply even_of_nat. Qed.

Section AlternateCasesFacts.
Context `{CaseMapping}.

(** The loop of [alternate_cases], started at index [n] with [rc] built so
    far. *)
Lemma alternate_loop (s : pystr) (n : nat) (rc : pystr) :
  fold_outcome
    (fun (state : Z * value) c =>
       let '(i, rc) := state in
       c' ← (if (i mod 2 =? 0)%Z
             then AlternateCases.method_lower c
             else AlternateCases.method_upper c);
       rc' ← py_add rc c';
       Returns ((i + 1)%Z, rc'))
    (List.map (fun c => VStr [c]) s) (Z.of_nat n, VStr rc)
  = Returns (Z.of_nat (n + length s), VStr (rc ++ alternated n s)).
Proof.
  revert n rc. induction s as [|c s IH]; intros n rc; simpl.
  - by rewrite Nat.add_0_r, app_nil_r.
  - rewrite index_parity.
    replace (Z.of_nat n + 1)%Z with (Z.of_nat (S n)) by lia.
    destruct (Nat.even n); simpl;
      change (mbind ?f (Returns ?a)) with (f a); simpl;
      rewrite IH, <- app_assoc; do 3 f_equal; lia.
Qed.

Lemma alternate_cases_alternated (input : pystr) (w : world) :
  AlternateCases.alternate_cases (VStr input) w
  = (Returns (VStr (alternated 0 input)), w).
Proof.
  pose proof (alternate_loop input 0 []) as Hloop.
  change (Z.of_nat 0) with 0%Z in Hloop.
  unfold AlternateCases.alternate_cases, lift. simpl. by rewrite Hloop.
Qed.

Lemma alternated_length (s : pystr) (n : nat) :
  Forall single_cased s -> length (alternated n s) = length s.
Proof.
  intros Hs. revert n. induction Hs as [|c s [Hl Hu] _ IH]; intros n; [done|].
  simpl. rewrite length_app, IH. by destruct (Nat.even n); rewrite ?Hl, ?Hu.
Qed.

Lemma alternated_lookup (s : pystr) (n i : nat) (c : pychar) :
  Forall single_cased s ->
  s !! i = Some c ->
  exists c', alternated n s !! i = Some c'
             /\ [c'] = if Nat.even (n + i) then str_lower [c] else str_upper [c].
Proof.
  intros Hs. revert n i.
  induction Hs as [|x s [Hl Hu] _ IH]; intros n i Hi; [done|].
  cbn [alternated]. destruct i as [|i]; simpl in Hi.
  - injection Hi as ->. rewrite Nat.add_0_r.
    destruct (Nat.even n).
    + destruct (str_lower [c]) as [|c' [|]]; try done. by exists c'.
    + destruct (str_upper [c]) as [|c' [|]]; try done. by exists c'.
  - destruct (IH (S n) i Hi) as (c' & Hc' & Hcase).
    exists c'. split.
    + assert (length (if Nat.even n then str_lower [x] else str_upper [x]) = 1)
        as Hone by (by destruct (Nat.even n)).
      rewrite lookup_app_r by lia. rewrite Hone. simpl.
      by rewrite Nat.sub_0_r.
    + by replace (n + S i) with (S n + i) by lia.
Qed.

(** C8 (amended). For every input string [alternate_cases] returns the
    characters of the input in order, the one at each even index converted
    by [lower] and the one at each odd index by [upper] (the first character
    is lower-cased), each conversion applied to that character alone. When
    every character of the input converts to a single character either way,
    the result has the length of the input and its character at index [i] is
    the conversion of the input's. *)
Theorem alternate_cases_alternates_by_position (input : pystr) (w : world) :
  AlternateCases.alternate_cases (VStr input) w
  = (Returns (VStr (alternated 0 input)), w)
  /\ (Forall single_cased input ->
      length (alternated 0 input) = length input
      /\ forall i c, input !! i = Some c ->
           exists c', alternated 0 input !! i = Some c'
                      /\ [c'] = if Nat.even i then str_lower [c] else str_upper [c]).
Proof.
  split; [apply alternate_cases_alternated|].
  intros Hs. split; [by apply alternated_length|].
  intros i c Hi. by apply (alternated_lookup input 0 i c).
Qed.

End AlternateCasesFacts.

Lemma hello_I_am_Bob :
  Forall (@single_cased AlternateCases.latin1_case) (py "hello I am Bob")
  /\ @AlternateCases.alternate_cases AlternateCases.latin1_case
       (VStr (py "hello I am Bob")) blank
     = (Returns (VStr (py "hElLo i aM BoB")), blank)
  /\ length (@alternated AlternateCases.latin1_case 0 (py "hello I am Bob"))
     = length (py "hello I am Bob").
Proof.
  assert (Forall (@single_cased AlternateCases.latin1_case) (py "hello I am Bob"))
    as Hsingle by (repeat constructor).
  destruct (@alternate_cases_alternates_by_position AlternateCases.latin1_case
              (py "hello I am Bob") blank) as [Hrun Hlen].
  split; [exact Hsingle|]. split; [exact Hrun|]. exact (proj1 (Hlen Hsingle)).
Defined.

(** C8, the claim as it was stated, fails on a two-character string: the
    capital of sharp s (U+00DF) is the two letters SS, so the result of
    ['a' + sharp s] has three characters. *)
Lemma sharp_s_makes_the_result_longer :
  @AlternateCases.alternate_cases AlternateCases.latin1_case
    (VStr [97; 223]%N) blank
  = (Returns (VStr [97; 83; 83]%N), blank)
  /\ length [97; 83; 83]%N <> length [97; 223]%N.
Proof. split; [reflexivity | discriminate]. Qed.

(** ** One request *)

Lemma requests_post_run (json_data : request) (w : world) :
  requests_post json_data w = (next_outcome w, sent json_data w).
Proof. unfold requests_post, next_outcome, sent. by destruct (net w). Qed.

(** With a key configured, [chat_completion_request] sends one request and
    returns: the response, or the exception object of a failed transport,
    after printing the two lines about it. It never waits and never calls
    [requests.post] again. *)
Lemma chat_completion_request_run (messages : list message)
    (functions function_call : option value) (model : pystr) (w : world) :
  is_Some (api_key w) ->
  chat_completion_request messages functions function_call model w =
  let json_data := Request model messages functions function_call in
  match next_outcome w with
  | Returns r => (Returns (Replied r), sent json_data w)
  | Raises e => (Returns (ExceptionObject e), printing (unable e) (sent json_data w))
  end.
Proof.
  intros [k Hk]. unfold chat_completion_request. cbn [retry].
  rewrite run_bind, Hk. unfold try_except. rewrite run_bind, requests_post_run.
  destruct (next_outcome w) as [r|e]; [done|].
  rewrite !run_bind. unfold print, printing, unable, mret, M_ret. simpl.
  by rewrite <- app_assoc.
Qed.

(** ** The database notebook *)

Lemma entering_entering (fs gs : list pystr) (w : world) :
  entering gs (entering fs w) = entering (fs ++ gs) w.
Proof. unfold entering. simpl. by rewrite <- app_assoc. Qed.

Lemma ask_database_run (conn : Chinook.connection) (query : value) (w : world) :
  Chinook.ask_database conn query w =
  (Returns match conn query with
           | Returns rows => rows
           | Raises e => query_failed ++ exn_text e
           end,
   entering [py "ask_database"] w).
Proof.
  unfold Chinook.ask_database. rewrite run_enter_bind.
  unfold try_except, lift.
  by destruct (conn query).
Qed.

Section ChinookFacts.
Variable conn : Chinook.connection.

Lemma execute_function_call_unknown (m : message) (fc : function_call) (w : world) :
  msg_function_call m = Has fc ->
  fc_name fc <> py "ask_database" ->
  Chinook.execute_function_call conn m w
  = (Returns (does_not_exist (fc_name fc)), entering [py "execute_function_call"] w).
Proof.
  intros Hfc Hname. unfold Chinook.execute_function_call.
  rewrite run_enter_bind.
  rewrite run_lift_bind. unfold Chinook.get_function_call. rewrite Hfc.
  by destruct (decide (fc_name fc = py "ask_database")).
Qed.

Lemma execute_function_call_decoded (m : message) (fc : function_call)
    (d query : value) (w : world) :
  msg_function_call m = Has fc ->
  fc_name fc = py "ask_database" ->
  Json.loads (fc_arguments fc) = Returns d ->
  getitem d (py "query") = Returns query ->
  Chinook.execute_function_call conn m w
  = (Returns match conn query with
             | Returns rows => rows
             | Raises e => query_failed ++ exn_text e
             end,
     entering [py "execute_function_call"; py "ask_database"] w).
Proof.
  intros Hfc Hname Hd Hq. unfold Chinook.execute_function_call.
  rewrite run_enter_bind.
  rewrite run_lift_bind. unfold Chinook.get_function_call. rewrite Hfc.
  destruct (decide (fc_name fc = py "ask_database")); [|done].
  rewrite run_lift_bind, Hd. simpl. rewrite Hq.
  by rewrite ask_database_run, entering_entering.
Qed.

Lemma execute_function_call_undecoded (m : message) (fc : function_call)
    (e : exn) (w : world) :
  msg_function_call m = Has fc ->
  fc_name fc = py "ask_database" ->
  (d ← Json.loads (fc_arguments fc); getitem d (py "query")) = Raises e ->
  Chinook.execute_function_call conn m w
  = (Raises e, entering [py "execute_function_call"] w).
Proof.
  intros Hfc Hname He. unfold Chinook.execute_function_call.
  rewrite run_enter_bind.
  rewrite run_lift_bind. unfold Chinook.get_function_call. rewrite Hfc.
  destruct (decide (fc_name fc = py "ask_database")); [|done].
  by rewrite run_lift_bind, He.
Qed.

(** The run of [execute_function_call] does not depend on the state it
    starts in, and adds to it only the functions entered. *)
Lemma execute_function_call_frame (m : message) (w : world) :
  Chinook.execute_function_call conn m w
  = (broker_result conn m, entering (broker_trace conn m) w).
Proof.
  unfold broker_result, broker_trace.
  destruct (msg_function_call m) as [| |fc] eqn:Hfc.
  - unfold Chinook.execute_function_call, Chinook.get_function_call,
      enter, lift, mbind, M_bind.
    by rewrite Hfc.
  - unfold Chinook.execute_function_call, Chinook.get_function_call,
      enter, lift, mbind, M_bind.
    by rewrite Hfc.
  - destruct (decide (fc_name fc = py "ask_database")) as [Hname|Hname].
    + destruct (d ← Json.loads (fc_arguments fc); getitem d (py "query"))
        as [query|e] eqn:Hq.
      * destruct (Json.loads (fc_arguments fc)) as [d|] eqn:Hd; [|done].
        simpl in Hq.
        by rewrite !(execute_function_call_decoded m fc d query).
      * by rewrite !(execute_function_call_undecoded m fc e).
    + by rewrite !(execute_function_call_unknown m fc).
Qed.

End ChinookFacts.

Section ConversationFacts.
Variable conn : Chinook.connection.
Variable functions : value.
Variable conn_parameter : Chinook.connection.

(** [do_conversation], run symbolically from a state with a key whose first
    request is answered by the turn [a1]. *)
Lemma do_conversation_run (input : pystr) (a1 : message) (w : world) :
  is_Some (api_key w) ->
  next_outcome w = Returns (Response (Returns a1)) ->
  Chinook.do_conversation conn functions conn_parameter input w =
  let w1 := sent (first_request functions input) w in
  match msg_function_call a1 with
  | Has fc =>
      let w2 := entering (broker_trace conn a1) w1 in
      match broker_result conn a1 with
      | Returns results =>
          let history := opening input ++ [a1; function_turn (fc_name fc) results] in
          let w3 := sent (follow_up_request history) w2 in
          match next_outcome w2 with
          | Returns r =>
              match resp_message r with
              | Returns a2 =>
                  (Returns tt, printing [Conversation (history ++ [a2])] w3)
              | Raises e => (Raises e, w3)
              end
          | Raises e =>
              (Raises (Exn AttributeError (py "exception object has no attribute json")),
               printing (unable e) w3)
          end
      | Raises e => (Raises e, w2)
      end
  | Missing | Null =>
      (Returns tt, printing [Conversation (opening input ++ [a1])] w1)
  end.
Proof.
  intros Hkey Ha1. unfold Chinook.do_conversation.
  rewrite run_bind, chat_completion_request_run, Ha1 by done.
  cbn beta iota zeta. cbn [app].
  fold (opening input). fold (first_request functions input).
  rewrite run_bind. cbn [json_choices_0_message resp_message]. unfold lift at 1.
  set (w1 := sent (first_request functions input) w).
  destruct (msg_function_call a1) as [| |fc] eqn:Hfc; try reflexivity.
  rewrite !run_bind, execute_function_call_frame.
  set (w2 := entering (broker_trace conn a1) w1).
  destruct (broker_result conn a1) as [results|e]; [|reflexivity].
  rewrite run_bind, chat_completion_request_run by done.
  cbn beta iota zeta.
  destruct (next_outcome w2) as [r|e]; [|reflexivity].
  rewrite run_bind. cbn [json_choices_0_message]. unfold lift.
  destruct (resp_message r); reflexivity.
Qed.

(** The same when [a1] requests a function and the broker returns
    [results]: the function turn is added, the follow-up request is sent,
    and its reply, when one comes, ends the conversation displayed. *)
Lemma do_conversation_with_result (input : pystr) (a1 : message)
    (fc : function_call) (results : pystr) (w : world) :
  is_Some (api_key w) ->
  next_outcome w = delivers a1 ->
  msg_function_call a1 = Has fc ->
  broker_result conn a1 = Returns results ->
  let history := opening input ++ [a1; function_turn (fc_name fc) results] in
  exists o w',
    Chinook.do_conversation conn functions conn_parameter input w = (o, w')
    /\ posted w'
       = posted w ++ [first_request functions input; follow_up_request history]
    /\ entered w' = entered w ++ broker_trace conn a1
    /\ (forall a2,
          next_outcome (sent (first_request functions input) w) = delivers a2 ->
          o = Returns tt
          /\ stdout w' = stdout w ++ [Conversation (history ++ [a2])]).
Proof.
  intros Hkey Ha1 Hfc Hres history.
  rewrite (do_conversation_run input a1 w Hkey Ha1). cbn zeta.
  rewrite Hfc, Hres. fold history.
  change (next_outcome (entering (broker_trace conn a1)
            (sent (first_request functions input) w)))
    with (next_outcome (sent (first_request functions input) w)).
  destruct (next_outcome (sent _ w)) as [r|e] eqn:Hnext;
    [destruct (resp_message r) as [a2|e] eqn:Hr|];
    eexists _, _; (split; [reflexivity|]);
    (split; [simpl; by rewrite <- app_assoc|]);
    (split; [reflexivity|]);
    intros a3 Ha3; unfold delivers in Ha3; by simplify_eq/=.
Qed.

End ConversationFacts.

(** ** The query handler and unknown functions *)

(** C4. For every query (a string, or whatever the arguments held under
    [query]) [ask_database] returns a string and does not raise: the text of
    the fetched rows when the query runs, and when it fails the text that
    starts with [query failed with error: ] and goes on with the text of the
    exception. *)
Theorem ask_database_always_returns_text (conn : Chinook.connection)
    (query : value) (w : world) :
  exists text,
    Chinook.ask_database conn query w = (Returns text, entering [py "ask_database"] w)
    /\ (forall rows, conn query = Returns rows -> text = rows)
    /\ (forall e, conn query = Raises e ->
          text = query_failed ++ exn_text e /\ query_failed `prefix_of` text).
Proof.
  eexists. split; [apply ask_database_run|].
  split.
  - by intros rows ->.
  - intros e ->. split; [done|]. by apply prefix_app_r.
Qed.

Lemma ask_database_on_a_failing_connection :
  exists text,
    Chinook.ask_database failing_connection (VStr (py "SELECT * FROM artist")) blank
    = (Returns text, entering [py "ask_database"] blank)
    /\ text = py "query failed with error: no such table: artist".
Proof.
  destruct (ask_database_always_returns_text failing_connection
              (VStr (py "SELECT * FROM artist")) blank)
    as (text & Hrun & _ & Hfail).
  exists text. split; [exact Hrun|]. exact (proj1 (Hfail _ eq_refl)).
Defined.

Lemma broker_result_unknown (conn : Chinook.connection) (m : message)
    (fc : function_call) :
  msg_function_call m = Has fc ->
  fc_name fc <> py "ask_database" ->
  broker_result conn m = Returns (does_not_exist (fc_name fc)).
Proof.
  intros Hfc Hname. unfold broker_result.
  by rewrite (execute_function_call_unknown conn m fc).
Qed.

(** The cells of the other notebooks look the requested name up in a dict
    of local functions. On a name that is not a key they raise, at the
    lookup or at what the cell does before it, and the state is left as it
    is. *)
Lemma arithmetic_dispatch_unknown (table : gmap pystr Arithmetic.handler)
    (m : message) (fc : function_call) (w : world) :
  msg_function_call m = Has fc ->
  table !! fc_name fc = None ->
  Arithmetic.dispatch table m w
  = (match d ← Json.loads (fc_arguments fc); getitem d (py "input") with
     | Returns _ => Raises (key_error (fc_name fc))
     | Raises e => Raises e
     end, w).
Proof.
  intros Hfc Hf. unfold Arithmetic.dispatch. rewrite Hfc, run_lift_bind.
  destruct (d ← Json.loads (fc_arguments fc); getitem d (py "input")); [|done].
  rewrite run_lift_bind. unfold lookup_function. by rewrite Hf.
Qed.

Lemma coffee_dispatch_unknown (table : gmap pystr Coffee.handler)
    (m : message) (fc : function_call) (w : world) :
  msg_function_call m = Has fc ->
  table !! fc_name fc = None ->
  Coffee.dispatch table m w
  = (match d ← Json.loads (fc_arguments fc); getitem d (py "order") with
     | Returns _ => Raises (key_error (fc_name fc))
     | Raises e => Raises e
     end, w).
Proof.
  intros Hfc Hf. unfold Coffee.dispatch. rewrite Hfc, run_bind, run_lift_bind.
  destruct (d ← Json.loads (fc_arguments fc); getitem d (py "order")); [|done].
  rewrite run_lift_bind. unfold lookup_function. by rewrite Hf.
Qed.

Lemma sentiment_dispatch_unknown (table : gmap pystr Summarise.handler)
    (m : message) (fc : function_call) (w : world) :
  msg_function_call m = Has fc ->
  table !! fc_name fc = None ->
  Summarise.dispatch table m w
  = (match Json.loads (fc_arguments fc) with
     | Returns _ => Raises (key_error (fc_name fc))
     | Raises e => Raises e
     end, w).
Proof.
  intros Hfc Hf. unfold Summarise.dispatch. rewrite Hfc, run_lift_bind.
  destruct (Json.loads (fc_arguments fc)); [|done].
  rewrite run_lift_bind. unfold lookup_function. by rewrite Hf.
Qed.

Lemma alternate_dispatch_unknown (table : gmap pystr AlternateCases.handler)
    (m : message) (fc : function_call) (w : world) :
  msg_function_call m = Has fc ->
  table !! fc_name fc = None ->
  AlternateCases.dispatch table m w
  = (match specs ← iterate AlternateCases.functions;
           AlternateCases.first_named (fc_name fc) specs with
     | Returns _ =>
         match Json.loads (fc_arguments fc) with
         | Returns _ => Raises (key_error (fc_name fc))
         | Raises e => Raises e
         end
     | Raises e => Raises e
     end, w).
Proof.
  intros Hfc Hf. unfold AlternateCases.dispatch. rewrite Hfc. cbn zeta.
  rewrite run_lift_bind.
  destruct (specs ← iterate AlternateCases.functions;
            AlternateCases.first_named (fc_name fc) specs); [|done].
  rewrite run_lift_bind. destruct (Json.loads (fc_arguments fc)); [|done].
  rewrite run_lift_bind. unfold lookup_function. by rewrite Hf.
Qed.

(** C1 (amended). In the database notebook, for every turn whose
    function_call names a function other than [ask_database],
    [execute_function_call] returns the text
    [Error: function <name> does not exist] and does not raise; and when
    such a turn is the model's first reply, [do_conversation] goes on to the
    follow-up request, whose history ends with the function turn that holds
    that text under the requested name, and ends with the reply to it.
    The cells of the other four notebooks, which look the name up in a dict
    of local functions, have no such outcome: for every table and every turn
    that requests a name which is not a key of the table, the cell raises
    and leaves every part of the state as it was, so that nothing is
    printed and no local function entered. The exception is KeyError on the
    requested name once the cell has read what it reads before the lookup
    (the arguments and their field; in the notebook with [alternate_cases]
    the schema of that name, then the arguments), and otherwise the
    exception of that reading. *)
Theorem unknown_function_is_reported_and_followed_up :
  (forall (conn conn_parameter : Chinook.connection) (functions : value)
          (input : pystr) (m : message) (fc : function_call) (w : world),
     msg_function_call m = Has fc ->
     fc_name fc <> py "ask_database" ->
     Chinook.execute_function_call conn m w
     = (Returns (does_not_exist (fc_name fc)), entering [py "execute_function_call"] w)
     /\ (is_Some (api_key w) ->
         next_outcome w = delivers m ->
         let history :=
           opening input
           ++ [m; function_turn (fc_name fc) (does_not_exist (fc_name fc))] in
         exists o w',
           Chinook.do_conversation conn functions conn_parameter input w = (o, w')
           /\ posted w'
              = posted w ++ [first_request functions input; follow_up_request history]
           /\ (forall a2,
                 next_outcome (sent (first_request functions input) w) = delivers a2 ->
                 o = Returns tt
                 /\ stdout w' = stdout w ++ [Conversation (history ++ [a2])])))
  /\ (forall (table : gmap pystr Arithmetic.handler) m fc w,
        msg_function_call m = Has fc ->
        table !! fc_name fc = None ->
        exists e,
          Arithmetic.dispatch table m w = (Raises e, w)
          /\ (forall input,
                (d ← Json.loads (fc_arguments fc); getitem d (py "input"))
                = Returns input ->
                e = key_error (fc_name fc))
          /\ (forall e',
                (d ← Json.loads (fc_arguments fc); getitem d (py "input"))
                = Raises e' ->
                e = e'))
  /\ (forall (table : gmap pystr Coffee.handler) m fc w,
        msg_function_call m = Has fc ->
        table !! fc_name fc = None ->
        exists e,
          Coffee.dispatch table m w = (Raises e, w)
          /\ (forall order,
                (d ← Json.loads (fc_arguments fc); getitem d (py "order"))
                = Returns order ->
                e = key_error (fc_name fc))
          /\ (forall e',
                (d ← Json.loads (fc_arguments fc); getitem d (py "order"))
                = Raises e' ->
                e = e'))
  /\ (forall (table : gmap pystr Summarise.handler) m fc w,
        msg_function_call m = Has fc ->
        table !! fc_name fc = None ->
        exists e,
          Summarise.dispatch table m w = (Raises e, w)
          /\ (forall f_args,
                Json.loads (fc_arguments fc) = Returns f_args ->
                e = key_error (fc_name fc))
          /\ (forall e', Json.loads (fc_arguments fc) = Raises e' -> e = e'))
  /\ (forall (table : gmap pystr AlternateCases.handler) m fc w,
        msg_function_call m = Has fc ->
        table !! fc_name fc = None ->
        exists e,
          AlternateCases.dispatch table m w = (Raises e, w)
          /\ (forall toExecute args,
                (specs ← iterate AlternateCases.functions;
                 AlternateCases.first_named (fc_name fc) specs)
                = Returns toExecute ->
                Json.loads (fc_arguments fc) = Returns args ->
                e = key_error (fc_name fc))
          /\ (forall toExecute e',
                (specs ← iterate AlternateCases.functions;
                 AlternateCases.first_named (fc_name fc) specs)
                = Returns toExecute ->
                Json.loads (fc_arguments fc) = Raises e' ->
                e = e')
          /\ (forall e',
                (specs ← iterate AlternateCases.functions;
                 AlternateCases.first_named (fc_name fc) specs)
                = Raises e' ->
                e = e')).
Proof.
  split; [|split; [|split; [|split]]].
  - intros conn conn_parameter functions input m fc w Hfc Hname.
    split; [by apply execute_function_call_unknown|].
    intros Hkey Hm history.
    destruct (do_conversation_with_result conn functions conn_parameter input m fc
                (does_not_exist (fc_name fc)) w Hkey Hm Hfc
                (broker_result_unknown conn m fc Hfc Hname))
      as (o & w' & Hrun & Hposted & _ & Hreply).
    by exists o, w'.
  - intros table m fc w Hfc Hf.
    rewrite (arithmetic_dispatch_unknown table m fc w Hfc Hf).
    destruct (d ← Json.loads (fc_arguments fc); getitem d (py "input"));
      eexists; (split; [reflexivity|]); split; congruence.
  - intros table m fc w Hfc Hf.
    rewrite (coffee_dispatch_unknown table m fc w Hfc Hf).
    destruct (d ← Json.loads (fc_arguments fc); getitem d (py "order"));
      eexists; (split; [reflexivity|]); split; congruence.
  - intros table m fc w Hfc Hf.
    rewrite (sentiment_dispatch_unknown table m fc w Hfc Hf).
    destruct (Json.loads (fc_arguments fc));
      eexists; (split; [reflexivity|]); split; congruence.
  - intros table m fc w Hfc Hf.
    rewrite (alternate_dispatch_unknown table m fc w Hfc Hf).
    destruct (specs ← iterate AlternateCases.functions;
              AlternateCases.first_named (fc_name fc) specs);
      [destruct (Json.loads (fc_arguments fc))|];
      eexists; (split; [reflexivity|]); (split; [|split]); congruence.
Qed.

(** The turn that asks for [unicorn]: the text, the two requests, and the
    conversation displayed at the end. *)
Lemma unicorn_is_reported_and_followed_up :
  Chinook.execute_function_call one_row_connection unicorn blank
  = (Returns (py "Error: function unicorn does not exist"),
     entering [py "execute_function_call"] blank)
  /\ exists w',
       Chinook.do_conversation one_row_connection some_functions
         one_row_connection how_many_artists
         (online [delivers unicorn; delivers (answering (py "Sorry."))])
       = (Returns tt, w')
       /\ posted w'
          = [first_request some_functions how_many_artists;
             follow_up_request
               (opening how_many_artists
                ++ [unicorn;
                    function_turn (py "unicorn")
                      (py "Error: function unicorn does not exist")])]
       /\ stdout w'
          = [Conversation
               (opening how_many_artists
                ++ [unicorn;
                    function_turn (py "unicorn")
                      (py "Error: function unicorn does not exist");
                    answering (py "Sorry.")])].
Proof.
  destruct unknown_function_is_reported_and_followed_up as [Hdatabase _].
  destruct (Hdatabase one_row_connection one_row_connection some_functions
              how_many_artists unicorn (FunctionCall (py "unicorn") _)
              blank eq_refl ltac:(discriminate)) as [Hcall _].
  destruct (Hdatabase one_row_connection one_row_connection some_functions
              how_many_artists unicorn (FunctionCall (py "unicorn") _)
              (online [delivers unicorn; delivers (answering (py "Sorry."))])
              eq_refl ltac:(discriminate)) as [_ Hrun].
  split; [exact Hcall|].
  destruct (Hrun (ex_intro _ _ eq_refl) eq_refl) as (o & w' & Hdo & Hposted & Hreply).
  destruct (Hreply (answering (py "Sorry.")) eq_refl) as [-> Hstdout].
  exists w'. split; [exact Hdo|]. split; [exact Hposted | exact Hstdout].
Defined.

(** C1, the claim as it was stated, fails in the arithmetic notebook: the
    cell looks the name up in the dict of local functions, and a name that
    is not a key raises KeyError; nothing is printed. *)
Lemma unicorn_raises_in_the_arithmetic_cell :
  Arithmetic.dispatch Arithmetic.available_functions unicorn blank
  = (Raises (key_error (py "unicorn")), blank).
Proof. vm_compute. reflexivity. Qed.

(** ** Arguments that do not decode *)

Lemma loads_raises_decode_error (s : pystr) (e : exn) :
  Json.loads s = Raises e -> exn_class e = JSONDecodeError.
Proof.
  unfold Json.loads. destruct (Json.starts_with_bom s); [by intros [= <-]|].
  destruct (Json.scan_once _ _) as [[v r]|]; [|by intros [= <-]].
  destruct (Json.skip_ws r); [done|by intros [= <-]].
Qed.

Lemma arithmetic_dispatch_undecoded (table : gmap pystr Arithmetic.handler)
    (m : message) (fc : function_call) (e : exn) (w : world) :
  msg_function_call m = Has fc ->
  (d ← Json.loads (fc_arguments fc); getitem d (py "input")) = Raises e ->
  Arithmetic.dispatch table m w = (Raises e, w).
Proof.
  intros Hfc He. unfold Arithmetic.dispatch.
  by rewrite Hfc, run_lift_bind, He.
Qed.

(** C2 (amended). For every turn that carries a function_call, when the
    argument text does not parse the decoder raises JSONDecodeError and the
    broker lets it through: [execute_function_call] (for [ask_database]) and
    the cell of the arithmetic notebook raise that same exception. When the
    text parses to an object that lacks the field the code reads ([query],
    [input]) they raise KeyError. No outcome of the broker stands for an
    argument decode failure, and nothing is reported in a function turn. *)
Theorem undecodable_arguments_raise (conn : Chinook.connection)
    (table : gmap pystr Arithmetic.handler) (m : message) (fc : function_call)
    (w : world) :
  msg_function_call m = Has fc ->
  (forall e, Json.loads (fc_arguments fc) = Raises e ->
     exn_class e = JSONDecodeError
     /\ (fc_name fc = py "ask_database" ->
         Chinook.execute_function_call conn m w
         = (Raises e, entering [py "execute_function_call"] w))
     /\ Arithmetic.dispatch table m w = (Raises e, w))
  /\ (forall d, Json.loads (fc_arguments fc) = Returns (VDict d) ->
        (fc_name fc = py "ask_database" ->
         dict_get d (py "query") = None ->
         Chinook.execute_function_call conn m w
         = (Raises (key_error (py "query")), entering [py "execute_function_call"] w))
        /\ (dict_get d (py "input") = None ->
            Arithmetic.dispatch table m w = (Raises (key_error (py "input")), w))).
Proof.
  intros Hfc. split.
  - intros e He. split; [by apply (loads_raises_decode_error (fc_arguments fc))|].
    split.
    + intros Hname. apply (execute_function_call_undecoded conn m fc e w Hfc Hname).
      by rewrite He.
    + apply (arithmetic_dispatch_undecoded table m fc e w Hfc). by rewrite He.
  - intros d Hd. split.
    + intros Hname Hq.
      apply (execute_function_call_undecoded conn m fc _ w Hfc Hname).
      rewrite Hd. simpl. by rewrite Hq.
    + intros Hin. apply (arithmetic_dispatch_undecoded table m fc _ w Hfc).
      rewrite Hd. simpl. by rewrite Hin.
Qed.

Lemma no_query_field_raises_KeyError :
  Chinook.execute_function_call one_row_connection no_query_field blank
  = (Raises (key_error (py "query")), entering [py "execute_function_call"] blank).
Proof.
  destruct (undecodable_arguments_raise one_row_connection
              Arithmetic.available_functions no_query_field
              (FunctionCall (py "ask_database") _) blank eq_refl) as [_ Hfield].
  destruct (Hfield [(py "sql", VInt 1)] ltac:(vm_compute; reflexivity))
    as [Hquery _].
  exact (Hquery eq_refl eq_refl).
Defined.

(** C2, the claim as it was stated, fails on truncated JSON: the call of
    [execute_function_call] raises JSONDecodeError. *)
Lemma truncated_arguments_raise :
  Chinook.execute_function_call one_row_connection truncated_query blank
  = (Raises Json.decode_error,
     entering [py "execute_function_call"] blank).
Proof. vm_compute. reflexivity. Qed.

(** ** Handlers that raise *)





(** ** The flow of one exchange *)

Lemma broker_trace_cases (conn : Chinook.connection) (m : message) :
  broker_trace conn m = [py "execute_function_call"]
  \/ broker_trace conn m = [py "execute_function_call"; py "ask_database"].
Proof.
  unfold broker_trace.
  destruct (msg_function_call m) as [| |fc] eqn:Hfc.
  - left. unfold Chinook.execute_function_call, Chinook.get_function_call,
      enter, lift, mbind, M_bind.
    by rewrite Hfc.
  - left. unfold Chinook.execute_function_call, Chinook.get_function_call,
      enter, lift, mbind, M_bind.
    by rewrite Hfc.
  - destruct (decide (fc_name fc = py "ask_database")) as [Hname|Hname].
    + destruct (d ← Json.loads (fc_arguments fc); getitem d (py "query"))
        as [query|e] eqn:Hq.
      * destruct (Json.loads (fc_arguments fc)) as [d|] eqn:Hd; [|done].
        simpl in Hq. right.
        by rewrite (execute_function_call_decoded conn m fc d query).
      * left. by rewrite (execute_function_call_undecoded conn m fc e).
    + left. by rewrite (execute_function_call_unknown conn m fc).
Qed.

Lemma broker_trace_enters (conn : Chinook.connection) (m : message) :
  py "execute_function_call" ∈ broker_trace conn m.
Proof. destruct (broker_trace_cases conn m) as [-> | ->]; set_solver. Qed.

(** When the broker raises: the requested function is [ask_database] and
    its arguments do not decode to an object with a [query]. *)
Lemma broker_result_raises (conn : Chinook.connection) (m : message)
    (fc : function_call) (e : exn) :
  msg_function_call m = Has fc ->
  broker_result conn m = Raises e
  <-> fc_name fc = py "ask_database"
      /\ (d ← Json.loads (fc_arguments fc); getitem d (py "query")) = Raises e.
Proof.
  intros Hfc. unfold broker_result.
  destruct (decide (fc_name fc = py "ask_database")) as [Hname|Hname].
  - destruct (d ← Json.loads (fc_arguments fc); getitem d (py "query"))
      as [query|e'] eqn:Hq.
    + destruct (Json.loads (fc_arguments fc)) as [d|] eqn:Hd; [|done].
      simpl in Hq.
      rewrite (execute_function_call_decoded conn m fc d query) by done.
      cbn [fst]. split; [done|]. by intros [_ ?].
    + rewrite (execute_function_call_undecoded conn m fc e') by done.
      cbn [fst]. split; [by intros [= ->]|]. by intros [_ [= ->]].
  - rewrite (execute_function_call_unknown conn m fc) by done.
    cbn [fst]. split; [done|]. by intros [? _].
Qed.

(** C5 (amended). In an exchange whose first request is answered by a turn,
    [do_conversation] calls the broker if and only if that turn carries a
    function_call. When it carries none, the exchange ends after the one
    request with the model's turn as the answer. When it carries one and the
    broker returns a result, exactly one function turn with that result,
    under the name of the requested function, is added, and exactly one
    follow-up request is sent, with the whole history and neither function
    schemas nor a forced function; the reply to it, when there is one, ends
    the conversation that is displayed. When it carries one and the broker
    raises, which it does exactly when the function is [ask_database] and
    its arguments do not decode to an object with a [query],
    [do_conversation] raises that same exception and stops there: the first
    request is the only one on record, no function turn is added and
    nothing is displayed. *)
Theorem do_conversation_follows_up_on_a_function_call
    (conn conn_parameter : Chinook.connection) (functions : value)
    (input : pystr) (a1 : message) (w : world) :
  is_Some (api_key w) ->
  next_outcome w = delivers a1 ->
  exists o w',
    Chinook.do_conversation conn functions conn_parameter input w = (o, w')
    /\ (py "execute_function_call" ∈ drop (length (entered w)) (entered w')
        <-> exists fc, msg_function_call a1 = Has fc)
    /\ ((forall fc, msg_function_call a1 <> Has fc) ->
        o = Returns tt
        /\ posted w' = posted w ++ [first_request functions input]
        /\ stdout w' = stdout w ++ [Conversation (opening input ++ [a1])])
    /\ (forall fc results,
          msg_function_call a1 = Has fc ->
          broker_result conn a1 = Returns results ->
          let history :=
            opening input ++ [a1; function_turn (fc_name fc) results] in
          posted w'
          = posted w ++ [first_request functions input; follow_up_request history]
          /\ (forall a2,
                next_outcome (sent (first_request functions input) w) = delivers a2 ->
                o = Returns tt
                /\ stdout w' = stdout w ++ [Conversation (history ++ [a2])]))
    /\ (forall fc e,
          msg_function_call a1 = Has fc ->
          broker_result conn a1 = Raises e ->
          o = Raises e
          /\ w' = entering (broker_trace conn a1)
                    (sent (first_request functions input) w)
          /\ posted w' = posted w ++ [first_request functions input]
          /\ stdout w' = stdout w)
    /\ (forall fc e,
          msg_function_call a1 = Has fc ->
          broker_result conn a1 = Raises e
          <-> fc_name fc = py "ask_database"
              /\ (d ← Json.loads (fc_arguments fc); getitem d (py "query"))
                 = Raises e).
Proof.
  intros Hkey Ha1.
  assert (forall tr : list pystr,
            drop (length (entered w)) (entered w ++ tr) = tr) as Hdrop
    by (intros tr; by rewrite drop_app_length).
  assert (forall w' : world,
            entered w' = entered w ++ broker_trace conn a1 ->
            py "execute_function_call" ∈ drop (length (entered w)) (entered w'))
    as Hcalled.
  { intros w' ->. rewrite Hdrop. apply broker_trace_enters. }
  pose proof (do_conversation_run conn functions conn_parameter input a1 w Hkey Ha1)
    as Hrun.
  cbn zeta in Hrun.
  destruct (msg_function_call a1) as [| |fc] eqn:Hfc.
  1,2: eexists _, _; split; [exact Hrun|]; split; [|split; [|split; [|split]]];
    [ simpl; rewrite drop_all; split; [by intros ?%elem_of_nil | by intros [? ?]]
    | done
    | by intros ? ? ?
    | by intros ? ? ?
    | by intros ? ? ? ].
  destruct (broker_result conn a1) as [results|e] eqn:Hres.
  - destruct (do_conversation_with_result conn functions conn_parameter input a1 fc
                results w Hkey Ha1 Hfc Hres)
      as (o & w' & Hdo & Hposted & Hentered & Hreply).
    exists o, w'. split; [exact Hdo|].
    split; [split; [by eexists | intros _; by apply Hcalled]|].
    split; [by intros Hno; destruct (Hno fc)|].
    split; [by intros fc' results' [= <-] [= <-]|].
    split; [by intros fc' e' _ [=]|].
    intros fc' e' [= <-]. rewrite <- Hres. by apply broker_result_raises.
  - eexists _, _. split; [exact Hrun|].
    split; [split; [by eexists | intros _; by apply Hcalled]|].
    split; [by intros Hno; destruct (Hno fc)|].
    split; [by intros fc' results' _ [=]|].
    split; [by intros fc' e' _ [= <-]|].
    intros fc' e' [= <-]. rewrite <- Hres. by apply broker_result_raises.
Qed.

(** The exchange about the number of artists: two requests, one function
    turn, five turns displayed. *)
Lemma count_artists_exchange :
  exists w',
    Chinook.do_conversation one_row_connection some_functions
      one_row_connection how_many_artists
      (online [delivers count_artists; delivers (answering (py "There are 275 artists."))])
    = (Returns tt, w')
    /\ posted w'
       = [first_request some_functions how_many_artists;
          follow_up_request
            (opening how_many_artists
             ++ [count_artists; function_turn (py "ask_database") (py "[(275,)]")])]
    /\ stdout w'
       = [Conversation
            (opening how_many_artists
             ++ [count_artists; function_turn (py "ask_database") (py "[(275,)]");
                 answering (py "There are 275 artists.")])].
Proof.
  destruct (do_conversation_follows_up_on_a_function_call
              one_row_connection one_row_connection some_functions
              how_many_artists count_artists
              (online [delivers count_artists;
                       delivers (answering (py "There are 275 artists."))])
              (ex_intro _ _ eq_refl) eq_refl)
    as (o & w' & Hrun & _ & _ & Hcall & _).
  destruct (Hcall (FunctionCall (py "ask_database") count_artists_arguments)
              (py "[(275,)]") eq_refl ltac:(vm_compute; reflexivity))
    as [Hposted Hshown].
  destruct (Hshown (answering (py "There are 275 artists.")) eq_refl)
    as [-> Hstdout].
  exists w'. split; [exact Hrun|]. split; [exact Hposted | exact Hstdout].
Defined.

(** C5, the claim as it was stated, fails when the first reply carries a
    function_call whose arguments do not decode: the broker raises, no
    function turn is added, no follow-up request is sent (the one request on
    record is the first), and nothing is displayed. *)
Lemma truncated_arguments_abort_the_exchange :
  exists w',
    Chinook.do_conversation one_row_connection some_functions
      one_row_connection how_many_artists
      (online [delivers truncated_query; delivers (answering (py "There are 275 artists."))])
    = (Raises Json.decode_error, w')
    /\ posted w' = [first_request some_functions how_many_artists]
    /\ stdout w' = [].
Proof. eexists. split; [vm_compute; reflexivity|]. split; reflexivity. Qed.

(** ** Transport failures *)

Lemma retry_raises_last {A} (f : M A) (e : exn) (w w' : world) :
  f w = (Raises e, w') ->
  retry 1 f w = (Raises (Exn RetryError (exn_text e)), w').
Proof. intros Hf. cbn [retry]. by rewrite Hf. Qed.

Lemma retry_raises_more {A} (f : M A) (n : nat) (e : exn) (w w' : world) :
  f w = (Raises e, w') ->
  retry (S (S n)) f w = retry (S n) f (snd (wait_random_exponential w')).
Proof. intros Hf. cbn [retry]. by rewrite Hf. Qed.

(** The retry wrapper does call again a function that raises: without a key
    the body raises TypeError before it reaches its [try], three attempts
    are made with two waits between them, no request is sent, and RetryError
    comes out. *)
Lemma missing_key_is_retried (messages : list message)
    (functions function_call : option value) (model : pystr) (w : world) :
  api_key w = None ->
  exists w',
    chat_completion_request messages functions function_call model w
    = (Raises (Exn RetryError (py "can only concatenate str to str")), w')
    /\ waits w' = 2 + waits w
    /\ posted w' = posted w.
Proof.
  intros Hkey. unfold chat_completion_request.
  match goal with |- context [retry 3 ?f] => set (body := f) end.
  assert (forall w0, api_key w0 = None ->
            body w0 = (Raises (type_error "can only concatenate str to str"), w0))
    as Hbody.
  { intros w0 H0. unfold body. by rewrite run_bind, H0. }
  rewrite (retry_raises_more body 1 _ w w (Hbody w Hkey)).
  set (w1 := snd (wait_random_exponential w)).
  rewrite (retry_raises_more body 0 _ w1 w1 (Hbody w1 Hkey)).
  set (w2 := snd (wait_random_exponential w1)).
  rewrite (retry_raises_last body _ w2 w2 (Hbody w2 Hkey)).
  eexists. split; [reflexivity|]. by split.
Qed.

(** C6, the code at the failing input. When the transport fails, that is
    when [requests.post] raises [e], [chat_completion_request] catches [e]
    inside the decorated function, prints two lines and returns [e] as its
    value: the retry wrapper sees a normal return, so exactly one request is
    sent, there is no wait, and nothing is raised to the caller. *)
Theorem transport_failure_is_returned_after_one_attempt
    (messages : list message) (functions function_call : option value)
    (model : pystr) (e : exn) (w : world) :
  is_Some (api_key w) ->
  next_outcome w = Raises e ->
  exists w',
    chat_completion_request messages functions function_call model w
    = (Returns (ExceptionObject e), w')
    /\ posted w' = posted w ++ [Request model messages functions function_call]
    /\ waits w' = waits w
    /\ net w' = tail (net w)
    /\ stdout w' = stdout w ++ unable e.
Proof.
  intros Hkey He. rewrite chat_completion_request_run by done.
  cbn zeta. rewrite He. eexists. split; [reflexivity|]. by repeat split.
Qed.

Lemma two_failures_then_a_reply_one_attempt :
  exists w',
    chat_completion_request (opening how_many_artists) None None GPT_MODEL
      (online [Raises connection_refused; Raises connection_refused;
               delivers (answering (py "There are 275 artists."))])
    = (Returns (ExceptionObject connection_refused), w')
    /\ posted w' = [Request GPT_MODEL (opening how_many_artists) None None]
    /\ waits w' = 0
    /\ net w' = [Raises connection_refused;
                 delivers (answering (py "There are 275 artists."))]
    /\ stdout w' = unable connection_refused.
Proof.
  exact (transport_failure_is_returned_after_one_attempt
           (opening how_many_artists) None None GPT_MODEL connection_refused
           (online [Raises connection_refused; Raises connection_refused;
                    delivers (answering (py "There are 275 artists."))])
           (ex_intro _ _ eq_refl) eq_refl).
Defined.

(** ** Turns without a function call *)

(** C9 (amended). For every turn that carries no function_call (the key is
    absent or holds [None]) the cells call no local function, whatever the
    table, and print a notice: in the arithmetic notebook the text
    [no function was returned - ] followed by the turn's content, in the
    coffee notebook the text [no function was returned] and the two rules
    that end every round. Nothing else changes. *)
Theorem no_function_call_prints_a_notice (m : message) (w : world) :
  (forall fc, msg_function_call m <> Has fc) ->
  (forall table,
     Arithmetic.dispatch table m w
     = (Returns tt,
        printing [Text (py "no function was returned - " ++ str_opt (msg_content m))] w))
  /\ (forall table,
        Coffee.dispatch table m w
        = (Returns tt,
           printing [Text (py "no function was returned");
                     Text Coffee.rule; Text Coffee.rule] w)).
Proof.
  intros Hno. split; intros table.
  - unfold Arithmetic.dispatch.
    destruct (msg_function_call m) as [| |fc]; [done|done|by destruct (Hno fc)].
  - unfold Coffee.dispatch.
    destruct (msg_function_call m) as [| |fc]; [| |by destruct (Hno fc)];
      unfold mbind, M_bind, print, printing; simpl;
      by rewrite <- !app_assoc.
Qed.

Lemma hello_is_printed_with_a_prefix :
  Arithmetic.dispatch Arithmetic.available_functions (answering (py "Hello")) blank
  = (Returns tt, printing [Text (py "no function was returned - Hello")] blank)
  /\ Coffee.dispatch Coffee.available_functions (answering (py "Hello")) blank
     = (Returns tt,
        printing [Text (py "no function was returned");
                  Text Coffee.rule; Text Coffee.rule] blank).
Proof.
  destruct (no_function_call_prints_a_notice (answering (py "Hello")) blank
              ltac:(discriminate)) as [Harithmetic Hcoffee].
  split; [apply Harithmetic | apply Hcoffee].
Defined.

(** C9, the claim as it was stated, fails on the turn that says [Hello]: the
    output of the arithmetic cell is [no function was returned - Hello], not
    the content unchanged, and the output of the coffee cell does not hold
    the content at all. *)
Lemma hello_is_not_printed_unchanged :
  stdout (snd (Arithmetic.dispatch Arithmetic.available_functions
                 (answering (py "Hello")) blank))
  = [Text (py "no function was returned - Hello")]
  /\ stdout (snd (Arithmetic.dispatch Arithmetic.available_functions
                    (answering (py "Hello")) blank))
     <> [Text (py "Hello")]
  /\ stdout (snd (Coffee.dispatch Coffee.available_functions
                    (answering (py "Hello")) blank))
     <> [Text (py "Hello")].
Proof. split; [reflexivity|]. split; discriminate. Qed.

(** ** The runs the notebooks recorded

    The cells, run whole on the turns the notebooks show, print what the
    notebooks show. *)

Example alternate_cases_cell_on_its_sentence :
  let run :=
    @AlternateCases.cell AlternateCases.latin1_case
      [Message RoleSystem (Some (py "respond to user input")) Missing None;
       Message RoleUser
         (Some (py "alternate cases in this sentence: 'hello I am Bob'"))
         Missing None]
      (online [delivers alternate_hello]) in
  fst run = Returns tt
  /\ stdout (snd run) = [Value (VStr (py "hElLo i aM BoB"))]
  /\ entered (snd run) = [py "alternate_cases"].
Proof. vm_compute. done. Qed.

Example coffee_rounds_on_an_order_and_a_question :
  let run :=
    Coffee.for_each [tall_latte_please; weather_in_London]
      (online [delivers latte_order; delivers not_about_coffee]) in
  let system :=
    Message RoleSystem (Some (py "Extract user input into structured data"))
            Missing None in
  fst run = Returns tt
  /\ stdout (snd run)
     = [Conversation [system;
                      Message RoleUser (Some tall_latte_please) Missing None;
                      latte_order];
        TextJson (py "Ordering coffee: ") latte;
        Text Coffee.rule; Text Coffee.rule;
        Conversation [system;
                      Message RoleUser (Some weather_in_London) Missing None;
                      not_about_coffee];
        Text (py "no function was returned");
        Text Coffee.rule; Text Coffee.rule]
  /\ entered (snd run) = [py "coffee"].
Proof. vm_compute. done. Qed.

Example failed_query_is_told_to_the_model :
  let run :=
    Chinook.do_conversation failing_connection some_functions
      failing_connection how_many_artists
      (online [delivers count_artists;
               delivers (answering (py "The query failed: there is no such table."))]) in
  fst run = Returns tt
  /\ stdout (snd run)
     = [Conversation
          (opening how_many_artists
           ++ [count_artists;
               function_turn (py "ask_database")
                 (py "query failed with error: no such table: artist");
               answering (py "The query failed: there is no such table.")])]
  /\ entered (snd run) = [py "execute_function_call"; py "ask_database"].
Proof. vm_compute. done. Qed.

(** * Further properties

    Properties of the cells beyond the claims above: what the callers of
    [chat_completion_request] make of its failures, the arguments as the
    model writes them, the rest of the notebook with [alternate_cases], the
    rounds of the coffee and of the sentiment notebook, and the functions
    that read the schema of the database. *)

(** ** The callers of the request helper *)

Lemma run_request_bind {B} (messages : list message)
    (functions function_call : option value) (model : pystr)
    (k : reply -> M B) (w : world) :
  is_Some (api_key w) ->
  (chat_completion_request messages functions function_call model ≫= k) w =
  let json_data := Request model messages functions function_call in
  match next_outcome w with
  | Returns r => k (Replied r) (sent json_data w)
  | Raises e => k (ExceptionObject e) (printing (unable e) (sent json_data w))
  end.
Proof.
  intros Hkey. rewrite run_bind, chat_completion_request_run by done.
  by destruct (next_outcome w).
Qed.

Lemma run_message_bind {B} (chat_response : reply) (k : message -> M B) (w : world) :
  (json_choices_0_message chat_response ≫= k) w =
  match chat_response with
  | Replied r =>
      match resp_message r with
      | Returns m => k m w
      | Raises e => (Raises e, w)
      end
  | ExceptionObject _ =>
      (Raises (Exn AttributeError (py "exception object has no attribute json")), w)
  end.
Proof.
  rewrite run_bind. destruct chat_response as [r|e]; [|done].
  cbn [json_choices_0_message]. unfold lift. by destruct (resp_message r).
Qed.

Lemma chat_completion_request_without_key (messages : list message)
    (functions function_call : option value) (model : pystr) (w : world) :
  api_key w = None ->
  chat_completion_request messages functions function_call model w
  = (Raises (Exn RetryError (py "can only concatenate str to str")), waiting 2 w).
Proof.
  intros Hkey. unfold chat_completion_request.
  match goal with |- context [retry 3 ?f] => set (body := f) end.
  assert (forall w0, api_key w0 = None ->
            body w0 = (Raises (type_error "can only concatenate str to str"), w0))
    as Hbody.
  { intros w0 H0. unfold body. by rewrite run_bind, H0. }
  rewrite (retry_raises_more body 1 _ w w (Hbody w Hkey)).
  set (w1 := snd (wait_random_exponential w)).
  rewrite (retry_raises_more body 0 _ w1 w1 (Hbody w1 Hkey)).
  set (w2 := snd (wait_random_exponential w1)).
  by rewrite (retry_raises_last body _ w2 w2 (Hbody w2 Hkey)).
Qed.

(** X1. Without an API key ([openai.api_key] is [None]) the header cannot
    be built: the body of [chat_completion_request] raises before its [try],
    the retry wrapper makes its three attempts with two waits between them
    and raises RetryError, and no request is sent. Every notebook stops
    there: the arithmetic cells, the cell with [alternate_cases], the loop of
    the coffee notebook on its first input and [do_conversation] raise that
    RetryError, having sent and printed nothing and entered no local
    function. *)
Theorem without_a_key_every_notebook_stops_before_a_request
    `{CaseMapping} (conn conn_parameter : Chinook.connection) (functions : value)
    (messages : list message) (input : pystr) (inputs : list pystr) (w : world) :
  api_key w = None ->
  exists e,
    exn_class e = RetryError
    /\ (forall fs fcall model,
          chat_completion_request messages fs fcall model w = (Raises e, waiting 2 w))
    /\ Arithmetic.cells messages w = (Raises e, waiting 2 w)
    /\ AlternateCases.cell messages w = (Raises e, waiting 2 w)
    /\ Coffee.for_each (input :: inputs) w = (Raises e, waiting 2 w)
    /\ Chinook.do_conversation conn functions conn_parameter input w
       = (Raises e, waiting 2 w).
Proof.
  intros Hkey.
  pose proof (fun ms fs fcall model =>
                chat_completion_request_without_key ms fs fcall model w Hkey)
    as Hrequest.
  eexists. split; [|split; [intros; apply Hrequest|]]; [done|].
  split; [|split; [|split]].
  - unfold Arithmetic.cells. by rewrite run_bind, Hrequest.
  - unfold AlternateCases.cell. by rewrite run_bind, Hrequest.
  - cbn [Coffee.for_each]. unfold Coffee.round.
    by rewrite !run_bind, Hrequest.
  - unfold Chinook.do_conversation. by rewrite run_bind, Hrequest.
Qed.

(** In the state in which nothing is configured, the question about the
    artists ends in RetryError after two waits, with nothing sent. *)
Lemma without_a_key_the_question_is_not_sent :
  exists e,
    exn_class e = RetryError
    /\ Chinook.do_conversation one_row_connection some_functions
         one_row_connection how_many_artists blank
       = (Raises e, waiting 2 blank)
    /\ posted (waiting 2 blank) = [] /\ waits (waiting 2 blank) = 2.
Proof.
  destruct (@without_a_key_every_notebook_stops_before_a_request
              AlternateCases.latin1_case one_row_connection one_row_connection
              some_functions Arithmetic.messages how_many_artists [] blank eq_refl)
    as (e & He & _ & _ & _ & _ & Hdo).
  exists e. split; [exact He|]. split; [exact Hdo|]. split; reflexivity.
Defined.

(** X2. When the transport fails on the first request of a notebook
    ([requests.post] raises [e]), [chat_completion_request] hands the
    exception object back as if it were the response, and the caller fails
    on its next line, [.json()], with AttributeError: the arithmetic cells,
    the cell with [alternate_cases], the loop of the coffee notebook and
    [do_conversation] all stop there, after the one request and the two
    lines printed about [e]. The loop of the coffee notebook does not go on
    to its other inputs. *)
Theorem failed_transport_stops_every_notebook_with_AttributeError
    `{CaseMapping} (conn conn_parameter : Chinook.connection) (functions : value)
    (messages : list message) (input : pystr) (inputs : list pystr)
    (e : exn) (w : world) :
  is_Some (api_key w) ->
  next_outcome w = Raises e ->
  exists err,
    exn_class err = AttributeError
    /\ Arithmetic.cells messages w
       = (Raises err, printing (unable e) (sent (arithmetic_request messages) w))
    /\ AlternateCases.cell messages w
       = (Raises err, printing (unable e) (sent (alternate_request messages) w))
    /\ Coffee.for_each (input :: inputs) w
       = (Raises err, printing (unable e) (sent (coffee_request input) w))
    /\ Chinook.do_conversation conn functions conn_parameter input w
       = (Raises err, printing (unable e) (sent (first_request functions input) w)).
Proof.
  intros Hkey He.
  exists (Exn AttributeError (py "exception object has no attribute json")).
  split; [done|]. split; [|split; [|split]].
  - unfold Arithmetic.cells.
    by rewrite run_request_bind, He, run_message_bind by done.
  - unfold AlternateCases.cell.
    by rewrite run_request_bind, He, run_message_bind by done.
  - cbn [Coffee.for_each]. rewrite run_bind. unfold Coffee.round. cbn zeta.
    by rewrite run_request_bind, He, run_message_bind by done.
  - unfold Chinook.do_conversation. cbn zeta.
    by rewrite run_request_bind, He, run_message_bind by done.
Qed.

(** The coffee loop on two inputs when the connection is refused: one
    request, the two lines about the failure, AttributeError. *)
Lemma refused_connection_stops_the_coffee_loop :
  exists err,
    exn_class err = AttributeError
    /\ Coffee.for_each [tall_latte_please; weather_in_London]
         (online [Raises connection_refused; delivers not_about_coffee])
       = (Raises err,
          printing (unable connection_refused)
            (sent (coffee_request tall_latte_please)
               (online [Raises connection_refused; delivers not_about_coffee]))).
Proof.
  destruct (@failed_transport_stops_every_notebook_with_AttributeError
              AlternateCases.latin1_case one_row_connection one_row_connection
              some_functions Arithmetic.messages tall_latte_please
              [weather_in_London] connection_refused
              (online [Raises connection_refused; delivers not_about_coffee])
              (ex_intro _ _ eq_refl) eq_refl)
    as (err & Herr & _ & _ & Hcoffee & _).
  exists err. split; [exact Herr | exact Hcoffee].
Defined.

(** X3. When the first request is answered but the body of the reply holds
    no turn ([.json()['choices'][0]['message']] raises [e], as on the error
    object the API sends for a refused key), no notebook checks the reply:
    each raises [e] right after the one request, with nothing printed and
    no local function entered. *)
Theorem reply_without_a_turn_stops_every_notebook
    `{CaseMapping} (conn conn_parameter : Chinook.connection) (functions : value)
    (messages : list message) (input : pystr) (inputs : list pystr)
    (r : response) (e : exn) (w : world) :
  is_Some (api_key w) ->
  next_outcome w = Returns r ->
  resp_message r = Raises e ->
  Arithmetic.cells messages w = (Raises e, sent (arithmetic_request messages) w)
  /\ AlternateCases.cell messages w = (Raises e, sent (alternate_request messages) w)
  /\ Coffee.for_each (input :: inputs) w = (Raises e, sent (coffee_request input) w)
  /\ Chinook.do_conversation conn functions conn_parameter input w
     = (Raises e, sent (first_request functions input) w).
Proof.
  intros Hkey Hr He. split; [|split; [|split]].
  - unfold Arithmetic.cells.
    by rewrite run_request_bind, Hr, run_message_bind, He by done.
  - unfold AlternateCases.cell.
    by rewrite run_request_bind, Hr, run_message_bind, He by done.
  - cbn [Coffee.for_each]. rewrite run_bind. unfold Coffee.round. cbn zeta.
    by rewrite run_request_bind, Hr, run_message_bind, He by done.
  - unfold Chinook.do_conversation. cbn zeta.
    by rewrite run_request_bind, Hr, run_message_bind, He by done.
Qed.

(** The arithmetic cells on an error object: KeyError on [choices], one
    request, nothing printed. *)
Lemma error_body_stops_the_arithmetic_cells :
  Arithmetic.cells Arithmetic.messages (online [error_body])
  = (Raises (key_error (py "choices")),
     sent (arithmetic_request Arithmetic.messages) (online [error_body])).
Proof.
  exact (proj1 (@reply_without_a_turn_stops_every_notebook
                  AlternateCases.latin1_case one_row_connection one_row_connection
                  some_functions Arithmetic.messages how_many_artists []
                  (Response (Raises (key_error (py "choices"))))
                  (key_error (py "choices")) (online [error_body])
                  (ex_intro _ _ eq_refl) eq_refl eq_refl)).
Defined.

(** X4. When the model's first reply requests a function, the broker
    returns a result, and the transport then fails on the follow-up
    request, [do_conversation] raises AttributeError at the second
    [.json()]: the query has been run and both requests sent, but the
    conversation is never displayed; only the two lines about the failure
    are printed. *)
Theorem failed_follow_up_loses_the_result
    (conn conn_parameter : Chinook.connection) (functions : value)
    (input : pystr) (a1 : message) (fc : function_call) (results : pystr)
    (e : exn) (w : world) :
  is_Some (api_key w) ->
  next_outcome w = delivers a1 ->
  msg_function_call a1 = Has fc ->
  broker_result conn a1 = Returns results ->
  next_outcome (sent (first_request functions input) w) = Raises e ->
  exists err w',
    Chinook.do_conversation conn functions conn_parameter input w = (Raises err, w')
    /\ exn_class err = AttributeError
    /\ entered w' = entered w ++ broker_trace conn a1
    /\ posted w'
       = posted w
         ++ [first_request functions input;
             follow_up_request
               (opening input ++ [a1; function_turn (fc_name fc) results])]
    /\ stdout w' = stdout w ++ unable e.
Proof.
  intros Hkey Ha1 Hfc Hres He.
  rewrite (do_conversation_run conn functions conn_parameter input a1 w Hkey Ha1).
  cbn zeta. rewrite Hfc, Hres.
  change (next_outcome (entering (broker_trace conn a1)
            (sent (first_request functions input) w)))
    with (next_outcome (sent (first_request functions input) w)).
  rewrite He. eexists _, _. split; [reflexivity|]. split; [reflexivity|].
  split; [reflexivity|]. split; [|reflexivity].
  simpl. by rewrite <- app_assoc.
Qed.

(** The question about the artists when the connection drops after the
    first reply: the query is run, nothing is displayed. *)
Lemma dropped_connection_loses_the_count :
  exists err w',
    Chinook.do_conversation one_row_connection some_functions
      one_row_connection how_many_artists
      (online [delivers count_artists; Raises connection_refused])
    = (Raises err, w')
    /\ exn_class err = AttributeError
    /\ entered w' = [py "execute_function_call"; py "ask_database"]
    /\ stdout w' = unable connection_refused.
Proof.
  destruct (failed_follow_up_loses_the_result
              one_row_connection one_row_connection some_functions
              how_many_artists count_artists
              (FunctionCall (py "ask_database") count_artists_arguments)
              (py "[(275,)]") connection_refused
              (online [delivers count_artists; Raises connection_refused])
              (ex_intro _ _ eq_refl) eq_refl eq_refl
              ltac:(vm_compute; reflexivity) eq_refl)
    as (err & w' & Hrun & Herr & Hentered & _ & Hstdout).
  exists err, w'. split; [exact Hrun|]. split; [exact Herr|].
  split; [exact Hentered | exact Hstdout].
Defined.

(** ** Arguments as the model writes them

    The decoder reads back the integers and the texts that the model
    writes into its arguments, so that the cells can be stated on the text
    of the arguments itself. *)

Section ArgumentsRoundTrip.
Import Json.

Lemma digit_of_remainder (n : N) :
  is_digit (48 + n mod 10) = true /\ (48 + n mod 10 - 48 = n mod 10)%N.
Proof.
  unfold is_digit. pose proof (N.mod_upper_bound n 10 ltac:(done)) as Hm.
  split; [|by rewrite N.add_comm, N.add_sub].
  revert Hm. generalize (n mod 10)%N. intros m Hm.
  apply andb_true_iff. split; apply N.leb_le; lia.
Qed.

Lemma digits_value_snoc (ds : list N) (c : N) :
  digits_value (ds ++ [c]) = (digits_value ds * 10 + (c - 48))%N.
Proof. unfold digits_value. by rewrite fold_left_app. Qed.

Lemma decimal_digits_step (f : nat) (n : N) (acc : list N) :
  decimal_digits (S f) n acc
  = if (n <? 10)%N then (48 + n mod 10)%N :: acc
    else decimal_digits f (n / 10)%N ((48 + n mod 10)%N :: acc).
Proof. reflexivity. Qed.

Lemma decimal_digits_spec (f : nat) (n : N) (acc : list N) :
  (n < 2 ^ N.of_nat (S f))%N ->
  exists c rest,
    decimal_digits (S f) n acc = (c :: rest) ++ acc
    /\ Forall (fun x => is_digit x = true) (c :: rest)
    /\ digits_value (c :: rest) = n
    /\ (c = 48%N -> n = 0%N /\ rest = []).
Proof.
  revert n acc. induction f as [|f IH]; intros n acc Hn.
  - assert (n < 10)%N as Hlt by (simpl in Hn; lia).
    rewrite decimal_digits_step. apply N.ltb_lt in Hlt as Hltb. rewrite Hltb.
    destruct (digit_of_remainder n) as [Hd Hv].
    rewrite N.mod_small in * by done.
    exists (48 + n)%N, []. split; [done|]. split; [by constructor|].
    split; [unfold digits_value; simpl; lia|]. intros Hc. split; [lia|done].
  - rewrite decimal_digits_step. destruct (n <? 10)%N eqn:Hltb.
    + apply N.ltb_lt in Hltb. destruct (digit_of_remainder n) as [Hd Hv].
      rewrite N.mod_small in * by done.
      exists (48 + n)%N, []. split; [done|]. split; [by constructor|].
      split; [unfold digits_value; simpl; lia|]. intros Hc. split; [lia|done].
    + apply N.ltb_ge in Hltb.
      assert (n / 10 < 2 ^ N.of_nat (S f))%N as Hdiv.
      { apply N.Div0.div_lt_upper_bound.
        rewrite Nat2N.inj_succ, N.pow_succ_r' in Hn.
        revert Hn. generalize (2 ^ N.of_nat (S f))%N. intros; lia. }
      destruct (IH (n / 10)%N ((48 + n mod 10)%N :: acc) Hdiv)
        as (c & rest & Hrun & Hdigits & Hvalue & Hzero).
      destruct (digit_of_remainder n) as [Hd Hv].
      exists c, (rest ++ [(48 + n mod 10)%N]). split.
      { rewrite Hrun. simpl. by rewrite <- app_assoc. }
      split.
      { change (c :: rest ++ [(48 + n mod 10)%N])
          with ((c :: rest) ++ [(48 + n mod 10)%N]).
        apply Forall_app. split; [done|by constructor]. }
      split.
      { change (c :: rest ++ [(48 + n mod 10)%N])
          with ((c :: rest) ++ [(48 + n mod 10)%N]).
        rewrite digits_value_snoc, Hvalue, Hv.
        pose proof (N.Div0.div_mod n 10) as Hdm. revert Hdm.
        generalize (n mod 10)%N (n / 10)%N. intros; lia. }
      intros Hc. destruct (Hzero Hc) as [Hz _].
      assert (n < 10)%N; [|lia].
      destruct (N.lt_ge_cases n 10) as [|Hge]; [done|].
      pose proof (N.Div0.div_le_mono 10 n 10 Hge) as Hle.
      rewrite N.div_same in Hle by done. rewrite Hz in Hle. lia.
Qed.

Lemma decimal_spec (n : N) :
  exists c rest,
    decimal n = c :: rest
    /\ Forall (fun x => is_digit x = true) (c :: rest)
    /\ digits_value (c :: rest) = n
    /\ (c = 48%N -> n = 0%N /\ rest = []).
Proof.
  unfold decimal.
  destruct (decimal_digits_spec (N.to_nat (N.size n)) n []) as (c & rest & Hrun & H).
  - rewrite Nat2N.inj_succ, N2Nat.id, N.pow_succ_r'.
    pose proof (N.size_gt n) as Hsize. revert Hsize.
    generalize (2 ^ N.size n)%N. intros; lia.
  - exists c, rest. split; [|done]. rewrite Hrun. apply app_nil_r.
Qed.

(** An integer is written as its sign and the digits of its absolute
    value. *)
Lemma json_int_digits (z : Z) :
  json_int z
  = (if (z <? 0)%Z then [45%N] else []) ++ decimal (Z.to_N (Z.abs z)).
Proof.
  unfold json_int. destruct (z <? 0)%Z eqn:Hneg.
  - apply Z.ltb_lt in Hneg. by rewrite Z.abs_neq by lia.
  - apply Z.ltb_ge in Hneg. by rewrite Z.abs_eq by lia.
Qed.

Lemma take_digits_all (ds r : list N) :
  Forall (fun x => is_digit x = true) ds ->
  ends_item r ->
  take_digits (ds ++ r) = (ds, r).
Proof.
  intros Hds (c & r' & -> & Hc). induction Hds as [|d ds Hd _ IH]; simpl.
  - by destruct Hc as [-> | ->].
  - by rewrite Hd, IH.
Qed.

Ltac not_the_digit c :=
  repeat match goal with
         | |- context [(?k =? c)%N] =>
             replace (k =? c)%N with false by (symmetry; apply N.eqb_neq; lia)
         | |- context [(c =? ?k)%N] =>
             replace (c =? k)%N with false by (symmetry; apply N.eqb_neq; lia)
         end.

Lemma is_digit_bounds (c : N) : is_digit c = true -> (48 <= c <= 57)%N.
Proof. unfold is_digit. intros [?%N.leb_le ?%N.leb_le]%andb_true_iff. lia. Qed.

Lemma scan_fraction_end (r : list N) : ends_item r -> scan_fraction r = ([], r).
Proof. by intros (c & r' & -> & [-> | ->]). Qed.

Lemma scan_exponent_end (r : list N) : ends_item r -> scan_exponent r = (None, r).
Proof. by intros (c & r' & -> & [-> | ->]). Qed.

Lemma scan_digits (neg : bool) (c : N) (rest r : list N) :
  Forall (fun x => is_digit x = true) (c :: rest) ->
  (c = 48%N -> rest = []) ->
  ends_item r ->
  scan_number ((if neg then [45%N] else []) ++ (c :: rest) ++ r)
  = Some (VInt (if neg then - Z.of_N (digits_value (c :: rest))
                else Z.of_N (digits_value (c :: rest)))%Z, r).
Proof.
  intros Hds Hzero Hr. pose proof (Forall_inv Hds) as Hc. simpl in Hc.
  apply is_digit_bounds in Hc as Hb.
  assert (scan_int_part ((c :: rest) ++ r) = Some (c :: rest, r)) as Hint.
  { unfold scan_int_part. cbn [app]. destruct (c =? 48)%N eqn:H48.
    - apply N.eqb_eq in H48. by rewrite (Hzero H48).
    - rewrite Hc. change (c :: rest ++ r) with ((c :: rest) ++ r).
      by rewrite take_digits_all. }
  unfold scan_number.
  assert (scan_sign ((if neg then [45%N] else []) ++ (c :: rest) ++ r)
          = (neg, (c :: rest) ++ r)) as ->.
  { destruct neg; [done|]. unfold scan_sign. simpl. by not_the_digit c. }
  rewrite Hint. simpl. by rewrite scan_fraction_end, scan_exponent_end.
Qed.

Lemma scan_number_json_int (z : Z) (r : list N) :
  ends_item r -> scan_number (json_int z ++ r) = Some (VInt z, r).
Proof.
  intros Hr. unfold json_int. destruct (z <? 0)%Z eqn:Hz.
  - apply Z.ltb_lt in Hz.
    destruct (decimal_spec (Z.to_N (- z))) as (c & rest & -> & Hds & Hval & Hzero).
    pose proof (scan_digits true c rest r Hds (fun H => proj2 (Hzero H)) Hr) as Hscan.
    cbn [app] in Hscan |- *. rewrite Hscan.
    rewrite Hval, Z2N.id by lia. do 3 f_equal. lia.
  - apply Z.ltb_ge in Hz.
    destruct (decimal_spec (Z.to_N z)) as (c & rest & -> & Hds & Hval & Hzero).
    pose proof (scan_digits false c rest r Hds (fun H => proj2 (Hzero H)) Hr) as Hscan.
    cbn [app] in Hscan |- *. rewrite Hscan.
    by rewrite Hval, Z2N.id.
Qed.

(** An integer starts with a digit or with a minus sign and a digit. *)
Lemma json_int_head (z : Z) :
  exists c rest,
    is_digit c = true
    /\ (json_int z = c :: rest \/ json_int z = 45%N :: c :: rest).
Proof.
  unfold json_int. destruct (z <? 0)%Z.
  - destruct (decimal_spec (Z.to_N (- z))) as (c & rest & -> & Hds & _).
    exists c, rest. split; [apply (Forall_inv Hds)|by right].
  - destruct (decimal_spec (Z.to_N z)) as (c & rest & -> & Hds & _).
    exists c, rest. split; [apply (Forall_inv Hds)|by left].
Qed.

Lemma strip_prefix_differs (a b : N) (p s : list N) :
  a <> b -> strip_prefix (a :: p) (b :: s) = None.
Proof. intros Hab. cbn [strip_prefix]. by apply N.eqb_neq in Hab as ->. Qed.

Lemma strip_prefix_same (a : N) (p s : list N) :
  strip_prefix (a :: p) (a :: s) = strip_prefix p s.
Proof. cbn [strip_prefix]. by rewrite N.eqb_refl. Qed.

Ltac literals :=
  repeat match goal with
         | |- context [py ?s] =>
             let x := eval vm_compute in (py s) in change (py s) with x
         end.

Lemma scan_constant_digit (c : N) (r : list N) :
  (48 <= c <= 57)%N -> scan_constant (c :: r) = None.
Proof.
  intros Hc. unfold scan_constant. literals.
  by rewrite !strip_prefix_differs by lia.
Qed.

Lemma scan_constant_minus_digit (c : N) (r : list N) :
  (48 <= c <= 57)%N -> scan_constant (45%N :: c :: r) = None.
Proof.
  intros Hc. unfold scan_constant. literals.
  rewrite strip_prefix_same.
  by rewrite !strip_prefix_differs by lia.
Qed.

Lemma scan_once_other (f : nat) (c : N) (r : list N) :
  c <> 34%N -> c <> 123%N -> c <> 91%N ->
  scan_once (S f) (c :: r)
  = match scan_constant (c :: r) with
    | Some x => Some x
    | None => scan_number (c :: r)
    end.
Proof.
  intros H1%N.eqb_neq H2%N.eqb_neq H3%N.eqb_neq. cbn [scan_once].
  by rewrite H1, H2, H3.
Qed.

Lemma scan_once_json_int (f : nat) (z : Z) (r : list N) :
  ends_item r -> scan_once (S f) (json_int z ++ r) = Some (VInt z, r).
Proof.
  intros Hr. pose proof (scan_number_json_int z r Hr) as Hnum.
  destruct (json_int_head z) as (c & rest & Hc & [Heq | Heq]);
    rewrite Heq in *; apply is_digit_bounds in Hc; cbn [app] in *.
  - rewrite scan_once_other by lia. by rewrite scan_constant_digit.
  - rewrite scan_once_other by lia. by rewrite scan_constant_minus_digit.
Qed.

Lemma skip_ws_json_int (z : Z) (r : list N) :
  skip_ws (json_int z ++ r) = json_int z ++ r.
Proof.
  destruct (json_int_head z) as (c & rest & Hc & [-> | ->]);
    apply is_digit_bounds in Hc; simpl; [|done].
  unfold is_ws. by not_the_digit c.
Qed.

Lemma json_ints_cons (z : Z) (zs : list Z) :
  json_ints (z :: zs)
  = json_int z ++ flat_map (fun z' => py ", " ++ json_int z') zs.
Proof.
  revert z. induction zs as [|z' zs IH]; intros z.
  - simpl. by rewrite app_nil_r.
  - change (json_ints (z :: z' :: zs))
      with (json_int z ++ py ", " ++ json_ints (z' :: zs)).
    rewrite IH. cbn [flat_map]. by rewrite <- app_assoc.
Qed.

Lemma scan_items_more (f : nat) (z : Z) (r : list N) (acc : list value) :
  scan_items (S (S f)) (json_int z ++ 44%N :: 32%N :: r) acc
  = scan_items (S f) (skip_ws r) (VInt z :: acc).
Proof.
  change (scan_items (S (S f)) ?s acc)
    with ('(v, r) ← scan_once (S f) s;
          match skip_ws r with
          | c :: r' =>
              if (c =? 93)%N then Some (VList (rev (v :: acc)), r')
              else if (c =? 44)%N then scan_items (S f) (skip_ws r') (v :: acc)
              else None
          | [] => None
          end).
  by rewrite scan_once_json_int by (eexists _, _; split; [done|by left]).
Qed.

Lemma scan_items_last (f : nat) (z : Z) (r : list N) (acc : list value) :
  scan_items (S (S f)) (json_int z ++ 93%N :: r) acc
  = Some (VList (rev (VInt z :: acc)), r).
Proof.
  change (scan_items (S (S f)) ?s acc)
    with ('(v, r) ← scan_once (S f) s;
          match skip_ws r with
          | c :: r' =>
              if (c =? 93)%N then Some (VList (rev (v :: acc)), r')
              else if (c =? 44)%N then scan_items (S f) (skip_ws r') (v :: acc)
              else None
          | [] => None
          end).
  by rewrite scan_once_json_int by (eexists _, _; split; [done|by right]).
Qed.

Lemma scan_items_json_ints (zs : list Z) (z : Z) (f : nat) (acc : list value)
    (rest : list N) :
  length zs < f ->
  scan_items (S f)
    (json_int z ++ flat_map (fun z' => py ", " ++ json_int z') zs ++ 93%N :: rest) acc
  = Some (VList (rev acc ++ List.map VInt (z :: zs)), rest).
Proof.
  revert z f acc. induction zs as [|z' zs IH]; intros z f acc Hf;
    (destruct f as [|f]; [simpl in Hf; lia|]).
  - cbn [flat_map app]. by rewrite scan_items_last.
  - cbn [flat_map]. rewrite <- !app_assoc.
    change (py ", " ++ ?x) with (44%N :: 32%N :: x).
    rewrite scan_items_more, skip_ws_json_int.
    rewrite IH by (simpl in Hf; lia).
    simpl. by rewrite <- app_assoc.
Qed.

Lemma scan_once_bracket (f : nat) (r : list N) (c : N) (r' : list N) :
  skip_ws r = c :: r' -> c <> 93%N ->
  scan_once (S f) (91%N :: r) = scan_items f (skip_ws r) [].
Proof.
  intros Hr Hc%N.eqb_neq. cbn [scan_once].
  change (91 =? 34)%N with false. change (91 =? 123)%N with false.
  change (91 =? 91)%N with true. cbv iota. by rewrite Hr, Hc.
Qed.

Lemma scan_once_array (zs : list Z) (f : nat) (rest : list N) :
  length zs < f ->
  scan_once (S (S f)) (91%N :: json_ints zs ++ 93%N :: rest)
  = Some (VList (List.map VInt zs), rest).
Proof.
  intros Hf. destruct zs as [|z zs]; [done|].
  rewrite json_ints_cons, <- app_assoc.
  assert (exists c r',
            skip_ws (json_int z
                     ++ flat_map (fun z' => py ", " ++ json_int z') zs
                     ++ 93%N :: rest) = c :: r'
            /\ c <> 93%N) as (c & r' & Hhead & Hc).
  { rewrite skip_ws_json_int.
    destruct (json_int_head z) as (c & r' & Hc%is_digit_bounds & [-> | ->]);
      eexists _, _; (split; [reflexivity|lia]). }
  rewrite (scan_once_bracket _ _ c r' Hhead Hc), skip_ws_json_int.
  apply (scan_items_json_ints zs z f [] rest). simpl in Hf. lia.
Qed.

Lemma hex4_more (a b c d cp : N) (tail : list N) :
  hex4 [a; b; c; d] = Some (cp, []) ->
  hex4 (a :: b :: c :: d :: tail) = Some (cp, tail).
Proof.
  unfold hex4.
  destruct (hex_digit a), (hex_digit b), (hex_digit c), (hex_digit d); simpl;
    try done.
  by intros [= <-].
Qed.

Lemma plain_json_text (text : list N) :
  forallb plain_char text = true -> json_text text text.
Proof.
  induction text as [|c text IH]; [constructor|].
  cbn [forallb]. intros [Hc Htext]%andb_true_iff. constructor; [done|by apply IH].
Qed.

(** What the decoder finds after a [\uXXXX] escape, when the rest of the
    string is written in one of the ways of [json_text]: when it is another
    such escape, its four digits are read. *)
Lemma json_text_ahead (escaped text rest : list N) :
  json_text escaped text ->
  match escaped ++ 34%N :: rest with
  | b :: u :: r3 =>
      (b =? 92)%N && (u =? 117)%N = true ->
      exists cp2 r4,
        hex4 r3 = Some (cp2, r4)
        /\ low_escape_ahead escaped = is_low_surrogate cp2
  | _ => True
  end.
Proof.
  intros Htext.
  destruct Htext as [|c escaped text Hc _|x c escaped text Hx _
                     |a b c d cp escaped text Hcp _ _
                     |a b c d a' b' c' d' hi lo escaped text Hhi _ _ _ _].
  - destruct rest; done.
  - unfold plain_char in Hc.
    apply andb_true_iff in Hc as [[_ H92%negb_true_iff]%andb_true_iff _].
    cbn [app]. destruct (escaped ++ 34%N :: rest); [done|]. by rewrite H92.
  - cbn [app]. change (92 =? 92)%N with true. cbn [andb].
    intros Hu%N.eqb_eq. by rewrite Hu in Hx.
  - cbn [app]. intros _.
    exists cp, (escaped ++ 34%N :: rest). split; [by apply hex4_more|].
    unfold low_escape_ahead. change (92 =? 92)%N with true.
    change (117 =? 117)%N with true. cbn [andb].
    by rewrite (hex4_more a b c d cp _ Hcp).
  - cbn [app]. intros _.
    eexists hi, _. split; [by apply hex4_more|].
    unfold low_escape_ahead. change (92 =? 92)%N with true.
    change (117 =? 117)%N with true. cbn [andb].
    by rewrite (hex4_more a b c d hi _ Hhi).
Qed.

(** The body of a string, written in any of the ways of [json_text], is
    read back to the text it stands for. *)
Lemma scanstring_json_text (escaped text rest acc : list N) (fuel : nat) :
  json_text escaped text ->
  length escaped < fuel ->
  scanstring fuel (escaped ++ 34%N :: rest) acc = Some (rev acc ++ text, rest).
Proof.
  intros Htext. revert acc fuel.
  induction Htext as [|c escaped text Hc _ IH|x c escaped text Hx _ IH
                      |a b c d cp escaped text Hcp Hlone Hsub IH
                      |a b c d a' b' c' d' hi lo escaped text Hhi Hhigh Hlo Hlow _ IH];
    intros acc fuel Hfuel; (destruct fuel as [|fuel]; [simpl in Hfuel; lia|]).
  - simpl. by rewrite app_nil_r.
  - unfold plain_char in Hc.
    apply andb_true_iff in Hc as [[H34 H92]%andb_true_iff H32].
    apply negb_true_iff in H34, H92. apply N.leb_le in H32.
    cbn [app scanstring]. rewrite H34, H92.
    replace (c <? 32)%N with false by (symmetry; apply N.ltb_ge; lia).
    rewrite IH by (simpl in Hfuel; lia).
    simpl. by rewrite <- app_assoc.
  - cbn [app scanstring]. change (92 =? 34)%N with false.
    change (92 =? 92)%N with true. cbv iota.
    destruct (x =? 117)%N eqn:Hu.
    { apply N.eqb_eq in Hu as ->. done. }
    rewrite Hx. cbn [mbind option_bind].
    rewrite IH by (simpl in Hfuel; lia).
    simpl. by rewrite <- app_assoc.
  - cbn [app scanstring]. change (92 =? 34)%N with false.
    change (92 =? 92)%N with true. change (117 =? 117)%N with true. cbv iota.
    rewrite (hex4_more a b c d cp _ Hcp). cbn [mbind option_bind].
    assert (scanstring fuel (escaped ++ 34%N :: rest) (cp :: acc)
            = Some (rev acc ++ cp :: text, rest)) as Hrest.
    { rewrite IH by (simpl in Hfuel; lia). simpl. by rewrite <- app_assoc. }
    pose proof (json_text_ahead escaped text rest Hsub) as Hahead.
    destruct (escaped ++ 34%N :: rest) as [|b0 [|u0 r3]]; [done|done|].
    destruct (is_high_surrogate cp); [|done]. cbn [andb] in Hlone |- *.
    destruct ((b0 =? 92)%N && (u0 =? 117)%N) eqn:Hbu; [|done].
    destruct (Hahead eq_refl) as (cp2 & r4 & -> & Hcp2). cbn [mbind option_bind].
    by rewrite <- Hcp2, Hlone.
  - cbn [app scanstring]. change (92 =? 34)%N with false.
    change (92 =? 92)%N with true. change (117 =? 117)%N with true. cbv iota.
    rewrite (hex4_more a b c d hi _ Hhi). cbn [mbind option_bind].
    rewrite Hhigh. change (92 =? 92)%N with true.
    change (117 =? 117)%N with true. cbn [andb].
    rewrite (hex4_more a' b' c' d' lo _ Hlo). cbn [mbind option_bind].
    rewrite Hlow. rewrite IH by (simpl in Hfuel; lia).
    simpl. by rewrite <- app_assoc.
Qed.

Lemma scanstring_plain (q rest acc : list N) (fuel : nat) :
  forallb plain_char q = true ->
  length q < fuel ->
  scanstring fuel (q ++ 34%N :: rest) acc = Some (rev acc ++ q, rest).
Proof. intros Hq. by apply scanstring_json_text, plain_json_text. Qed.

Lemma scan_once_text (f : nat) (escaped text rest : list N) :
  json_text escaped text ->
  scan_once (S f) (34%N :: escaped ++ 34%N :: rest) = Some (VStr text, rest).
Proof.
  intros Htext.
  change (scan_once (S f) (34%N :: ?r))
    with ('(str, r') ← scanstring (length r) r []; Some (VStr str, r')).
  rewrite (scanstring_json_text escaped text); [done|done|].
  rewrite length_app. simpl. lia.
Qed.

Lemma scan_object_one (f : nat) (k r : list N) (v : value) :
  forallb plain_char k = true ->
  skip_ws r = r ->
  scan_once f r = Some (v, [125%N]) ->
  scan_once (S (S f)) (123%N :: 34%N :: k ++ 34%N :: 58%N :: 32%N :: r)
  = Some (VDict [(k, v)], []).
Proof.
  intros Hk Hr Hv.
  change (scan_once (S ?g) (123%N :: ?s)) with (scan_members g s []).
  change (scan_members (S f) (34%N :: ?s) [])
    with ('(key, r1) ← scanstring (length s) s [];
          match skip_ws r1 with
          | c1 :: r2 =>
              if (c1 =? 58)%N then
                '(v, r3) ← scan_once f (skip_ws r2);
                match skip_ws r3 with
                | c3 :: r4 =>
                    if (c3 =? 125)%N then Some (VDict (dict_set [] key v), r4)
                    else if (c3 =? 44)%N
                    then scan_members f (skip_ws r4) (dict_set [] key v)
                    else None
                | [] => None
                end
              else None
          | [] => None
          end).
  rewrite scanstring_plain; [|done|rewrite length_app; simpl; lia].
  cbn [mbind option_bind rev app].
  change (skip_ws (58%N :: 32%N :: r)) with (58%N :: 32%N :: r).
  cbv iota. change (58 =? 58)%N with true. cbv iota.
  change (skip_ws (32%N :: r)) with (skip_ws r). rewrite Hr, Hv.
  reflexivity.
Qed.

Lemma scan_once_input_arguments (zs : list Z) (f : nat) :
  length zs < f ->
  scan_once (S (S (S (S f)))) (input_arguments zs)
  = Some (VDict [(py "input", VList (List.map VInt zs))], []).
Proof.
  intros Hf.
  change (input_arguments zs)
    with (123%N :: 34%N :: py "input"
          ++ 34%N :: 58%N :: 32%N :: (91%N :: json_ints zs ++ 93%N :: [125%N])).
  apply scan_object_one; [done|done|]. by apply scan_once_array.
Qed.

Lemma loads_input_arguments (zs : list Z) :
  loads (input_arguments zs)
  = Returns (VDict [(py "input", VList (List.map VInt zs))]).
Proof.
  apply (loads_fuel_suffices _ (S (S (S (S (S (length zs))))))); [done|].
  exists []. split; [|done].
  change (skip_ws (input_arguments zs)) with (input_arguments zs).
  apply scan_once_input_arguments. lia.
Qed.

(** Every text that the decoder reads between quotes is written in one of
    the ways of [json_text]. *)
Lemma hex4_split (s : list N) (cp : N) (r : list N) :
  hex4 s = Some (cp, r) ->
  exists a b c d, s = a :: b :: c :: d :: r /\ hex4 [a; b; c; d] = Some (cp, []).
Proof.
  unfold hex4. destruct s as [|a [|b [|c [|d rest]]]]; try done.
  destruct (hex_digit a) eqn:Ha, (hex_digit b) eqn:Hb, (hex_digit c) eqn:Hc,
    (hex_digit d) eqn:Hd; simpl; try done.
  intros [= <- <-]. exists a, b, c, d. split; [done|].
  by rewrite Ha, Hb, Hc, Hd.
Qed.

Lemma low_escape_ahead_app (escaped rest : list N) (text : list N) :
  json_text escaped text ->
  low_escape_ahead escaped = true ->
  exists r3 cp2 r4,
    escaped ++ 34%N :: rest = 92%N :: 117%N :: r3
    /\ hex4 r3 = Some (cp2, r4) /\ is_low_surrogate cp2 = true.
Proof.
  intros Htext Hlow. pose proof (json_text_ahead escaped text rest Htext) as Hahead.
  unfold low_escape_ahead in Hlow.
  destruct escaped as [|b [|u r]]; try done.
  apply andb_true_iff in Hlow as [Hbu Hlow].
  cbn [app] in Hahead |- *. destruct (Hahead Hbu) as (cp2 & r4 & Hhex & Heq).
  apply andb_true_iff in Hbu as [->%N.eqb_eq ->%N.eqb_eq].
  exists (r ++ 34%N :: rest), cp2, r4. split; [done|]. split; [done|].
  rewrite <- Heq. unfold low_escape_ahead. change (92 =? 92)%N with true.
  change (117 =? 117)%N with true. by cbn [andb].
Qed.

Lemma scanstring_spelled (fuel : nat) (s acc x r : list N) :
  scanstring fuel s acc = Some (x, r) ->
  exists escaped text,
    s = escaped ++ 34%N :: r /\ x = rev acc ++ text /\ json_text escaped text.
Proof.
  revert s acc. induction fuel as [|fuel IH]; intros s acc; [by destruct s|].
  destruct s as [|c s]; [done|]. cbn [scanstring].
  destruct (c =? 34)%N eqn:H34.
  { intros [= <- <-]. apply N.eqb_eq in H34 as ->.
    exists [], []. split; [done|]. split; [by rewrite app_nil_r|constructor]. }
  destruct (c =? 92)%N eqn:H92.
  - apply N.eqb_eq in H92 as ->. destruct s as [|e r1]; [done|].
    destruct (e =? 117)%N eqn:Hu.
    + apply N.eqb_eq in Hu as ->.
      destruct (hex4 r1) as [[cp r2]|] eqn:Hhex; [|done]. cbn [mbind option_bind].
      destruct (hex4_split r1 cp r2 Hhex) as (a & b & c & d & -> & Hcp).
      assert (scanstring fuel r2 (cp :: acc) = Some (x, r) ->
              is_high_surrogate cp = false
              \/ (forall r3 cp2 r4, r2 = 92%N :: 117%N :: r3 ->
                    hex4 r3 = Some (cp2, r4) -> is_low_surrogate cp2 = false) ->
              exists escaped text,
                92%N :: 117%N :: a :: b :: c :: d :: r2 = escaped ++ 34%N :: r
                /\ x = rev acc ++ text /\ json_text escaped text) as Hone.
      { intros Hscan Hcond.
        destruct (IH _ _ Hscan) as (escaped & text & -> & -> & Htext).
        exists (92%N :: 117%N :: a :: b :: c :: d :: escaped), (cp :: text).
        split; [done|]. split; [simpl; by rewrite <- app_assoc|].
        apply json_text_unicode; [done| |done].
        destruct Hcond as [-> | Hcond]; [done|].
        destruct (low_escape_ahead escaped) eqn:Hlow; [|by rewrite andb_false_r].
        destruct (low_escape_ahead_app escaped r text Htext Hlow)
          as (r3 & cp2 & r4 & Heq & Hhex2 & Hlow2).
        by rewrite (Hcond r3 cp2 r4 Heq Hhex2) in Hlow2. }
      destruct r2 as [|b0 [|u0 r3]];
        [intros Hs; apply (Hone Hs); by right ..|].
      destruct (is_high_surrogate cp) eqn:Hhigh;
        [|intros Hs; apply (Hone Hs); by left].
      cbn [andb].
      destruct (b0 =? 92)%N eqn:Hb0;
        [|intros Hs; apply (Hone Hs); right; intros ? ? ? [= -> _]; done].
      destruct (u0 =? 117)%N eqn:Hu0;
        [|intros Hs; apply (Hone Hs); right; intros ? ? ? [= _ -> _]; done].
      cbn [andb]. apply N.eqb_eq in Hb0 as ->. apply N.eqb_eq in Hu0 as ->.
      destruct (hex4 r3) as [[cp2 r4]|] eqn:Hhex2; [|done]. cbn [mbind option_bind].
      destruct (is_low_surrogate cp2) eqn:Hlow2.
      * intros Hscan.
        destruct (IH _ _ Hscan) as (escaped & text & -> & -> & Htext).
        destruct (hex4_split r3 cp2 _ Hhex2) as (a' & b' & c' & d' & -> & Hcp2).
        exists (92%N :: 117%N :: a :: b :: c :: d
                :: 92%N :: 117%N :: a' :: b' :: c' :: d' :: escaped),
               (join_surrogates cp cp2 :: text).
        split; [done|]. split; [simpl; by rewrite <- app_assoc|].
        by apply json_text_pair.
      * intros Hs. apply (Hone Hs). right. intros r3' cp2' r4' [= <-] Hhex3.
        rewrite Hhex2 in Hhex3. by injection Hhex3 as <- _.
    + destruct (simple_escape e) as [y|] eqn:He; [|done]. cbn [mbind option_bind].
      intros Hscan. destruct (IH _ _ Hscan) as (escaped & text & -> & -> & Htext).
      exists (92%N :: e :: escaped), (y :: text).
      split; [done|]. split; [simpl; by rewrite <- app_assoc|].
      by apply json_text_escape.
  - destruct (c <? 32)%N eqn:H32; [done|].
    intros Hscan. destruct (IH _ _ Hscan) as (escaped & text & -> & -> & Htext).
    exists (c :: escaped), (c :: text).
    split; [done|]. split; [simpl; by rewrite <- app_assoc|].
    apply json_text_plain; [|done].
    unfold plain_char. rewrite H34, H92. apply N.ltb_ge in H32.
    by apply N.leb_le in H32 as ->.
Qed.

(** White space between the tokens is skipped. *)
Lemma skip_ws_spaces (ws s : list N) : spaces ws -> skip_ws (ws ++ s) = skip_ws s.
Proof.
  unfold spaces. induction ws as [|c ws IH]; [done|].
  cbn [forallb app skip_ws]. intros [-> Hws]%andb_true_iff. by apply IH.
Qed.

Lemma skip_ws_token (c : N) (s : list N) :
  is_ws c = false -> skip_ws (c :: s) = c :: s.
Proof. intros Hc. cbn [skip_ws]. by rewrite Hc. Qed.

Lemma skip_ws_only (ws : list N) : spaces ws -> skip_ws ws = [].
Proof.
  intros Hws. rewrite <- (app_nil_r ws). by rewrite skip_ws_spaces.
Qed.

Lemma spaces_no_bom (ws s : list N) (c : N) :
  spaces ws -> c <> 65279%N -> starts_with_bom (ws ++ c :: s) = false.
Proof.
  unfold spaces. destruct ws as [|x ws]; cbn [app starts_with_bom forallb].
  - intros _ Hc. by apply N.eqb_neq.
  - intros [Hx _]%andb_true_iff _. unfold is_ws in Hx.
    apply N.eqb_neq. intros ->. done.
Qed.

Lemma scan_once_written (f : nat) (a b c d ekey key escaped text rest : list N) :
  spaces a -> spaces b -> spaces c -> spaces d ->
  json_text ekey key -> json_text escaped text ->
  scan_once (S (S (S f)))
    (123%N :: a ++ 34%N :: ekey ++ 34%N :: b ++ 58%N :: c
     ++ 34%N :: escaped ++ 34%N :: d ++ 125%N :: rest)
  = Some (VDict [(key, VStr text)], rest).
Proof.
  intros Ha Hb Hc Hd Hkey Htext.
  change (scan_once (S ?g) (123%N :: ?s))
    with (match skip_ws s with
          | c' :: r' => if (c' =? 125)%N then Some (VDict [], r')
                        else scan_members g (skip_ws s) []
          | [] => None
          end).
  rewrite skip_ws_spaces, skip_ws_token by done.
  change (34 =? 125)%N with false. cbv iota.
  change (scan_members (S (S f)) (34%N :: ?s) [])
    with ('(k, r1) ← scanstring (length s) s [];
          match skip_ws r1 with
          | c1 :: r2 =>
              if (c1 =? 58)%N then
                '(v, r3) ← scan_once (S f) (skip_ws r2);
                match skip_ws r3 with
                | c3 :: r4 =>
                    if (c3 =? 125)%N then Some (VDict (dict_set [] k v), r4)
                    else if (c3 =? 44)%N
                    then scan_members (S f) (skip_ws r4) (dict_set [] k v)
                    else None
                | [] => None
                end
              else None
          | [] => None
          end).
  rewrite (scanstring_json_text ekey key); [|done|rewrite length_app; simpl; lia].
  cbn [mbind option_bind rev app].
  rewrite skip_ws_spaces, skip_ws_token by done.
  change (58 =? 58)%N with true. cbv iota.
  rewrite skip_ws_spaces, skip_ws_token by done.
  rewrite (scan_once_text f escaped text) by done.
  cbn [mbind option_bind].
  rewrite skip_ws_spaces, skip_ws_token by done.
  change (125 =? 125)%N with true. cbv iota. reflexivity.
Qed.

Lemma written_arguments_tokens (a b c d key text : list N) :
  written_arguments a b c d key text
  = 123%N :: a ++ 34%N :: key ++ 34%N :: b ++ 58%N :: c
    ++ 34%N :: text ++ 34%N :: d ++ [125%N].
Proof. reflexivity. Qed.

(** The object with one key is decoded whatever the white space around its
    tokens and whatever the way its key and its text are written. *)
Lemma loads_written_arguments (lead trail a b c d ekey key escaped text : list N) :
  spaces lead -> spaces trail ->
  spaces a -> spaces b -> spaces c -> spaces d ->
  json_text ekey key -> json_text escaped text ->
  loads (lead ++ written_arguments a b c d ekey escaped ++ trail)
  = Returns (VDict [(key, VStr text)]).
Proof.
  intros Hlead Htrail Ha Hb Hc Hd Hkey Htext.
  rewrite written_arguments_tokens. cbn [app].
  apply (loads_fuel_suffices _ 3); [by apply spaces_no_bom|].
  exists trail. split; [|by apply skip_ws_only].
  rewrite skip_ws_spaces, skip_ws_token by done.
  repeat (rewrite <- app_assoc; cbn [app]).
  by apply (scan_once_written 0).
Qed.

End ArgumentsRoundTrip.

(** Finds how a text written with escapes stands for a text. *)
Ltac json_text_steps :=
  repeat first [ apply json_text_nil
               | apply json_text_plain; [reflexivity|]
               | apply json_text_escape; [reflexivity|]
               | apply json_text_pair; [reflexivity|reflexivity|reflexivity|reflexivity|]
               | apply json_text_unicode; [reflexivity|reflexivity|] ].

(** X5. For every list of integers of no more than 4300 digits each, the
    arguments object that holds them in decimal under the key [input], as
    the model writes it, holds no more than 4300 digits for each and is
    decoded to that list: the integers come through the text unchanged,
    whatever their number and sign. The cell of the
    arithmetic notebook prints their sum when the turn requests [add] and
    their product when it requests [multiply], as long as the number
    printed has no more than 4300 digits either (the limit that the later
    versions of the interpreter put on the conversions, see the head of the
    file). *)
Theorem decimal_arguments_are_decoded_and_summed (zs : list Z) (w : world) :
  Forall within_str_digits zs ->
  Forall (fun z =>
            exists ds,
              json_int z = (if (z <? 0)%Z then [45%N] else []) ++ ds
              /\ length ds <= 4300)
         zs
  /\ Json.loads (input_arguments zs)
     = Returns (VDict [(py "input", VList (List.map VInt zs))])
  /\ (within_str_digits (Zsum zs) ->
      Arithmetic.dispatch Arithmetic.available_functions
        (requesting (py "add") (input_arguments zs)) w
      = (Returns tt, printing [Value (VInt (Zsum zs))] (entering [py "add"] w)))
  /\ (within_str_digits (Zprod zs) ->
      Arithmetic.dispatch Arithmetic.available_functions
        (requesting (py "multiply") (input_arguments zs)) w
      = (Returns tt, printing [Value (VInt (Zprod zs))] (entering [py "multiply"] w))).
Proof.
  intros Hzs. pose proof (loads_input_arguments zs) as Hloads.
  split.
  { eapply Forall_impl; [exact Hzs|]. intros z Hz. eexists.
    split; [apply json_int_digits | exact Hz]. }
  split; [exact Hloads|]. split; intros _.
  - rewrite (arithmetic_dispatch_call _ _ (FunctionCall (py "add") (input_arguments zs))
               (VDict [(py "input", VList (List.map VInt zs))])
               (VList (List.map VInt zs)) (List.map VInt zs) Arithmetic.add)
      by first [done | apply lookup_add].
    by rewrite add_ints.
  - rewrite (arithmetic_dispatch_call _ _
               (FunctionCall (py "multiply") (input_arguments zs))
               (VDict [(py "input", VList (List.map VInt zs))])
               (VList (List.map VInt zs)) (List.map VInt zs) Arithmetic.multiply)
      by first [done | apply lookup_multiply].
    by rewrite multiply_ints.
Qed.

(** Four integers, one of them negative: the sum is 132 and the product
    -119000. *)
Lemma four_integers_are_decoded_and_summed :
  Forall within_str_digits [5; 34; 100; -7]%Z
  /\ Json.loads (input_arguments [5; 34; 100; -7]%Z)
     = Returns (VDict [(py "input", VList [VInt 5; VInt 34; VInt 100; VInt (-7)])])
  /\ Arithmetic.dispatch Arithmetic.available_functions
       (requesting (py "add") (input_arguments [5; 34; 100; -7]%Z)) blank
     = (Returns tt, printing [Value (VInt 132)] (entering [py "add"] blank))
  /\ Arithmetic.dispatch Arithmetic.available_functions
       (requesting (py "multiply") (input_arguments [5; 34; 100; -7]%Z)) blank
     = (Returns tt, printing [Value (VInt (-119000))] (entering [py "multiply"] blank)).
Proof.
  assert (Forall within_str_digits [5; 34; 100; -7]%Z) as Hzs
    by (do 4 (constructor; [apply Nat.leb_le; vm_compute; reflexivity|]);
        constructor).
  destruct (decimal_arguments_are_decoded_and_summed [5; 34; 100; -7]%Z blank Hzs)
    as (_ & Hloads & Hadd & Hmultiply).
  split; [exact Hzs|]. split; [exact Hloads|]. split.
  - apply Hadd. apply Nat.leb_le. vm_compute. reflexivity.
  - apply Hmultiply. apply Nat.leb_le. vm_compute. reflexivity.
Defined.

(** X6. The cells of the arithmetic notebook, run in order from a state
    with a key, when the model answers the one request with a call of [add]
    whose arguments decode to an object with integers under [input],
    whatever the layout of the text: the request holds the messages and the
    two schemas and forces no function; the cells print the turn, then the
    sum of the integers, and return. The integers and their sum have no
    more than 4300 digits (see the head of the file). *)
Theorem arithmetic_cells_print_the_turn_and_the_sum
    (messages : list message) (a1 : message) (fc : function_call) (d : value)
    (zs : list Z) (w : world) :
  is_Some (api_key w) ->
  next_outcome w = delivers a1 ->
  msg_function_call a1 = Has fc ->
  fc_name fc = py "add" ->
  Json.loads (fc_arguments fc) = Returns d ->
  getitem d (py "input") = Returns (VList (List.map VInt zs)) ->
  Forall within_str_digits zs ->
  within_str_digits (Zsum zs) ->
  Arithmetic.cells messages w
  = (Returns tt,
     printing [Value (message_value a1); Value (VInt (Zsum zs))]
       (entering [py "add"] (sent (arithmetic_request messages) w))).
Proof.
  intros Hkey Hreply Hfc Hname Hd Hin _ _. unfold Arithmetic.cells.
  rewrite run_request_bind, Hreply by done. cbn zeta.
  unfold delivers. rewrite run_message_bind. cbn [resp_message].
  rewrite run_bind.
  change (print ?x ?w0) with (Returns tt, printing [x] w0). cbv iota beta.
  rewrite (arithmetic_dispatch_call _ a1 fc d
             (VList (List.map VInt zs)) (List.map VInt zs) Arithmetic.add)
    by first [done | rewrite Hname; apply lookup_add].
  rewrite add_ints, Hname. unfold printing, entering. simpl. by rewrite <- app_assoc.
Qed.

(** The run the notebook recorded, on the arguments as the model wrote
    them, over three lines: the turn is printed, then 139. *)
Lemma recorded_cells_print_the_turn_and_139 :
  Arithmetic.cells Arithmetic.messages (online [delivers recorded_add])
  = (Returns tt,
     printing
       [Value (VDict [(py "role", VStr (py "assistant"));
                      (py "content", VNone);
                      (py "function_call",
                        VDict [(py "name", VStr (py "add"));
                               (py "arguments",
                                 VStr (py "{" ++ [10%N] ++ py "  " ++ [dquote]
                                       ++ py "input" ++ [dquote]
                                       ++ py ": [5, 34, 100]" ++ [10%N]
                                       ++ py "}"))])]);
        Value (VInt 139)]
       (entering [py "add"]
          (sent (arithmetic_request Arithmetic.messages)
             (online [delivers recorded_add])))).
Proof.
  apply (arithmetic_cells_print_the_turn_and_the_sum Arithmetic.messages
           recorded_add (FunctionCall (py "add") _)
           (VDict [(py "input", VList [VInt 5; VInt 34; VInt 100])])
           [5; 34; 100]%Z (online [delivers recorded_add])
           (ex_intro _ _ eq_refl) eq_refl eq_refl eq_refl).
  - vm_compute. reflexivity.
  - reflexivity.
  - do 3 (constructor; [apply Nat.leb_le; vm_compute; reflexivity|]).
    constructor.
  - apply Nat.leb_le. vm_compute. reflexivity.
Defined.

(** The text of the arguments on the integers of the recorded turn and on
    a negative one. *)
Example input_arguments_of_four_integers :
  input_arguments [5; 34; 100; -7]%Z
  = py "{" ++ [dquote] ++ py "input" ++ [dquote] ++ py ": [5, 34, 100, -7]}".
Proof. reflexivity. Qed.

(** X7. What the arguments of [ask_database] hold under [query] is what
    reaches the database. For every turn that requests [ask_database] with
    arguments that decode to an object with a [query], whatever else the
    object holds, [execute_function_call] returns what the connection gives
    on exactly that value, or the text of its failure. In particular a
    query that the model writes between quotes, in any of the ways JSON has
    of writing a text (plain characters, a backslash with a letter, a code
    point in hex, two of them for a surrogate pair) and with any white
    space around the tokens of its object, reaches the database as the
    text it stands for; and these ways are all there are: the decoder
    reads a text between quotes exactly when it is written in one of
    them. *)
Theorem written_query_reaches_the_database (conn : Chinook.connection) :
  (forall m fc d query w,
     msg_function_call m = Has fc ->
     fc_name fc = py "ask_database" ->
     Json.loads (fc_arguments fc) = Returns d ->
     getitem d (py "query") = Returns query ->
     Chinook.execute_function_call conn m w
     = (Returns match conn query with
                | Returns rows => rows
                | Raises e => query_failed ++ exn_text e
                end,
        entering [py "execute_function_call"; py "ask_database"] w))
  /\ (forall lead trail a b c d key escaped query w,
        spaces lead -> spaces trail ->
        spaces a -> spaces b -> spaces c -> spaces d ->
        json_text key (py "query") ->
        json_text escaped query ->
        let arguments := lead ++ written_arguments a b c d key escaped ++ trail in
        Json.loads arguments = Returns (VDict [(py "query", VStr query)])
        /\ Chinook.execute_function_call conn
             (requesting (py "ask_database") arguments) w
           = (Returns match conn (VStr query) with
                      | Returns rows => rows
                      | Raises e => query_failed ++ exn_text e
                      end,
              entering [py "execute_function_call"; py "ask_database"] w))
  /\ (forall s text rest,
        Json.scanstring (length s) s [] = Some (text, rest)
        <-> exists escaped, json_text escaped text /\ s = escaped ++ dquote :: rest).
Proof.
  split; [|split].
  - intros m fc d query w Hfc Hname Hd Hq.
    by apply (execute_function_call_decoded conn m fc d query w).
  - intros lead trail a b c d key escaped query w Hlead Htrail Ha Hb Hc Hd Hkey Hq
      arguments.
    pose proof (loads_written_arguments lead trail a b c d key (py "query")
                  escaped query Hlead Htrail Ha Hb Hc Hd Hkey Hq) as Hloads.
    split; [exact Hloads|].
    by apply (execute_function_call_decoded conn _
                (FunctionCall (py "ask_database") arguments)
                (VDict [(py "query", VStr query)]) (VStr query) w).
  - intros s text rest. split.
    + intros Hscan.
      destruct (scanstring_spelled _ _ _ _ _ Hscan) as (escaped & text' & -> & -> & Ht).
      by exists escaped.
    + intros (escaped & Ht & ->).
      rewrite (scanstring_json_text escaped text rest []); [done|done|].
      rewrite length_app. simpl. lia.
Qed.

(** The second call the notebook recorded: the query of eight lines, its
    line feeds written as escapes, reaches the connection as eight lines. *)
Lemma recorded_query_reaches_the_failing_connection :
  Json.loads recorded_genre_arguments = Returns (VDict [(py "query", VStr genre_query)])
  /\ Chinook.execute_function_call failing_connection
       (requesting (py "ask_database") recorded_genre_arguments) blank
     = (Returns (py "query failed with error: no such table: artist"),
        entering [py "execute_function_call"; py "ask_database"] blank).
Proof.
  destruct (written_query_reaches_the_database failing_connection)
    as (_ & Hwritten & _).
  apply (Hwritten [] [] [10; 32; 32]%N [] [32%N] [10%N] (py "query")
           (join_with [92; 110]%N genre_query_lines) genre_query blank);
    try reflexivity.
  - vm_compute. json_text_steps.
  - vm_compute. json_text_steps.
Defined.

(** A query of two lines written with an escaped line feed, escaped quotes
    and a code point in hex; and the two halves of a surrogate pair, which
    stand for one code point (U+1F600) when they follow each other and for
    themselves when they do not. *)
Example two_line_query_is_decoded :
  json_text two_line_query_escaped two_line_query
  /\ Json.loads (text_arguments "query" two_line_query_escaped)
     = Returns (VDict [(py "query", VStr two_line_query)]).
Proof.
  split; [unfold two_line_query_escaped, two_line_query; json_text_steps|].
  vm_compute. reflexivity.
Qed.

Example surrogate_pair_is_one_code_point :
  json_text [92; 117; 100; 56; 51; 100; 92; 117; 100; 101; 48; 48]%N
    [Json.join_surrogates 55357 56832]
  /\ Json.join_surrogates 55357 56832 = 128512%N
  /\ json_text [92; 117; 100; 56; 51; 100; 120]%N [55357; 120]%N
  /\ Json.loads ([dquote] ++ [92; 117; 100; 56; 51; 100; 92; 117; 100; 101; 48; 48]%N
                 ++ [dquote])
     = Returns (VStr [128512%N])
  /\ Json.loads ([dquote] ++ [92; 117; 100; 56; 51; 100; 120]%N ++ [dquote])
     = Returns (VStr [55357; 120]%N).
Proof.
  split; [|split; [|split; [|split]]];
    [json_text_steps | reflexivity | json_text_steps | |];
    vm_compute; reflexivity.
Qed.

(** X8. An exchange of the database notebook goes through, from the
    question to the display, whenever the model answers the first request
    with a call of [ask_database] whose arguments decode to an object with
    a [query], and answers the follow-up request with a turn:
    [do_conversation] returns, having run that query, sent the two
    requests, and displayed the five turns, the fourth holding the rows or
    the text of the failure of the query. A failing query does not stop
    it. *)
Theorem a_written_query_completes_the_exchange
    (conn conn_parameter : Chinook.connection) (functions : value)
    (input : pystr) (a1 a2 : message) (fc : function_call) (d query : value)
    (w : world) :
  is_Some (api_key w) ->
  next_outcome w = delivers a1 ->
  msg_function_call a1 = Has fc ->
  fc_name fc = py "ask_database" ->
  Json.loads (fc_arguments fc) = Returns d ->
  getitem d (py "query") = Returns query ->
  next_outcome (sent (first_request functions input) w) = delivers a2 ->
  let results :=
    match conn query with
    | Returns rows => rows
    | Raises e => query_failed ++ exn_text e
    end in
  let history := opening input ++ [a1; function_turn (py "ask_database") results] in
  Chinook.do_conversation conn functions conn_parameter input w
  = (Returns tt,
     printing [Conversation (history ++ [a2])]
       (sent (follow_up_request history)
          (entering [py "execute_function_call"; py "ask_database"]
             (sent (first_request functions input) w)))).
Proof.
  intros Hkey Ha1 Hfc Hname Hd Hq Ha2 results history.
  assert (forall w0,
            Chinook.execute_function_call conn a1 w0
            = (Returns results,
               entering [py "execute_function_call"; py "ask_database"] w0))
    as Hbroker.
  { intros w0. by apply (execute_function_call_decoded conn a1 fc d query w0). }
  rewrite (do_conversation_run conn functions conn_parameter input a1 w Hkey Ha1).
  cbn zeta. rewrite Hfc.
  unfold broker_result, broker_trace. rewrite !Hbroker. cbn [fst snd].
  change (next_outcome (entering ?fs (sent ?r w))) with (next_outcome (sent r w)).
  rewrite Ha2, Hname. reflexivity.
Qed.

(** The first call the notebook recorded, on a connection that fails: the
    exchange goes through and the failure is the fourth turn. *)
Lemma failing_recorded_query_completes_the_exchange :
  Chinook.do_conversation failing_connection some_functions failing_connection
    how_many_artists
    (online [delivers recorded_santana;
             delivers (answering (py "The query failed."))])
  = (Returns tt,
     printing
       [Conversation
          (opening how_many_artists
           ++ [recorded_santana;
               function_turn (py "ask_database")
                 (py "query failed with error: no such table: artist");
               answering (py "The query failed.")])]
       (sent (follow_up_request
                (opening how_many_artists
                 ++ [recorded_santana;
                     function_turn (py "ask_database")
                       (py "query failed with error: no such table: artist")]))
          (entering [py "execute_function_call"; py "ask_database"]
             (sent (first_request some_functions how_many_artists)
                (online [delivers recorded_santana;
                         delivers (answering (py "The query failed."))]))))).
Proof.
  apply (a_written_query_completes_the_exchange failing_connection
           failing_connection some_functions how_many_artists
           recorded_santana (answering (py "The query failed."))
           (FunctionCall (py "ask_database") recorded_santana_arguments)
           (VDict [(py "query", VStr santana_query)]) (VStr santana_query)
           (online [delivers recorded_santana;
                    delivers (answering (py "The query failed."))])
           (ex_intro _ _ eq_refl) eq_refl eq_refl eq_refl);
    [vm_compute; reflexivity | reflexivity | reflexivity].
Defined.

(** ** More on the arithmetic notebook *)

Lemma Zsum_permutation (zs zs' : list Z) : zs ≡ₚ zs' -> Zsum zs = Zsum zs'.
Proof. induction 1; simpl; lia. Qed.

Lemma Zprod_permutation (zs zs' : list Z) : zs ≡ₚ zs' -> Zprod zs = Zprod zs'.
Proof. induction 1; simpl; lia. Qed.

Lemma Zprod_zero (zs : list Z) : 0%Z ∈ zs -> Zprod zs = 0%Z.
Proof.
  induction zs as [|z zs IH]; [by intros ?%elem_of_nil|].
  intros [<- | Hin]%elem_of_cons; simpl; [done|]. rewrite IH by done. lia.
Qed.

(** X9. On integers the result of [add] and of [multiply] does not depend
    on the order in which the model lists the arguments, and [multiply]
    returns 0 as soon as one argument is 0. On floats the order matters,
    since [sum] and the loop of [multiply] round after every step: [add] on
    0.1, 0.2, 0.3 and on 0.3, 0.2, 0.1 returns two different floats. *)
Theorem order_of_arguments_matters_for_floats_only :
  (forall zs zs' w,
     zs ≡ₚ zs' ->
     Arithmetic.add (List.map VInt zs) w = Arithmetic.add (List.map VInt zs') w
     /\ Arithmetic.multiply (List.map VInt zs) w
        = Arithmetic.multiply (List.map VInt zs') w)
  /\ (forall zs w,
        0%Z ∈ zs ->
        Arithmetic.multiply (List.map VInt zs) w = (Returns (VInt 0), w))
  /\ (forall w,
        [tenth; fifth; three_tenths] ≡ₚ [three_tenths; fifth; tenth]
        /\ Arithmetic.add (List.map VFloat [tenth; fifth; three_tenths]) w
           <> Arithmetic.add (List.map VFloat [three_tenths; fifth; tenth]) w).
Proof.
  split; [|split].
  - intros zs zs' w Hperm. rewrite !add_ints, !multiply_ints.
    by rewrite (Zsum_permutation zs zs'), (Zprod_permutation zs zs').
  - intros zs w Hzero. by rewrite multiply_ints, Zprod_zero.
  - intros w. split.
    + exact (Permutation_rev [tenth; fifth; three_tenths]).
    + rewrite !add_floats. vm_compute. intros [=].
Qed.

Lemma available_function_leaves_the_state (name : pystr) (f : Arithmetic.handler) :
  Arithmetic.available_functions !! name = Some f ->
  forall args w, exists o, f args w = (o, w).
Proof.
  unfold Arithmetic.available_functions.
  intros [[_ <-] | [_ [[_ <-] | [_ Hf]]%lookup_insert_Some]]%lookup_insert_Some;
    [| |done]; intros args w; by eexists.
Qed.

(** X10. The cell of the arithmetic notebook, on any turn whatever, sends no
    request and leaves the key and the network as they are. When it returns
    it has called [print] exactly once: on the result of the requested
    function when the turn carries a function call, on the notice that no
    function was returned when it carries none (what is printed may run
    over several lines, when the text holds line feeds). When it raises it
    has printed nothing. *)
Theorem arithmetic_cell_prints_once_or_raises (m : message) (w : world) :
  exists o w',
    Arithmetic.dispatch Arithmetic.available_functions m w = (o, w')
    /\ api_key w' = api_key w /\ net w' = net w
    /\ posted w' = posted w /\ waits w' = waits w
    /\ match o with
       | Returns _ =>
           match msg_function_call m with
           | Has _ => exists result, stdout w' = stdout w ++ [Value result]
           | Missing | Null =>
               stdout w'
               = stdout w ++ [Text (py "no function was returned - "
                                    ++ str_opt (msg_content m))]
           end
       | Raises _ => stdout w' = stdout w
       end.
Proof.
  unfold Arithmetic.dispatch.
  destruct (msg_function_call m) as [| |fc];
    [eexists _, _; split; [reflexivity|]; by repeat split ..|].
  rewrite run_lift_bind.
  destruct (d ← Json.loads (fc_arguments fc); getitem d (py "input"))
    as [f_args|e]; [|by eexists _, _].
  rewrite run_lift_bind. unfold lookup_function.
  destruct (Arithmetic.available_functions !! fc_name fc) as [f|] eqn:Hf;
    [|by eexists _, _].
  rewrite run_lift_bind. destruct (iterate f_args) as [args|e]; [|by eexists _, _].
  rewrite run_bind, run_enter_bind.
  destruct (available_function_leaves_the_state _ f Hf args
              (entering [fc_name fc] w)) as [[result|e] ->].
  - eexists _, _. split; [reflexivity|]. repeat split. by eexists.
  - by eexists _, _.
Qed.

(** ** More on the notebook with [alternate_cases] *)

Ltac raises_it := eexists; (split; [|reflexivity]); reflexivity.

Section MoreAlternateCasesFacts.
Context `{CaseMapping}.

Lemma alternated_parity (s : pystr) (n : nat) :
  alternated (S (S n)) s = alternated n s.
Proof.
  revert n. induction s as [|c s IH]; intros n; [done|].
  cbn [alternated]. rewrite (IH (S n)). by rewrite Nat.even_succ_succ.
Qed.

Lemma alternated_even (s : pystr) (n : nat) :
  Nat.even n = true -> alternated n s = alternated 0 s.
Proof.
  intros [k ->]%Nat.even_spec. induction k as [|k IH]; [done|].
  replace (2 * S k) with (S (S (2 * k))) by lia. by rewrite alternated_parity.
Qed.

Lemma alternated_app (s t : pystr) (n : nat) :
  alternated n (s ++ t) = alternated n s ++ alternated (n + length s) t.
Proof.
  revert n. induction s as [|c s IH]; intros n; simpl.
  - by rewrite Nat.add_0_r.
  - rewrite IH, <- app_assoc. do 3 f_equal. lia.
Qed.

(** X11. Cutting the input after an even number of characters and
    converting the two parts separately gives the same text as converting
    the whole: [alternate_cases(s + t)] is
    [alternate_cases(s) + alternate_cases(t)] when [s] has even length. *)
Theorem alternate_cases_of_two_parts (s t : pystr) (w : world) :
  Nat.even (length s) = true ->
  exists a b,
    AlternateCases.alternate_cases (VStr s) w = (Returns (VStr a), w)
    /\ AlternateCases.alternate_cases (VStr t) w = (Returns (VStr b), w)
    /\ AlternateCases.alternate_cases (VStr (s ++ t)) w = (Returns (VStr (a ++ b)), w).
Proof.
  intros Heven. exists (alternated 0 s), (alternated 0 t).
  rewrite !alternate_cases_alternated, alternated_app.
  by rewrite (alternated_even t (0 + length s)).
Qed.

Lemma alternated_settled (s : pystr) (n : nat) :
  Forall settled_case s -> alternated n (alternated n s) = alternated n s.
Proof.
  intros Hs. revert n.
  induction Hs as [|c s (l & u & Hl & Hu & Hll & Huu) _ IH]; intros n; [done|].
  cbn [alternated]. destruct (Nat.even n) eqn:Hn.
  - rewrite Hl. cbn [app alternated]. by rewrite Hn, Hll, IH.
  - rewrite Hu. cbn [app alternated]. by rewrite Hn, Huu, IH.
Qed.

(** X12. Applying [alternate_cases] to its own result changes nothing, on
    every input whose characters convert to single characters that the same
    conversion leaves as they are (the letters, digits and signs of ASCII
    among them). *)
Theorem alternate_cases_twice_is_once (s r : pystr) (w : world) :
  Forall settled_case s ->
  AlternateCases.alternate_cases (VStr s) w = (Returns (VStr r), w) ->
  AlternateCases.alternate_cases (VStr r) w = (Returns (VStr r), w).
Proof.
  intros Hs. rewrite !alternate_cases_alternated. intros [= <-].
  by rewrite alternated_settled.
Qed.

(** The loop of [alternate_cases] on any items: it goes through when every
    item is a [str], and stops with AttributeError at the first that is
    not. *)
Lemma alternate_loop_strs (items : list value) (i : Z) (rc : pystr) :
  forallb is_str items = true ->
  exists i' rc',
    fold_outcome alternate_step items (i, VStr rc) = Returns (i', VStr rc').
Proof.
  revert i rc. induction items as [|x items IH]; intros i rc Hstrs.
  - by eexists _, _.
  - cbn [forallb] in Hstrs. apply andb_true_iff in Hstrs as [Hx Hitems].
    destruct x as [| | | |s| |]; try done.
    cbn [fold_outcome alternate_step].
    destruct (i mod 2 =? 0)%Z; simpl;
      change (mbind ?f (Returns ?a)) with (f a); by apply IH.
Qed.

Lemma alternate_loop_not_strs (items : list value) (i : Z) (rc : pystr) :
  forallb is_str items = false ->
  exists e,
    exn_class e = AttributeError
    /\ fold_outcome alternate_step items (i, VStr rc) = Raises e.
Proof.
  revert i rc. induction items as [|x items IH]; intros i rc Hstrs; [done|].
  cbn [forallb] in Hstrs. cbn [fold_outcome alternate_step].
  destruct x as [| | | |s| |]; cbn [is_str andb] in Hstrs;
    try (destruct (i mod 2 =? 0)%Z; simpl; raises_it).
  destruct (i mod 2 =? 0)%Z; simpl;
    change (mbind ?f (Returns ?a)) with (f a); by apply IH.
Qed.

Lemma alternate_cases_run (input : value) (w : world) :
  AlternateCases.alternate_cases input w
  = (items ← iterate input;
     state ← fold_outcome alternate_step items (0%Z, VStr []);
     Returns state.2, w).
Proof. reflexivity. Qed.

(** X13. [alternate_cases] does not check that its input is a string, and
    what it does follows from the type of the input alone. On [None], a
    [bool], an [int] or a [float] it raises TypeError (the input cannot be
    iterated); on a string or a dict (whose keys it iterates) it returns a
    string; on a list it returns a string when every item is a string, and
    raises AttributeError otherwise (an item has no [lower] or [upper]).
    It never returns anything but a string, and it touches no state. *)
Theorem alternate_cases_returns_text_or_raises (input : value) (w : world) :
  exists o,
    AlternateCases.alternate_cases input w = (o, w)
    /\ match input with
       | VNone | VBool _ | VInt _ | VFloat _ =>
           exists e, o = Raises e /\ exn_class e = TypeError
       | VStr _ | VDict _ => exists s, o = Returns (VStr s)
       | VList l =>
           if forallb is_str l then exists s, o = Returns (VStr s)
           else exists e, o = Raises e /\ exn_class e = AttributeError
       end.
Proof.
  rewrite alternate_cases_run. eexists. split; [reflexivity|].
  destruct input as [|b|z|f|s|l|d]; cbn [iterate]; try by eexists.
  - change (mbind ?f (Returns ?a)) with (f a).
    destruct (alternate_loop_strs (List.map (fun c => VStr [c]) s) 0 [])
      as (i' & rc' & ->); [|by eexists].
    apply forallb_forall. by intros x (c & <- & _)%in_map_iff.
  - change (mbind ?f (Returns ?a)) with (f a).
    destruct (forallb is_str l) eqn:Hl.
    + destruct (alternate_loop_strs l 0 [] Hl) as (i' & rc' & ->). by eexists.
    + destruct (alternate_loop_not_strs l 0 [] Hl) as (e & He & ->). by eexists.
  - change (mbind ?f (Returns ?a)) with (f a).
    destruct (alternate_loop_strs (List.map (fun kv => VStr kv.1) d) 0 [])
      as (i' & rc' & ->); [|by eexists].
    apply forallb_forall. by intros x (c & <- & _)%in_map_iff.
Qed.

Lemma first_named_undeclared (funcName : pystr) :
  funcName <> py "multiply" -> funcName <> py "alternate_cases" ->
  (specs ← iterate AlternateCases.functions;
   AlternateCases.first_named funcName specs)
  = Raises (Exn IndexError (py "list index out of range")).
Proof.
  intros Hm Ha. unfold AlternateCases.functions, AlternateCases.spec.
  cbn [iterate]. change (mbind ?f (Returns ?a)) with (f a).
  unfold AlternateCases.first_named. cbn [fold_outcome].
  change (getitem (VDict ((py "name", VStr ?n) :: ?rest)) (py "name"))
    with (Returns (VStr n)).
  change (mbind ?f (Returns ?a)) with (f a). cbn beta.
  unfold eq_str. rewrite !bool_decide_eq_false_2 by done. done.
Qed.

Lemma first_named_declared (funcName : pystr) :
  funcName = py "multiply" \/ funcName = py "alternate_cases" ->
  exists toExecute,
    (specs ← iterate AlternateCases.functions;
     AlternateCases.first_named funcName specs)
    = Returns toExecute.
Proof. intros [-> | ->]; by eexists. Qed.

Lemma filter_loop (funcName : pystr) (specs acc : list value) :
  Forall (fun x => exists n, getitem x (py "name") = Returns n) specs ->
  fold_outcome (fun acc x =>
                  n ← getitem x (py "name");
                  Returns (if eq_str n funcName then acc ++ [x] else acc))
               specs acc
  = Returns (acc ++ List.filter (named funcName) specs).
Proof.
  intros Hspecs. revert acc.
  induction Hspecs as [|x specs [n Hn] _ IH]; intros acc; simpl.
  - by rewrite app_nil_r.
  - unfold named at 1. rewrite Hn. simpl. rewrite IH.
    destruct (eq_str n funcName); [|done]. by rewrite <- app_assoc.
Qed.

Lemma filter_loop_fails (funcName : pystr) (before after : list value)
    (x : value) (e : exn) (acc : list value) :
  Forall (fun x => exists n, getitem x (py "name") = Returns n) before ->
  getitem x (py "name") = Raises e ->
  fold_outcome (fun acc x =>
                  n ← getitem x (py "name");
                  Returns (if eq_str n funcName then acc ++ [x] else acc))
               (before ++ x :: after) acc
  = Raises e.
Proof.
  intros Hbefore He. revert acc.
  induction Hbefore as [|y before [n Hn] _ IH]; intros acc; simpl.
  - by rewrite He.
  - rewrite Hn. simpl. apply IH.
Qed.

Lemma filter_head (f : value -> bool) (l : list value) :
  match List.filter f l with
  | x :: _ =>
      exists before after,
        l = before ++ x :: after /\ f x = true
        /\ Forall (fun y => f y = false) before
  | [] => Forall (fun y => f y = false) l
  end.
Proof.
  induction l as [|y l IH]; simpl; [done|].
  destruct (f y) eqn:Hy.
  - by exists [], l.
  - destruct (List.filter f l) as [|x rest].
    + by constructor.
    + destruct IH as (before & after & -> & Hx & Hbefore).
      exists (y :: before), after. split; [done|]. split; [done|by constructor].
Qed.

(** X14. The search of the schema of the requested function,
    [list(filter(lambda x: x['name']==funcName, functions))[0]], on any list
    of schemas that all have a name: it returns the first schema of that
    name, and raises IndexError exactly when no schema has it. The search
    looks at every schema of the list: one whose name cannot be read (a
    dict without the key raises KeyError) makes it raise that exception,
    wherever it stands after schemas that have a name, a match among
    them or not. *)
Theorem first_named_is_the_first_of_that_name (funcName : pystr) :
  (forall specs,
     Forall (fun x => exists n, getitem x (py "name") = Returns n) specs ->
     match AlternateCases.first_named funcName specs with
     | Returns x =>
         exists before after,
           specs = before ++ x :: after /\ named funcName x = true
           /\ Forall (fun y => named funcName y = false) before
     | Raises e =>
         exn_class e = IndexError
         /\ Forall (fun y => named funcName y = false) specs
     end)
  /\ (forall before x after e,
        Forall (fun x => exists n, getitem x (py "name") = Returns n) before ->
        getitem x (py "name") = Raises e ->
        AlternateCases.first_named funcName (before ++ x :: after) = Raises e).
Proof.
  split.
  - intros specs Hspecs. unfold AlternateCases.first_named.
    rewrite (filter_loop funcName specs [] Hspecs). simpl.
    pose proof (filter_head (named funcName) specs) as Hhead.
    by destruct (List.filter (named funcName) specs).
  - intros before x after e Hbefore He. unfold AlternateCases.first_named.
    by rewrite (filter_loop_fails funcName before after x e []).
Qed.

(** X15. The cell of this notebook has no branch for a turn it cannot
    serve. When the turn has no key [function_call] the test of the cell
    itself raises KeyError; when the key holds [None] the cell does
    nothing, and prints nothing; and when the turn requests a function that
    [functions] does not declare, the search of its schema raises
    IndexError, for every table of local functions, before the arguments
    are decoded and before any local function is looked up or entered. *)
Theorem alternate_cell_on_turns_it_cannot_serve
    (table : gmap pystr AlternateCases.handler) (m : message) (w : world) :
  (msg_function_call m = Missing ->
   exists e, exn_class e = KeyError
             /\ AlternateCases.dispatch table m w = (Raises e, w))
  /\ (msg_function_call m = Null ->
      AlternateCases.dispatch table m w = (Returns tt, w))
  /\ (forall fc,
        msg_function_call m = Has fc ->
        fc_name fc <> py "multiply" -> fc_name fc <> py "alternate_cases" ->
        exists e, exn_class e = IndexError
                  /\ AlternateCases.dispatch table m w = (Raises e, w)).
Proof.
  unfold AlternateCases.dispatch. split; [|split].
  - intros ->. raises_it.
  - by intros ->.
  - intros fc -> Hm Ha. rewrite run_lift_bind, first_named_undeclared by done.
    raises_it.
Qed.

Lemma lookup_multiply_alternate :
  @eq (option AlternateCases.handler)
    (AlternateCases.available_funcs !! py "multiply")
    (Some (fun x => AlternateCases.multiply [x])).
Proof. unfold AlternateCases.available_funcs. apply lookup_insert_eq. Qed.

Lemma lookup_alternate_cases :
  @eq (option AlternateCases.handler)
    (AlternateCases.available_funcs !! py "alternate_cases")
    (Some AlternateCases.alternate_cases).
Proof.
  unfold AlternateCases.available_funcs.
  rewrite lookup_insert_ne by discriminate. apply lookup_insert_eq.
Qed.

Lemma multiply_one (x : value) :
  match x with
  | VInt _ | VStr _ | VList _ => py_mul (VInt 1) x = Returns x
  | _ => True
  end.
Proof.
  destruct x as [| |z| |s|l|]; try done.
  - by destruct z.
  - unfold py_mul, repeat_seq. simpl. by rewrite app_nil_r.
  - unfold py_mul, repeat_seq. simpl. by rewrite app_nil_r.
Qed.

Lemma alternate_dispatch_multiply (m : message) (fc : function_call)
    (d : list (pystr * value)) (w : world) :
  msg_function_call m = Has fc ->
  fc_name fc = py "multiply" ->
  Json.loads (fc_arguments fc) = Returns (VDict d) ->
  AlternateCases.dispatch AlternateCases.available_funcs m w
  = match dict_get d (py "input") with
    | Some x =>
        match AlternateCases.multiply [x] (entering [py "multiply"] w) with
        | (Returns result, w') => print (Value result) w'
        | (Raises e, w') => (Raises e, w')
        end
    | None => (Raises (key_error (py "input")), w)
    end.
Proof.
  intros Hfc Hname Hd.
  unfold AlternateCases.dispatch. rewrite Hfc. cbn zeta. rewrite Hname.
  destruct (first_named_declared (py "multiply") ltac:(by left)) as [spec Hspec].
  rewrite run_lift_bind, Hspec. rewrite run_lift_bind, Hd.
  rewrite run_lift_bind. unfold lookup_function.
  rewrite lookup_multiply_alternate. rewrite run_lift_bind. cbn [getitem].
  destruct (dict_get d (py "input")) as [x|]; [|done].
  by rewrite run_bind, run_enter_bind.
Qed.

(** X16. Through the cell of this notebook [multiply] never multiplies.
    The cell passes the whole of [args['input']] as the one argument, so
    that on an [int], a [str] or a list the result printed is the input
    itself ([1 * x]); and the schema sent to the model declares the
    parameter under the name [args], so that arguments which follow the
    schema and hold no [input] make the cell raise KeyError, with no local
    function entered. *)
Theorem multiply_in_the_alternate_cell_gives_back_its_input
    (m : message) (fc : function_call) (d : list (pystr * value)) (w : world) :
  msg_function_call m = Has fc ->
  fc_name fc = py "multiply" ->
  Json.loads (fc_arguments fc) = Returns (VDict d) ->
  match dict_get d (py "input") with
  | None =>
      exists e, exn_class e = KeyError
                /\ AlternateCases.dispatch AlternateCases.available_funcs m w
                   = (Raises e, w)
  | Some x =>
      match x with
      | VInt _ | VStr _ | VList _ =>
          AlternateCases.dispatch AlternateCases.available_funcs m w
          = (Returns tt, printing [Value x] (entering [py "multiply"] w))
      | _ => True
      end
  end.
Proof.
  intros Hfc Hname Hd. rewrite (alternate_dispatch_multiply m fc d w) by done.
  destruct (dict_get d (py "input")) as [x|]; [|raises_it].
  pose proof (multiply_one x) as Hone.
  unfold AlternateCases.multiply, lift. cbn [fold_outcome].
  destruct x; try done; by rewrite Hone.
Qed.

(** X17. For every turn that requests [alternate_cases] with arguments
    that decode to an object whose [input] is a text, whatever the layout
    of the arguments and whatever else the object holds, the cell prints
    that text with its cases alternated by position, and
    [alternate_cases] is the one local function entered. *)
Theorem alternate_cell_prints_the_alternated_text
    (m : message) (fc : function_call) (d : value) (text : pystr) (w : world) :
  msg_function_call m = Has fc ->
  fc_name fc = py "alternate_cases" ->
  Json.loads (fc_arguments fc) = Returns d ->
  getitem d (py "input") = Returns (VStr text) ->
  AlternateCases.dispatch AlternateCases.available_funcs m w
  = (Returns tt,
     printing [Value (VStr (alternated 0 text))] (entering [py "alternate_cases"] w)).
Proof.
  intros Hfc Hname Hd Hin.
  unfold AlternateCases.dispatch. rewrite Hfc. cbn zeta. rewrite Hname.
  destruct (first_named_declared (py "alternate_cases") ltac:(by right)) as [spec Hspec].
  rewrite run_lift_bind, Hspec. rewrite run_lift_bind, Hd.
  rewrite run_lift_bind. unfold lookup_function. rewrite lookup_alternate_cases.
  rewrite run_lift_bind, Hin.
  rewrite run_bind, run_enter_bind. by rewrite alternate_cases_alternated.
Qed.

End MoreAlternateCasesFacts.

(** The sentence of the notebook, cut after [hello ] (six characters). *)
Lemma hello_and_I_am_Bob_apart :
  exists a b,
    @AlternateCases.alternate_cases AlternateCases.latin1_case
      (VStr (py "hello ")) blank = (Returns (VStr a), blank)
    /\ @AlternateCases.alternate_cases AlternateCases.latin1_case
         (VStr (py "I am Bob")) blank = (Returns (VStr b), blank)
    /\ @AlternateCases.alternate_cases AlternateCases.latin1_case
         (VStr (py "hello " ++ py "I am Bob")) blank
       = (Returns (VStr (a ++ b)), blank).
Proof.
  exact (@alternate_cases_of_two_parts AlternateCases.latin1_case
           (py "hello ") (py "I am Bob") blank eq_refl).
Defined.

(** The sentence of the notebook, converted twice. *)
Lemma hElLo_i_aM_BoB_stays :
  @AlternateCases.alternate_cases AlternateCases.latin1_case
    (VStr (py "hElLo i aM BoB")) blank
  = (Returns (VStr (py "hElLo i aM BoB")), blank).
Proof.
  apply (@alternate_cases_twice_is_once AlternateCases.latin1_case
           (py "hello I am Bob") (py "hElLo i aM BoB") blank); [|reflexivity].
  repeat (apply Forall_cons; split; [eexists _, _; repeat split; reflexivity|]).
  apply Forall_nil_2.
Defined.

(** [multiply] through the cell, on arguments that follow the schema
    ([args]) and on arguments that the cell can read ([input]). *)
Lemma multiply_2_3_is_not_multiplied :
  (exists e, exn_class e = KeyError
             /\ AlternateCases.dispatch
                  (@AlternateCases.available_funcs AlternateCases.latin1_case)
                  (requesting (py "multiply") (json_object "args" "[2, 3]")) blank
                = (Raises e, blank))
  /\ AlternateCases.dispatch
       (@AlternateCases.available_funcs AlternateCases.latin1_case)
       (requesting (py "multiply") (json_object "input" "[2, 3]")) blank
     = (Returns tt,
        printing [Value (VList [VInt 2; VInt 3])] (entering [py "multiply"] blank)).
Proof.
  split.
  - exact (@multiply_in_the_alternate_cell_gives_back_its_input
             AlternateCases.latin1_case
             (requesting (py "multiply") (json_object "args" "[2, 3]"))
             (FunctionCall (py "multiply") (json_object "args" "[2, 3]"))
             [(py "args", VList [VInt 2; VInt 3])] blank eq_refl eq_refl
             ltac:(vm_compute; reflexivity)).
  - exact (@multiply_in_the_alternate_cell_gives_back_its_input
             AlternateCases.latin1_case
             (requesting (py "multiply") (json_object "input" "[2, 3]"))
             (FunctionCall (py "multiply") (json_object "input" "[2, 3]"))
             [(py "input", VList [VInt 2; VInt 3])] blank eq_refl eq_refl
             ltac:(vm_compute; reflexivity)).
Defined.

(** The sentence of the notebook through the cell. *)
Lemma hello_I_am_Bob_through_the_cell :
  AlternateCases.dispatch
    (@AlternateCases.available_funcs AlternateCases.latin1_case)
    alternate_hello blank
  = (Returns tt,
     printing [Value (VStr (py "hElLo i aM BoB"))]
       (entering [py "alternate_cases"] blank)).
Proof.
  apply (@alternate_cell_prints_the_alternated_text AlternateCases.latin1_case
           alternate_hello
           (FunctionCall (py "alternate_cases")
              (json_object_str "input" "hello I am Bob"))
           (VDict [(py "input", VStr (py "hello I am Bob"))])
           (py "hello I am Bob") blank eq_refl eq_refl);
    [vm_compute; reflexivity | reflexivity].
Defined.

(** ** More on the coffee notebook *)

Lemma lookup_coffee (name : pystr) :
  Coffee.available_functions !! name
  = if decide (name = py "coffee") then Some Coffee.coffee else None.
Proof.
  unfold Coffee.available_functions. destruct (decide _) as [->|Hname].
  - apply lookup_insert_eq.
  - rewrite lookup_insert_ne by done. apply lookup_empty.
Qed.

(** X18. The end of a round of the coffee notebook returns exactly on the
    turns it can serve: those without a function call, and those that
    request [coffee] with arguments that decode to an object with a key
    [order]. When it returns, the last two lines printed are the two rules;
    on every other turn (another function, arguments that do not decode, no
    [order]) it raises and leaves no trace: nothing is printed, the rules
    neither, and no local function is entered. *)
Theorem coffee_cell_closes_the_round_or_raises (m : message) (w : world) :
  let run := Coffee.dispatch Coffee.available_functions m w in
  (run.1 = Returns tt <->
   forall fc, msg_function_call m = Has fc ->
     fc_name fc = py "coffee"
     /\ exists order,
          (d ← Json.loads (fc_arguments fc); getitem d (py "order")) = Returns order)
  /\ (run.1 = Returns tt ->
      exists xs, stdout run.2 = stdout w ++ xs ++ [Text Coffee.rule; Text Coffee.rule])
  /\ (run.1 <> Returns tt -> run.2 = w).
Proof.
  cbn zeta. unfold Coffee.dispatch. rewrite run_bind.
  destruct (msg_function_call m) as [| |fc].
  - split; [|split]; [by split | |done].
    intros _. exists [Text (py "no function was returned")]. simpl.
    by rewrite <- !app_assoc.
  - split; [|split]; [by split | |done].
    intros _. exists [Text (py "no function was returned")]. simpl.
    by rewrite <- !app_assoc.
  - rewrite run_lift_bind.
    destruct (d ← Json.loads (fc_arguments fc); getitem d (py "order"))
      as [order|e] eqn:Horder.
    + rewrite run_lift_bind. unfold lookup_function. rewrite lookup_coffee.
      destruct (decide (fc_name fc = py "coffee")) as [Hname|Hname].
      * split; [|split]; [| |done].
        -- split; [|done]. intros _ fc' Heq. injection Heq as <-.
           split; [exact Hname|]. exists order. exact Horder.
        -- intros _. exists [TextJson (py "Ordering coffee: ") order]. simpl.
           by rewrite <- !app_assoc.
      * split; [|split]; [|done|done].
        split; [done|]. intros Hall. by destruct (Hall fc eq_refl) as [? _].
    + split; [|split]; [|done|done].
      split; [done|]. intros Hall.
      destruct (Hall fc eq_refl) as [_ [order Ho]]. congruence.
Qed.

Lemma coffee_dispatch_offline (m : message) (w : world) :
  offline (Coffee.dispatch Coffee.available_functions m w) w.
Proof.
  unfold Coffee.dispatch. rewrite run_bind.
  destruct (msg_function_call m) as [| |fc]; try done.
  rewrite run_lift_bind.
  destruct (d ← Json.loads (fc_arguments fc); getitem d (py "order"))
    as [f_args|e]; [|done].
  rewrite run_lift_bind. unfold lookup_function. rewrite lookup_coffee.
  by destruct (decide (fc_name fc = py "coffee")).
Qed.

Lemma coffee_round_run (input : pystr) (w : world) :
  is_Some (api_key w) ->
  offline (Coffee.round input w) (sent (coffee_request input) w).
Proof.
  intros Hkey. unfold Coffee.round. cbn zeta.
  rewrite run_request_bind by done. cbn zeta.
  destruct (next_outcome w) as [r|e]; rewrite run_message_bind; [|done].
  destruct (resp_message r) as [m|e]; [|done].
  rewrite run_bind. unfold pretty_print_conversation.
  change (print ?x ?w0) with (Returns tt, printing [x] w0). cbv iota beta.
  apply (coffee_dispatch_offline m
           (printing [Conversation ([Message RoleSystem
               (Some (py "Extract user input into structured data")) Missing None]
             ++ [Message RoleUser (Some input) Missing None] ++ [m])]
              (sent (coffee_request input) w))).
Qed.

(** X19. The loop of the coffee notebook sends one request per round, in
    the order of the inputs, and every request holds just the instruction
    and the input of its round: no turn of an earlier round is carried
    over. The requests on record after the loop are those of the first [k]
    inputs, [k] replies of the network are used up, and when the loop
    returns, [k] is the number of inputs (when a round raises, the loop
    stops there and the later inputs are not sent). *)
Theorem coffee_rounds_send_one_fresh_request_each (inputs : list pystr) (w : world) :
  is_Some (api_key w) ->
  exists k,
    k <= length inputs
    /\ posted (Coffee.for_each inputs w).2
       = posted w ++ List.map coffee_request (take k inputs)
    /\ net (Coffee.for_each inputs w).2 = drop k (net w)
    /\ ((Coffee.for_each inputs w).1 = Returns tt -> k = length inputs).
Proof.
  revert w. induction inputs as [|input inputs IH]; intros w Hkey.
  - exists 0. simpl. by rewrite app_nil_r, drop_0.
  - cbn [Coffee.for_each]. rewrite run_bind.
    destruct (coffee_round_run input w Hkey) as (Hk & Hn & Hp).
    destruct (Coffee.round input w) as [[[]|e] w1]; simpl in Hk, Hn, Hp.
    + destruct (IH w1) as (k & Hle & Hposted & Hnet & Hdone); [by rewrite Hk|].
      exists (S k). split; [simpl; lia|]. split; [|split].
      * rewrite Hposted, Hp. cbn [take List.map]. by rewrite <- app_assoc.
      * rewrite Hnet, Hn. destruct (net w); [simpl; by rewrite drop_nil | done].
      * intros Hret. simpl. by rewrite Hdone.
    + exists 1. split; [simpl; lia|]. split; [|split]; simpl.
      * by rewrite ?take_0.
      * rewrite Hn. by destruct (net w).
      * done.
Qed.

(** The two rounds the notebook recorded: two requests, of two turns
    each. *)
Lemma two_coffee_rounds_two_requests :
  posted (Coffee.for_each [tall_latte_please; weather_in_London]
            (online [delivers latte_order; delivers not_about_coffee])).2
  = [coffee_request tall_latte_please; coffee_request weather_in_London].
Proof.
  destruct (coffee_rounds_send_one_fresh_request_each
              [tall_latte_please; weather_in_London]
              (online [delivers latte_order; delivers not_about_coffee])
              (ex_intro _ _ eq_refl))
    as (k & Hle & Hposted & _ & Hdone).
  rewrite Hposted, (Hdone ltac:(vm_compute; reflexivity)). reflexivity.
Defined.

(** ** The schema of the database *)

Section SchemaFacts.
Context `{Display}.

Lemma tuple_loop {A} (g : A -> value) (i : nat) (rows : list Chinook.row)
    (xs : list A) (acc : list value) :
  Forall2 (fun (r : Chinook.row) x => r !! i = Some (g x)) rows xs ->
  fold_outcome (fun names r =>
                  name ← Chinook.tuple_item r i; Returns (names ++ [name]))
               rows acc
  = Returns (acc ++ List.map g xs).
Proof.
  intros Hrows. revert acc.
  induction Hrows as [|r x rows xs Hr _ IH]; intros acc; simpl.
  - by rewrite app_nil_r.
  - unfold Chinook.tuple_item. rewrite Hr. simpl. rewrite IH.
    by rewrite <- app_assoc.
Qed.

Lemma get_column_names_lists (conn : Chinook.database) (t : table)
    (rows : list Chinook.row) :
  conn (VStr (Chinook.table_info_query (VStr t.1))) = Returns rows ->
  Forall2 (fun (r : Chinook.row) (c : pystr) => r !! 1 = Some (VStr c)) rows t.2 ->
  Chinook.get_column_names conn (VStr t.1) = Returns (List.map VStr t.2).
Proof.
  intros Hconn Hrows. unfold Chinook.get_column_names. rewrite Hconn.
  change (mbind ?f (Returns ?a)) with (f a).
  exact (tuple_loop VStr 1 rows t.2 [] Hrows).
Qed.

Lemma database_info_loop (conn : Chinook.database) (tables : list table)
    (acc : list value) :
  Forall (fun t : table =>
            Chinook.get_column_names conn (VStr t.1) = Returns (List.map VStr t.2))
         tables ->
  fold_outcome (fun table_dicts table_name =>
                  columns_names ← Chinook.get_column_names conn table_name;
                  Returns (table_dicts
                           ++ [VDict [(py "table_name", table_name);
                                      (py "column_names", VList columns_names)]]))
               (List.map (fun t : table => VStr t.1) tables) acc
  = Returns (acc ++ List.map table_dict tables).
Proof.
  intros Htables. revert acc.
  induction Htables as [|t tables Ht _ IH]; intros acc; simpl.
  - by rewrite app_nil_r.
  - rewrite Ht. simpl. rewrite IH. by rewrite <- app_assoc.
Qed.

Lemma str_join_strs (sep : pystr) (strs : list pystr) :
  str_join sep (VList (List.map VStr strs)) = Returns (join_with sep strs).
Proof.
  unfold str_join. cbn [iterate]. change (mbind ?f (Returns ?a)) with (f a).
  cbn beta.
  assert (forall acc,
            fold_outcome (fun strs x =>
                            match x with
                            | VStr s => Returns (strs ++ [s])
                            | _ => Raises (type_error "sequence item: expected str instance")
                            end)
                         (List.map VStr strs) acc
            = Returns (acc ++ strs)) as Hloop.
  { induction strs as [|s strs IH]; intros acc; simpl.
    - by rewrite app_nil_r.
    - rewrite IH. by rewrite <- app_assoc. }
  by rewrite Hloop.
Qed.

Lemma schema_loop (tables : list table) (acc : list pystr) :
  fold_outcome (fun blocks table =>
                  table_name ← getitem table (py "table_name");
                  column_names ← getitem table (py "column_names");
                  columns ← str_join (py ", ") column_names;
                  Returns (blocks ++ [py "Table: " ++ str_value table_name
                                      ++ [10%N] ++ py "Columns: " ++ columns]))
               (List.map table_dict tables) acc
  = Returns (acc ++ List.map (fun t : table =>
                                py "Table: " ++ t.1 ++ [10%N] ++ py "Columns: "
                                ++ join_with (py ", ") t.2)
                             tables).
Proof.
  revert acc. induction tables as [|t tables IH]; intros acc; simpl.
  - by rewrite app_nil_r.
  - change (getitem (table_dict t) (py "table_name")) with (Returns (VStr t.1)).
    change (mbind ?f (Returns ?a)) with (f a). cbn beta.
    change (getitem (table_dict t) (py "column_names"))
      with (Returns (VList (List.map VStr t.2))).
    change (mbind ?f (Returns ?a)) with (f a). cbn beta.
    rewrite str_join_strs. simpl. rewrite IH. by rewrite <- app_assoc.
Qed.

Lemma database_schema_string_text (tables : list table) :
  Chinook.database_schema_string (List.map table_dict tables)
  = Returns (schema_text tables).
Proof.
  unfold Chinook.database_schema_string.
  by rewrite (schema_loop tables []).
Qed.

(** X20. On a database that lists its tables and their columns,
    [get_table_names] returns the names of the tables in the order of the
    catalogue, [get_column_names] returns for each table the names of its
    columns in order, [get_database_info] returns one dict per table with
    that name and those columns, and the schema text made of it holds, for
    each table in order, a line [Table: ] with its name and a line
    [Columns: ] with its columns separated by commas. *)
Theorem database_info_lists_every_table (conn : Chinook.database)
    (tables : list table) :
  lists_tables conn tables ->
  Chinook.get_table_names conn = Returns (List.map (fun t : table => VStr t.1) tables)
  /\ Forall (fun t : table =>
               Chinook.get_column_names conn (VStr t.1)
               = Returns (List.map VStr t.2))
            tables
  /\ Chinook.get_database_info conn = Returns (List.map table_dict tables)
  /\ (database_schema_dict ← Chinook.get_database_info conn;
      Chinook.database_schema_string database_schema_dict)
     = Returns (schema_text tables).
Proof.
  intros [(rows & Hrows & Hnames) Hcolumns].
  assert (Chinook.get_table_names conn
          = Returns (List.map (fun t : table => VStr t.1) tables)) as Htables.
  { unfold Chinook.get_table_names. rewrite Hrows.
    change (mbind ?f (Returns ?a)) with (f a).
    exact (tuple_loop (fun t : table => VStr t.1) 0 rows tables [] Hnames). }
  assert (Forall (fun t : table =>
                    Chinook.get_column_names conn (VStr t.1)
                    = Returns (List.map VStr t.2)) tables) as Hcols.
  { eapply Forall_impl; [exact Hcolumns|].
    intros t (crows & Hconn & Hc). by apply (get_column_names_lists conn t crows). }
  assert (Chinook.get_database_info conn = Returns (List.map table_dict tables))
    as Hinfo.
  { unfold Chinook.get_database_info. rewrite Htables.
    change (mbind ?f (Returns ?a)) with (f a).
    exact (database_info_loop conn tables [] Hcols). }
  split; [done|]. split; [done|]. split; [done|].
  rewrite Hinfo. change (mbind ?f (Returns ?a)) with (f a).
  apply database_schema_string_text.
Qed.

Lemma database_info_loop_fails (conn : Chinook.database) (before : list table)
    (name : pystr) (rest acc : list value) (e : exn) :
  Forall (fun t : table =>
            Chinook.get_column_names conn (VStr t.1) = Returns (List.map VStr t.2))
         before ->
  conn (VStr (Chinook.table_info_query (VStr name))) = Raises e ->
  fold_outcome (fun table_dicts table_name =>
                  columns_names ← Chinook.get_column_names conn table_name;
                  Returns (table_dicts
                           ++ [VDict [(py "table_name", table_name);
                                      (py "column_names", VList columns_names)]]))
               (List.map (fun t : table => VStr t.1) before ++ VStr name :: rest) acc
  = Raises e.
Proof.
  intros Hbefore He. revert acc.
  induction Hbefore as [|t before Ht _ IH]; intros acc; simpl.
  - unfold Chinook.get_column_names. by rewrite He.
  - rewrite Ht. simpl. apply IH.
Qed.

(** X21. [get_database_info] gives no partial result: when the columns of
    the tables before some table are read and the query about the columns
    of that table fails, [get_database_info] raises the exception of that
    query, whatever tables come after. *)
Theorem database_info_stops_at_a_failing_table (conn : Chinook.database)
    (before after : list table) (name : pystr) (e : exn) :
  Chinook.get_table_names conn
  = Returns (List.map (fun t : table => VStr t.1) before
             ++ VStr name :: List.map (fun t : table => VStr t.1) after) ->
  Forall (fun t : table =>
            Chinook.get_column_names conn (VStr t.1) = Returns (List.map VStr t.2))
         before ->
  conn (VStr (Chinook.table_info_query (VStr name))) = Raises e ->
  Chinook.get_database_info conn = Raises e.
Proof.
  intros Hnames Hbefore He. unfold Chinook.get_database_info. rewrite Hnames.
  change (mbind ?f (Returns ?a)) with (f a).
  by apply database_info_loop_fails.
Qed.

End SchemaFacts.

(** The schema of the database of two tables. *)
Lemma schema_of_the_music_database :
  @lists_tables scalars music_database music_tables
  /\ (database_schema_dict ← @Chinook.get_database_info scalars music_database;
      @Chinook.database_schema_string scalars database_schema_dict)
     = Returns (py "Table: artists" ++ [10%N] ++ py "Columns: ArtistId, Name"
                ++ [10%N] ++ py "Table: albums" ++ [10%N]
                ++ py "Columns: AlbumId, Title, ArtistId").
Proof.
  assert (@lists_tables scalars music_database music_tables) as Hlists.
  { split.
    - eexists. split; [reflexivity|]. by repeat constructor.
    - repeat (apply Forall_cons; split;
                [eexists; split; [reflexivity|]; by repeat constructor|]).
      apply Forall_nil_2. }
  split; [exact Hlists|].
  exact (proj2 (proj2 (proj2 (@database_info_lists_every_table scalars
                                music_database music_tables Hlists)))).
Defined.

(** The same database while the table of the albums cannot be read. *)
Lemma locked_albums_fail_the_database_info :
  @Chinook.get_database_info scalars half_locked_database = Raises locked.
Proof.
  apply (@database_info_stops_at_a_failing_table scalars half_locked_database
           [(py "artists", [py "ArtistId"; py "Name"])] [] (py "albums") locked).
  - reflexivity.
  - by repeat constructor.
  - reflexivity.
Defined.

(** ** The sentiment notebook *)


Section SentimentFacts.
Context `{Display}.


Lemma lookup_sentiment (name : pystr) :
  Summarise.available_functions !! name
  = if decide (name = py "sentiment") then Some Summarise.sentiment else None.
Proof.
  unfold Summarise.available_functions. destruct (decide _) as [->|Hname].
  - apply lookup_insert_eq.
  - rewrite lookup_insert_ne by done. apply lookup_empty.
Qed.

Lemma sentiment_offline (kwargs : list (pystr * value)) (w : world) :
  offline (Summarise.sentiment kwargs w) w.
Proof. unfold Summarise.sentiment. by destruct (bool_decide _). Qed.

Lemma sentiment_dispatch_offline (m : message) (w : world) :
  offline (Summarise.dispatch Summarise.available_functions m w) w.
Proof.
  unfold Summarise.dispatch.
  destruct (msg_function_call m) as [| |fc]; try done.
  rewrite run_lift_bind.
  destruct (Json.loads (fc_arguments fc)) as [f_args|e]; [|done].
  rewrite run_lift_bind. unfold lookup_function. rewrite lookup_sentiment.
  destruct (decide (fc_name fc = py "sentiment")) as [Hname|Hname]; [|done].
  rewrite run_lift_bind. destruct (Summarise.keywords f_args) as [kwargs|e]; [|done].
  rewrite run_bind.
  destruct (sentiment_offline kwargs w) as (Hk & Hn & Hp).
  by destruct (Summarise.sentiment kwargs w) as [[result|e] w'].
Qed.

Lemma sentiment_round_run (input : pystr) (w : world) :
  is_Some (api_key w) ->
  offline (Summarise.round input w) (sent (sentiment_request input) w).
Proof.
  intros Hkey. unfold Summarise.round. cbn zeta.
  rewrite run_request_bind by done. cbn zeta.
  destruct (next_outcome w) as [r|e]; rewrite run_message_bind; [|done].
  destruct (resp_message r) as [m|e]; [|done].
  rewrite run_bind.
  change (print ?x ?w0) with (Returns tt, printing [x] w0). cbv iota beta.
  apply (sentiment_dispatch_offline m
           (printing [Value (message_value m)] (sent (sentiment_request input) w))).
Qed.

(** X23. The loop of the sentiment notebook writes each input over the
    second of its two turns before it sends them: one request per round, in
    the order of the inputs, each holding the instruction and the input of
    its round only, with the schema of [sentiment] and forcing that
    function. The requests on record after the loop are those of the first
    [k] inputs, [k] replies of the network are used up, and when the loop
    returns, [k] is the number of inputs. *)
Theorem sentiment_rounds_send_the_current_input_only (inputs : list pystr) (w : world) :
  is_Some (api_key w) ->
  exists k,
    k <= length inputs
    /\ posted (Summarise.for_each inputs w).2
       = posted w ++ List.map sentiment_request (take k inputs)
    /\ net (Summarise.for_each inputs w).2 = drop k (net w)
    /\ ((Summarise.for_each inputs w).1 = Returns tt -> k = length inputs).
Proof.
  revert w. induction inputs as [|input inputs IH]; intros w Hkey.
  - exists 0. simpl. by rewrite app_nil_r, drop_0.
  - cbn [Summarise.for_each]. rewrite run_bind.
    destruct (sentiment_round_run input w Hkey) as (Hk & Hn & Hp).
    destruct (Summarise.round input w) as [[[]|e] w1]; simpl in Hk, Hn, Hp.
    + destruct (IH w1) as (k & Hle & Hposted & Hnet & Hdone); [by rewrite Hk|].
      exists (S k). split; [simpl; lia|]. split; [|split].
      * rewrite Hposted, Hp. cbn [take List.map]. by rewrite <- app_assoc.
      * rewrite Hnet, Hn. destruct (net w); [simpl; by rewrite drop_nil | done].
      * intros Hret. simpl. by rewrite Hdone.
    + exists 1. split; [simpl; lia|]. split; [|split]; simpl.
      * by rewrite ?take_0.
      * rewrite Hn. by destruct (net w).
      * done.
Qed.

End SentimentFacts.

(** Two rounds of the sentiment notebook, one answered with a call of
    [sentiment] and one with a text: two requests, each with its own
    input. *)
Lemma two_sentiment_rounds_two_requests :
  posted (@Summarise.for_each scalars
            [py "Great! another meeting to savour"; py "Oh no"]
            (online [delivers positive_sentiment; delivers (answering (py "Negative"))])).2
  = [sentiment_request (py "Great! another meeting to savour");
     sentiment_request (py "Oh no")].
Proof.
  destruct (@sentiment_rounds_send_the_current_input_only scalars
              [py "Great! another meeting to savour"; py "Oh no"]
              (online [delivers positive_sentiment;
                       delivers (answering (py "Negative"))])
              (ex_intro _ _ eq_refl))
    as (k & Hle & Hposted & _ & Hdone).
  rewrite Hposted, (Hdone ltac:(vm_compute; reflexivity)). reflexivity.
Defined.

Example sentiment_round_on_a_call :
  let run :=
    @Summarise.for_each scalars [py "Great! another meeting to savour"]
      (online [delivers positive_sentiment]) in
  run.1 = Returns tt
  /\ stdout run.2
     = [Value (message_value positive_sentiment);
        Text (py "sentiment of " ++ [dquote] ++ [dquote] ++ py " is "
              ++ [dquote] ++ py "Positive" ++ [dquote]
              ++ py " with score 0 using algorithm chatgpt magic")]
  /\ entered run.2 = [py "sentiment"].
Proof. vm_compute. done. Qed.
